(* ===== verification/_CoqProject ===== *)
-Q . S2P
Prelude.v
PyFloat.v
AspectRatio.v
Payload.v
Base64.v
PyRepr.v
Json.v
JsonText.v
Argparse.v
SaveImage.v
World.v
Client.v
Cli.v
