(* ===== verification/Prelude.v ===== *)
(** * A verification development of [venice-image] (src/venice_image_gen.py)

    The program is a command-line client of an image-generation HTTP API.
    One Python file, [src/venice_image_gen.py], holds all of it:

    - [parse_aspect_ratio] (lines 141-168) resolves an aspect-ratio token,
      either a preset of the class table [ASPECT_RATIOS] (lines 25-38) or a
      custom ["W:H"] ratio parsed with Python's [float] and turned into
      pixel dimensions with float arithmetic, [int] truncation and a
      rounding to a multiple of 8;
    - [VeniceImageGenerator.generate_image] (lines 73-110) builds the JSON
      payload of the request (fixed fields, then the optional parameters
      that are present and not [None]), POSTs it and reports failures;
    - [VeniceImageGenerator.save_image] (lines 112-138) picks a file name
      that does not exist yet (a loop adding ["_1"], ["_2"], ...) and writes
      the base64-decoded image there;
    - [VeniceImageGenerator.list_models] (lines 48-71) GETs and prints the
      model list;
    - [main] (lines 171-291) wires these together: the API key, the
      command line (an [argparse.ArgumentParser] with fourteen options
      and a positional prompt, lines 192-222), the argument checks, the [gen_params] dictionary built by truthiness
      tests, the request, the image check, the save and the report.

    ** Files of the development (in dependency order)

    - [Prelude] (this file): the Python runtime the program relies on:
      exceptions as values ([exn], the result monad [res] with its
      notation in [py_scope]), Latin-1 characters and the string methods
      the code calls ([str.lower], [str.split], [in], [str.strip]'s
      whitespace), decimal rendering of ints ([f"{n}"]), checking a
      boolean property on a range by evaluation ([all_range]), and the
      shared lemmas with the [py] hint databases.
    - [PyFloat]: Python's [float] as IEEE 754 binary64 ([SpecFloat] of the
      Standard Library, axiom-free, precision 53, [emax] 1024): [float(str)]
      with CPython's grammar and correct rounding, [int * float],
      [float / float] ([ZeroDivisionError] on a zero divisor), [>=], and
      [int(float)] ([ValueError] on NaN, [OverflowError] on infinities).
    - [AspectRatio]: [ASPECT_RATIOS], [parse_aspect_ratio] and [round8].
    - [Payload]: Python dicts as insertion-ordered association lists
      ([Dict]); the payload of [generate_image] ([Request], lines 78-95);
      the parsed arguments [GenParams.Args] and the [gen_params] of [main]
      with its [--ar] checks ([GenParams], lines 237-267).
    - [Base64]: [base64.b64decode] as called on line 132: the ASCII check
      and binascii's non-strict [a2b_base64] as a state machine (position
      in the quantum, pending bits, pads), with its error messages, and
      the standard encoder for the round trip.
    - [PyRepr]: [repr] of floats (shortest round-tripping digits, CPython's
      layout), [format(x, '.2f')], and [repr] of strings.
    - [Json]: the values [response.json()] returns and each Python
      operation the program applies to them ([.get], truthiness,
      iteration, [[0]], [', '.join], [str], [json.dumps(indent=2)],
      [/ 1000]) with CPython's exceptions and messages.
    - [JsonText]: the JSON text on the wire. [encode] is
      [json.dumps(payload, allow_nan=False)] as [requests] calls it for
      [json=payload] (CPython 3.11's C encoder: separators, [ensure_ascii]
      escapes, [float.__repr__], the 4300-digit limit of [int.__repr__],
      [ValueError] on NaN and infinities); [loads] is [json.loads] as
      [response.json()] calls it, a translation of [_json.c]'s
      [scan_once_unicode] (strings with every escape and the control
      character check, numbers with the backtracking of
      [_match_number_unicode], [NaN]/[Infinity], arrays, objects with
      repeated keys) as three mutually recursive scanners with fuel, and
      [JSONDecodeError]'s message with line, column and position.
    - [SaveImage]: pathlib's [str]/[name]/[stem]/[suffix] ([PathLib]) and
      the collision loop of lines 116-128 over a finite set of existing
      paths ([Collision]).
    - [World]: the environment as a state: the file system ([disk]:
      files with their bytes, directories, directories where creation is
      refused), the HTTP service (a function from the request to its
      outcome, standing for [requests] and the server), the requests sent
      (a POST body is first encoded by [World.prepare], whose
      [InvalidJSONError] stops the request before it is sent; a
      response carries its text, which [Client.response_json] decodes),
      the output lines and the key; the state and exception monad [prog]
      the handlers are written in; [Path.exists] and [open(..., 'wb')]
      with their OS errors; and the footprint calculus ([frame],
      [at_most_one], tactic [footprint]) that bounds the effects of a
      composite handler.
    - [Client]: the three methods of [VeniceImageGenerator] in [prog]:
      [list_models], [generate_image] (with [raise_for_status],
      [response.json()] turning only a [JSONDecodeError] into a
      [RequestException],
      [Response.__bool__] and the [except] block), [save_image] (the loop
      against the disk, proved equal to [Collision.find_free]).
    - [Argparse]: the parser of lines 192-222 as its table of actions
      ([store_true], [store] with [type=] and [choices=], [help]) and
      CPython 3.11's [parse_args] over [sys.argv[1:]]: the classification
      of each argument ([_parse_optional] with [--opt=value], unique
      prefixes and negative numbers), the [O]/[A]/[-] pattern, the main
      loop ([consume_optional] with its explicit-argument loop and
      [consume_positionals]), [_get_values] with the removal of [--],
      [int()] and [float()] conversions, [_check_value], the default
      namespace and the [parser.error] messages; [cmdline_of] turns its
      outcome into what [main] receives (a [GenParams.Args], an error
      message, or the help request).
    - [Cli]: [main] and [run], the process: exit status [0], the code of
      [sys.exit], [2] for [parser.error], [1] for an uncaught exception;
      [run_argv], the process on a list of command-line arguments.

    ** Theorems, by group (claim ids C1-C40 of PROJECT.json)

    - Aspect ratios: every preset token resolves to its table entry in any
      letter case; every custom integer ratio ["W:H"] with [1 <= W, H <= 100]
      that is not a preset resolves through the float pipeline to the
      exact-arithmetic result (a boolean check evaluated over all 10000
      pairs); bad tokens raise the [ValueError] of line 168, while zero and
      huge parts escape as [ZeroDivisionError] or [OverflowError]; results
      are multiples of 8 with a side of 1024; [round8] rounds up.
    - Payload: fixed fields; an optional key is present exactly when
      passed and not [None]; keys unique; [gen_params] drops falsy values;
      the [--ar] conflict check; presets reach the payload.
    - Base64: the round trip with the standard encoding; characters
      outside the alphabet are skipped; every output is a byte (an
      invariant of the decoder state preserved by every step); the
      padding errors; decoding stops at the pad.
    - Saving: the loop terminates and returns a free name whose earlier
      candidates all exist; [save_image] writes exactly that name, never an
      existing path; decode errors leave the disk untouched.
    - The command line: a parsed namespace holds under each option a
      value of the type its [add_argument] declares (an invariant of the
      parse loop); rendering
      any arguments as [--opt=value] ... [--] [prompt] parses back to
      them; unique prefixes ([--w]) are read as the option; an ambiguous
      prefix is a [parser.error] even after [-h].
    - The whole program on a command line: a rejected command line
      exits 2 with the parser's message; [-- <prompt>] with a service
      that returns an image exits 0 with the decoded bytes in a fresh
      file (a liveness property: the run does produce the file).
    - JSON on the wire: the body sent for [generate_image] decodes to
      exactly its payload (a refinement of the transport, resting on the
      lemma that [json.loads] reads back what [json.dumps] writes); a NaN or infinite [--cfg-scale] is
      refused before any request and exits 1; a success body that is
      not JSON exits 1 with the decoder's message; an int beyond 4300
      digits in a success body escapes the handler as a traceback.
    - The process: without a key it exits 1 before parsing; the argument
      errors exit 2 before any request; every run sends at most one
      request and leaves the disk unchanged or with exactly one new file;
      a generation sends exactly the payload of [GenParams.request_payload];
      HTTP errors never show the error body; zero images exit 1; a normal
      return has written and reported one fresh file; a malformed timing
      value fails the run after the file is written; the time line is the
      total rounded to the hundredth.

    ** Bounds and fuel

    Two loops are modelled with fuel. The collision loop gets
    [size (existing paths) + 2] iterations: [Collision.find_free_enough]
    shows that this always finds a free name (the candidates are pairwise
    distinct, so at most [size] of them exist), and [save_image] never
    takes its out-of-fuel branch. The shortest-digit search of
    [float.__repr__] tries 1 to 16 digits and then takes the nearest
    17-digit decimal, which always reads back. The exhaustive checks are
    bounded: integer ratios up to 100, totals under 100000 ms. The
    JSON scanner [JsonText.scan_value] gets [2 * length + 1] units of
    fuel for a text of that length: every value and every array or
    object step consumes a character, which [JsonText.scan_value_enough]
    turns into a proof that the fuel never runs out, and
    [JsonText.scan_value_more] shows that more fuel gives the same
    result.

    ** Not modelled (see PROJECT.json)

    argparse's usage and help texts (events, not strings); its
    [fromfile_prefix_chars] and [exit_on_error] paths, which the parser
    does not enable; [--model=--] and [--format=--], on which [main]
    would receive a list (the model returns [None]); what [requests] does between the call and the
    response (the network, redirects, the server); Unicode beyond
    Latin-1 (a character is an 8-bit code point, so a response text
    with a [\uXXXX] escape above [U+00FF] is outside the model, which
    [JsonText.in_model] excludes); the recursion limit that a deeply
    nested response would hit in [json.loads]; [simplejson], which
    [requests] would use instead of [json] if it were installed; symbolic links
    and [..] in paths; the race between the existence check and the
    write; the errors of [open] and [write] other than those of the
    path ([ENOSPC], [EIO], permission bits of files: a directory either
    accepts new files or refuses them), and the [PermissionError] that
    [Path.exists()] raises on an unsearchable directory. [open(f, 'wb')]
    follows Linux [open] with [O_CREAT], including the [EISDIR] of a
    name ending in a slash or ["/."] ([World.open_write_trailing]
    records the errors CPython 3.11 raises). *)

From Stdlib Require Import ZArith String Ascii Lia.
From stdpp Require Export base strings list gmap pretty.

Open Scope string_scope.

Declare Scope py_scope.
Delimit Scope py_scope with py.

(** ** Python exceptions as values *)

(** The exception classes the program raises or lets escape. The
    message is kept where the program shows it to the user. *)
Inductive exn : Type :=
| ValueError (msg : string)
| ZeroDivisionError (msg : string)
| OverflowError (msg : string)
| TypeError (msg : string)
| AttributeError (msg : string)
| KeyError (msg : string)
| IndexError (msg : string)
  (** [OSError] and its subclasses: [errno], [strerror] and the file
      name, shown as [[Errno n] strerror: 'filename']. *)
| OSError (errno : Z) (strerror : string) (filename : string)
| SystemExit (code : Z)
  (** [parser.error(msg)]: argparse prints the usage and [msg] to
      standard error and raises [SystemExit(2)]. *)
| ParserError (msg : string)
  (** [json.JSONDecodeError] (a [ValueError]): its [str()]. *)
| JSONDecodeError (msg : string).

(** A computation that returns a value of type [A] or raises. *)
Inductive res (A : Type) : Type :=
| Ok (a : A)
| Raise (e : exn).
Arguments Ok {A} a.
Arguments Raise {A} e.

Definition res_bind {A B} (c : res A) (k : A -> res B) : res B :=
  match c with
  | Ok a => k a
  | Raise e => Raise e
  end.

Definition res_map {A B} (f : A -> B) (c : res A) : res B :=
  res_bind c (fun a => Ok (f a)).

Notation "x <- c ;; k" := (res_bind c (fun x => k))
  (at level 100, c at next level, right associativity) : py_scope.

Open Scope py_scope.

(** A loop over a list whose steps may raise: the results in order, or
    the first exception. *)
Fixpoint res_traverse {A B} (f : A -> res B) (l : list A) : res (list B) :=
  match l with
  | [] => Ok []
  | x :: l' => b <- f x ;; r <- res_traverse f l' ;; Ok (b :: r)
  end.

(** [try: c except ValueError: h]: other exceptions propagate
    ([JSONDecodeError] is a subclass of [ValueError]). *)
Definition except_value_error {A} (c : res A) (h : res A) : res A :=
  match c with
  | Raise (ValueError _) | Raise (JSONDecodeError _) => h
  | _ => c
  end.

Definition is_value_error (e : exn) : bool :=
  match e with ValueError _ | JSONDecodeError _ => true | _ => false end.

(** ** Characters and strings

    Characters are Latin-1 code points (the [ascii] type holds 8 bits). *)

Definition code (c : ascii) : nat := nat_of_ascii c.

(** [str.isspace] on Latin-1: tab to carriage return, the four
    separators 0x1c-0x1f, space, NEL (0x85) and NBSP (0xa0). *)
Definition py_isspace (c : ascii) : bool :=
  let n := code c in
  (Nat.leb 9 n && Nat.leb n 13) || (Nat.leb 28 n && Nat.leb n 32)
  || Nat.eqb n 133 || Nat.eqb n 160.

Definition py_isdigit (c : ascii) : bool :=
  let n := code c in Nat.leb 48 n && Nat.leb n 57.

Definition digit_value (c : ascii) : Z := Z.of_nat (code c - 48).

(** [str.lower] on one Latin-1 character: A-Z and the capitals
    0xC0-0xDE (except the multiplication sign 0xD7) move down by 32. *)
Definition py_lower_char (c : ascii) : ascii :=
  let n := code c in
  if (Nat.leb 65 n && Nat.leb n 90)
     || (Nat.leb 192 n && Nat.leb n 222 && negb (Nat.eqb n 215))
  then ascii_of_nat (n + 32) else c.

Fixpoint str_map (f : ascii -> ascii) (s : string) : string :=
  match s with
  | EmptyString => EmptyString
  | String c s' => String (f c) (str_map f s')
  end.

(** [s.lower()] *)
Definition py_lower (s : string) : string := str_map py_lower_char s.

(** [c in s] for a one-character string [c]. *)
Fixpoint str_contains (c : ascii) (s : string) : bool :=
  match s with
  | EmptyString => false
  | String d s' => if ascii_dec c d then true else str_contains c s'
  end.

(** [s.split(sep)] for a one-character separator: every occurrence
    splits, empty pieces included. *)
Fixpoint py_split (sep : ascii) (s : string) : list string :=
  match s with
  | EmptyString => [EmptyString]
  | String c s' =>
      if ascii_dec c sep then EmptyString :: py_split sep s'
      else match py_split sep s' with
           | [] => [String c EmptyString]
           | p :: ps => String c p :: ps
           end
  end.

(** [f"{n}"] for a Python int. *)
Definition py_str_int (n : Z) : string := pretty n.

(** ** Shared lemmas *)

Lemma res_bind_Ok {A B} (a : A) (k : A -> res B) : res_bind (Ok a) k = k a.
Proof. reflexivity. Qed.

Lemma res_bind_Raise {A B} (e : exn) (k : A -> res B) : res_bind (Raise e) k = Raise e.
Proof. reflexivity. Qed.

Lemma res_bind_eq_Ok {A B} (c : res A) (k : A -> res B) b :
  res_bind c k = Ok b -> exists a, c = Ok a /\ k a = Ok b.
Proof. destruct c; simpl; [eauto | discriminate]. Qed.

Lemma res_bind_assoc {A B C} (c : res A) (k1 : A -> res B) (k2 : B -> res C) :
  res_bind (res_bind c k1) k2 = res_bind c (fun a => res_bind (k1 a) k2).
Proof. by destruct c. Qed.

Lemma res_traverse_Ok {A B} (f : A -> res B) l bs :
  res_traverse f l = Ok bs <-> Forall2 (fun x b => f x = Ok b) l bs.
Proof.
  revert bs. induction l as [|x l IH]; intros bs; simpl.
  - split; [intros [= <-]; constructor | by inversion 1].
  - split.
    + destruct (f x) as [b|e] eqn:Hf; simpl; [|discriminate].
      destruct (res_traverse f l) as [r|e] eqn:E; simpl; [|discriminate].
      intros [= <-]. constructor; [done|]. by apply IH.
    + inversion 1 as [|? b ? r Hx Hl]; subst. rewrite Hx. simpl. by rewrite (proj2 (IH r) Hl).
Qed.

Lemma py_split_no_sep sep s :
  str_contains sep s = false -> py_split sep s = [s].
Proof.
  induction s as [|c s IH]; simpl; [done|].
  destruct (ascii_dec sep c) as [->|Hne]; [discriminate|].
  intros Hs. destruct (ascii_dec c sep) as [->|_]; [congruence|].
  by rewrite IH.
Qed.

Lemma py_split_app sep s1 s2 :
  str_contains sep s1 = false ->
  py_split sep (s1 ++ String sep s2) = s1 :: py_split sep s2.
Proof.
  induction s1 as [|c s1 IH]; simpl.
  - intros _. destruct (ascii_dec sep sep); [done | congruence].
  - destruct (ascii_dec sep c) as [->|Hne]; [discriminate|].
    intros Hs. destruct (ascii_dec c sep) as [->|_]; [congruence|].
    by rewrite IH.
Qed.

Lemma str_contains_app c s1 s2 :
  str_contains c (s1 ++ s2) = str_contains c s1 || str_contains c s2.
Proof.
  induction s1 as [|d s1 IH]; simpl; [done|].
  destruct (ascii_dec c d); [done | apply IH].
Qed.

Lemma str_map_length f s : String.length (str_map f s) = String.length s.
Proof. induction s; simpl; auto. Qed.

Lemma string_app_length s1 s2 :
  String.length (s1 ++ s2) = (String.length s1 + String.length s2)%nat.
Proof. induction s1; simpl; auto. Qed.

Lemma string_app_assoc s1 s2 s3 : (s1 ++ s2) ++ s3 = s1 ++ (s2 ++ s3).
Proof.
  induction s1 as [|c s1 IH]; [reflexivity|].
  change ((String c s1 ++ s2) ++ s3) with (String c ((s1 ++ s2) ++ s3)). by rewrite IH.
Qed.

Lemma string_app_cons c s1 s2 : String c s1 ++ s2 = String c (s1 ++ s2).
Proof. reflexivity. Qed.

Lemma string_app_nil_r s : String.append s EmptyString = s.
Proof.
  induction s as [|c s IH]; [reflexivity|].
  change (String.append (String c s) EmptyString) with (String c (String.append s EmptyString)). by rewrite IH.
Qed.

Lemma string_app_inv_tail s1 s2 t : s1 ++ t = s2 ++ t -> s1 = s2.
Proof.
  revert s2. induction s1 as [|c s1 IH]; intros [|d s2] H; simpl in *; auto;
    [| | injection H as -> H; f_equal; by apply IH];
    apply (f_equal String.length) in H; rewrite !string_app_length in H; simpl in H; lia.
Qed.

Lemma string_app_inv_head s t1 t2 : s ++ t1 = s ++ t2 -> t1 = t2.
Proof. induction s as [|c s IH]; simpl; [done|]. intros [= H]. auto. Qed.

(** No piece of [s.split(sep)] contains [sep]. *)
Lemma py_split_pieces sep s p : In p (py_split sep s) -> str_contains sep p = false.
Proof.
  revert p. induction s as [|c s IH]; intros p; simpl.
  - intros [<-|[]]. reflexivity.
  - destruct (ascii_dec c sep) as [->|Hne].
    + intros [<-|Hp]; [reflexivity | auto].
    + destruct (py_split sep s) as [|q ps] eqn:E; simpl.
      * intros [<-|[]]. simpl. destruct (ascii_dec sep c); [congruence | reflexivity].
      * intros [<-|Hp]; [|apply IH; simpl; auto].
        simpl. destruct (ascii_dec sep c); [congruence|]. apply IH. simpl. auto.
Qed.

(** A piece of [s.split(sep)] has only characters of [s]. *)
Lemma py_split_pieces_char sep c s p :
  str_contains c s = false -> In p (py_split sep s) -> str_contains c p = false.
Proof.
  revert p. induction s as [|d s IH]; intros p Hs; simpl in *.
  - intros [<-|[]]. reflexivity.
  - destruct (ascii_dec c d) as [|Hcd]; [discriminate|].
    destruct (ascii_dec d sep) as [->|Hne].
    + intros [<-|Hp]; [reflexivity | auto].
    + destruct (py_split sep s) as [|q ps] eqn:E; simpl.
      * intros [<-|[]]. simpl. destruct (ascii_dec c d); [congruence | reflexivity].
      * intros [<-|Hp]; [|apply IH; simpl; auto].
        simpl. destruct (ascii_dec c d); [congruence|]. apply IH; [done|]. simpl. auto.
Qed.

(** All characters of [s] satisfy [f]. *)
Fixpoint str_forall (f : ascii -> bool) (s : string) : bool :=
  match s with
  | EmptyString => true
  | String c s' => f c && str_forall f s'
  end.

Fixpoint str_filter (f : ascii -> bool) (s : string) : string :=
  match s with
  | EmptyString => EmptyString
  | String c s' => if f c then String c (str_filter f s') else str_filter f s'
  end.

Lemma str_forall_filter f g s : str_forall f s = true -> str_forall f (str_filter g s) = true.
Proof.
  induction s as [|c s IH]; simpl; [done|]. rewrite andb_true_iff. intros [Hc Hs].
  destruct (g c); simpl; [rewrite Hc|]; auto.
Qed.

Lemma str_forall_impl (f g : ascii -> bool) s :
  (forall c, f c = true -> g c = true) -> str_forall f s = true -> str_forall g s = true.
Proof.
  intros Hfg. induction s as [|c s IH]; simpl; [done|]. rewrite !andb_true_iff.
  intros [Hc Hs]. auto.
Qed.

Lemma str_forall_app f s1 s2 : str_forall f (s1 ++ s2) = str_forall f s1 && str_forall f s2.
Proof. induction s1 as [|c s1 IH]; simpl; [done|]. by rewrite IH, andb_assoc. Qed.

Lemma str_forall_contains f c s :
  f c = false -> str_forall f s = true -> str_contains c s = false.
Proof.
  intros Hc. induction s as [|d s IH]; simpl; [done|].
  rewrite andb_true_iff. intros [Hd Hs].
  destruct (ascii_dec c d) as [->|]; [congruence | auto].
Qed.

Lemma pretty_N_char_digit d : py_isdigit (pretty_N_char d) = true.
Proof. unfold pretty_N_char. repeat case_match; reflexivity. Qed.

Lemma pretty_N_go_digits x s :
  str_forall py_isdigit s = true -> str_forall py_isdigit (pretty_N_go x s) = true.
Proof.
  revert s. induction (N.lt_wf_0 x) as [x _ IH]; intros s Hs.
  destruct (decide (x = 0)%N) as [->|Hx]; [by rewrite pretty_N_go_0|].
  rewrite pretty_N_go_step by lia. apply IH; [apply N.div_lt; lia|].
  simpl. by rewrite pretty_N_char_digit.
Qed.

Lemma pretty_N_go_length x s : (String.length s <= String.length (pretty_N_go x s))%nat.
Proof.
  revert s. induction (N.lt_wf_0 x) as [x _ IH]; intros s.
  destruct (decide (x = 0)%N) as [->|Hx]; [by rewrite pretty_N_go_0|].
  rewrite pretty_N_go_step by lia.
  etrans; [|apply IH; apply N.div_lt; lia]. simpl. lia.
Qed.

(** [f"{n}"] of a non-negative int is a non-empty string of digits. *)
Lemma pretty_nonneg_digits (n : Z) :
  (0 <= n)%Z -> str_forall py_isdigit (pretty n) = true /\ pretty n <> "".
Proof.
  destruct n as [|p|p]; intros Hn; [done| |lia].
  unfold pretty, pretty_Z. unfold pretty_positive, pretty, pretty_N. case_decide; [done|].
  split; [by apply pretty_N_go_digits|].
  rewrite pretty_N_go_step by lia. intros Hs.
  pose proof (pretty_N_go_length (Npos p `div` 10)%N (String (pretty_N_char (Npos p `mod` 10)) "")).
  rewrite Hs in *. simpl in *. lia.
Qed.

Lemma pretty_Z_no_char (c : ascii) (n : Z) :
  py_isdigit c = false -> c <> "-"%char -> str_contains c (pretty n) = false.
Proof.
  intros Hc Hm. destruct (Z.le_gt_cases 0 n) as [Hn|Hn].
  - apply (str_forall_contains py_isdigit); [done | apply pretty_nonneg_digits; lia].
  - destruct n as [|p|p]; [lia|lia|].
    change (pretty (Z.neg p)) with ("-" ++ pretty (Z.pos p)).
    rewrite str_contains_app. simpl. destruct (ascii_dec c "-"); [done|]. simpl.
    apply (str_forall_contains py_isdigit); [done | apply pretty_nonneg_digits; lia].
Qed.

(** The digit values of a string of digits. *)
Fixpoint str_digits (s : string) : list Z :=
  match s with EmptyString => [] | String c s' => digit_value c :: str_digits s' end.

Lemma str_digits_length s : List.length (str_digits s) = String.length s.
Proof. induction s; simpl; auto. Qed.

Lemma digit_value_char d : (d < 10)%N -> digit_value (pretty_N_char d) = Z.of_N d.
Proof.
  intros Hd. assert (d = 0 \/ d = 1 \/ d = 2 \/ d = 3 \/ d = 4 \/ d = 5 \/ d = 6 \/ d = 7 \/ d = 8 \/ d = 9)%N
    as Hd' by lia.
  repeat (destruct Hd' as [->|Hd']; [reflexivity|]). by subst.
Qed.

Lemma pretty_N_go_value x s :
  fold_left (fun acc d => acc * 10 + d)%Z (str_digits (pretty_N_go x s)) 0%Z
  = fold_left (fun acc d => acc * 10 + d)%Z (str_digits s) (Z.of_N x).
Proof.
  revert s. induction (N.lt_wf_0 x) as [x _ IH]; intros s.
  destruct (decide (x = 0)%N) as [->|Hx]; [by rewrite pretty_N_go_0|].
  rewrite pretty_N_go_step by lia. rewrite IH by (apply N.div_lt; lia). simpl.
  rewrite digit_value_char by (apply N.mod_lt; lia). f_equal.
  pose proof (N.div_mod x 10 ltac:(lia)). lia.
Qed.

Lemma pretty_Z_nonempty (n : Z) : pretty n <> "".
Proof.
  destruct (Z.le_gt_cases 0 n) as [Hn|Hn]; [apply pretty_nonneg_digits; lia|].
  destruct n; [lia|lia|]. done.
Qed.

(** The first digit of a positive number is not [0]. *)
Lemma pretty_N_go_lead x s :
  (0 < x)%N -> exists c t, pretty_N_go x s = String c t /\ py_isdigit c = true /\ digit_value c <> 0%Z.
Proof.
  revert s. induction (N.lt_wf_0 x) as [x _ IH]; intros s Hx.
  rewrite pretty_N_go_step by lia.
  destruct (decide (x `div` 10 = 0)%N) as [E|E].
  - rewrite E, pretty_N_go_0. exists (pretty_N_char (x `mod` 10)), s. split; [done|].
    split; [apply pretty_N_char_digit|].
    rewrite digit_value_char by (apply N.mod_lt; lia).
    pose proof (N.div_mod x 10 ltac:(lia)). lia.
  - apply IH; [apply N.div_lt; lia | by apply N.neq_0_lt_0].
Qed.

Lemma pretty_pos_lead p :
  exists c t, pretty (Zpos p) = String c t /\ py_isdigit c = true /\ digit_value c <> 0%Z
    /\ str_forall py_isdigit t = true.
Proof.
  destruct (pretty_N_go_lead (Npos p) "" ltac:(lia)) as (c & t & E & Hc & Hv).
  exists c, t. change (pretty (Zpos p)) with (pretty_N_go (Npos p) "").
  rewrite E. repeat split; try done.
  pose proof (pretty_N_go_digits (Npos p) "" eq_refl) as D. rewrite E in D. simpl in D.
  by apply andb_prop in D as [_ D].
Qed.

(** The digits of [str(n)] spell [n]. *)
Lemma pretty_pos_value p : fold_left (fun acc d => acc * 10 + d)%Z (str_digits (pretty (Zpos p))) 0%Z = Zpos p.
Proof. change (pretty (Zpos p)) with (pretty_N_go (Npos p) ""). by rewrite pretty_N_go_value. Qed.

(** CPython's default limit on the digits of an int converted from or
    to a decimal string ([sys.get_int_max_str_digits()]). *)
Definition INT_MAX_STR_DIGITS : nat := 4300.

(** ** Checking a property on a range of integers by evaluation *)

Fixpoint all_range (f : Z -> bool) (k : nat) (n : Z) : bool :=
  match k with
  | O => true
  | S k' => f n && all_range f k' (n + 1)
  end.

Lemma all_range_spec f k n i :
  all_range f k n = true -> (n <= i < n + Z.of_nat k)%Z -> f i = true.
Proof.
  revert n. induction k as [|k IH]; intros n H Hi; simpl in *; [lia|].
  apply andb_true_iff in H as [Hn Hk].
  destruct (Z.eq_dec i n) as [->|Hne]; [done|]. apply (IH (n + 1)%Z); [done|lia].
Qed.

Create HintDb py discriminated.
Create Rewrite HintDb py_rw.
#[export] Hint Rewrite @res_bind_Ok @res_bind_Raise : py_rw.
#[export] Hint Rewrite str_contains_app : py_rw.
#[export] Hint Resolve py_split_no_sep : py.

(** Unfold a chain of [res_bind]s whose heads are computed. *)
Ltac simpl_res := repeat (autorewrite with py_rw in *; simpl in *).
