(* ===== verification/PyFloat.v ===== *)
(** * Python's [float] as IEEE 754 binary64

    The float operations [parse_aspect_ratio] performs (lines 150-158 of
    src/venice_image_gen.py): [float(str)], [int * float], [float / float],
    [float >= float] and [int(float)]. Values are [SpecFloat.spec_float]
    at precision 53 and maximal exponent 1024, the axiom-free IEEE 754
    model of the Standard Library; arithmetic rounds to nearest, ties to
    even, as CPython's C doubles do. What Python adds on top of IEEE is
    written out: division by a zero raises [ZeroDivisionError], [int] of a
    NaN raises [ValueError] and of an infinity [OverflowError], and
    [float(str)] accepts CPython's grammar (surrounding whitespace, one
    sign, [inf]/[infinity]/[nan] in any case, digits with single
    underscores between them, an optional fraction and exponent) and
    rounds the decimal value correctly. *)

From S2P Require Import Prelude.
From Stdlib Require Import ZArith String Ascii Lia.
From Stdlib Require Export Floats.SpecFloat.

Open Scope string_scope.
Open Scope py_scope.
Open Scope Z_scope.

Module F64.

Abbreviation float := spec_float.

Definition prec : Z := 53.
Definition emax : Z := 1024.

(** [float(n)] for a Python int [n]. *)
Definition of_int (n : Z) : float := binary_normalize prec emax n 0 false.

(** [x * y] on floats; Python's [n * y] for an int [n] converts [n]
    first ([float.__rmul__]). *)
Definition mul (x y : float) : float := SFmul prec emax x y.

Definition is_zero (x : float) : bool :=
  match x with S754_zero _ => true | _ => false end.

(** [x / y]: CPython's [float_div] tests [y == 0.0] before dividing. *)
Definition truediv (x y : float) : res float :=
  if is_zero y then Raise (ZeroDivisionError "float division by zero")
  else Ok (SFdiv prec emax x y).

(** [x >= y]: false as soon as one side is a NaN. *)
Definition ge (x y : float) : bool := SFleb y x.

(** [int(x)]: truncation toward zero. *)
Definition to_int (x : float) : res Z :=
  match x with
  | S754_zero _ => Ok 0
  | S754_infinity _ => Raise (OverflowError "cannot convert float infinity to integer")
  | S754_nan => Raise (ValueError "cannot convert float NaN to integer")
  | S754_finite s m e => Ok (cond_Zopp s (Z.shiftr (Zpos m) (- e)))
  end.

(** The value [(-1)^neg * m * 10^k] rounded to nearest-even, [m >= 0]:
    the result of CPython's correctly rounded [_Py_dg_strtod]. A
    negative power of ten is a correctly rounded quotient. *)
Definition of_decimal (neg : bool) (m k : Z) : float :=
  match m with
  | Zpos p =>
      if Z.leb 0 k then binary_normalize prec emax (cond_Zopp neg (Zpos p * 10 ^ k)) 0 neg
      else let '(mz, ez, lz) := SFdiv_core_binary prec emax (Zpos p) 0 (10 ^ (- k)) 0 in
           binary_round_aux prec emax neg mz ez lz
  | _ => S754_zero neg
  end.

End F64.

Abbreviation float := spec_float.

Module FloatParse.
Import F64.

Fixpoint lstrip (s : string) : string :=
  match s with
  | String c s' => if py_isspace c then lstrip s' else s
  | EmptyString => EmptyString
  end.

(** Leading and trailing whitespace are ignored by [float(str)]. *)
Definition strip (s : string) : string :=
  String.rev (lstrip (String.rev (lstrip s))).

Definition take_sign (s : string) : bool * string :=
  match s with
  | String "-" s' => (true, s')
  | String "+" s' => (false, s')
  | _ => (false, s)
  end.

(** The rest of a [digitpart] after its first digit: more digits, each
    possibly preceded by one underscore. Returns the digits read and
    the unread rest. *)
Fixpoint digits_more (s : string) : list Z * string :=
  match s with
  | String c s' =>
      if py_isdigit c then
        let '(ds, r) := digits_more s' in (digit_value c :: ds, r)
      else if ascii_dec c "_" then
        match s' with
        | String d s'' =>
            if py_isdigit d then
              let '(ds, r) := digits_more s'' in (digit_value d :: ds, r)
            else ([], s)
        | EmptyString => ([], s)
        end
      else ([], s)
  | EmptyString => ([], EmptyString)
  end.

(** [digitpart ::= digit (["_"] digit)*] *)
Definition digitpart (s : string) : option (list Z * string) :=
  match s with
  | String c s' =>
      if py_isdigit c then
        let '(ds, r) := digits_more s' in Some (digit_value c :: ds, r)
      else None
  | EmptyString => None
  end.

Definition digits_value (ds : list Z) : Z :=
  fold_left (fun acc d => acc * 10 + d) ds 0.

(** [exponent ::= ("e" | "E") [sign] digitpart], then the end. *)
Definition exponent (s : string) : option Z :=
  match s with
  | EmptyString => Some 0
  | String c s' =>
      if Ascii.eqb c "e" || Ascii.eqb c "E" then
        let '(neg, t) := take_sign s' in
        match digitpart t with
        | Some (ds, EmptyString) => Some (if neg then - digits_value ds else digits_value ds)
        | _ => None
        end
      else None
  end.

(** [floatnumber ::= ([digitpart] "." digitpart | digitpart ["."]) [exponent]]:
    the decimal mantissa and power of ten. *)
Definition finite_number (s : string) : option (Z * Z) :=
  let '(ip, r1) := match digitpart s with Some p => p | None => ([], s) end in
  let '(fd, r2) :=
    match r1 with
    | String "." r => match digitpart r with Some p => p | None => ([], r) end
    | _ => ([], r1)
    end in
  match ip, fd with
  | [], [] => None
  | _, _ =>
      match exponent r2 with
      | Some e => Some (digits_value (ip ++ fd), e - Z.of_nat (List.length fd))
      | None => None
      end
  end.

Definition special (s : string) : option (bool -> float) :=
  if String.eqb s "inf" || String.eqb s "infinity" then Some S754_infinity
  else if String.eqb s "nan" then Some (fun _ => S754_nan)
  else None.

(** [float(s)] for a string [s]; [None] is the [ValueError]
    "could not convert string to float". *)
Definition of_string (s : string) : option float :=
  let '(neg, u) := take_sign (strip s) in
  match special (py_lower u) with
  | Some f => Some (f neg)
  | None =>
      match finite_number u with
      | Some (m, k) => Some (of_decimal neg m k)
      | None => None
      end
  end.

Definition py_float (s : string) : res float :=
  match of_string s with
  | Some f => Ok f
  | None => Raise (ValueError "could not convert string to float")
  end.

End FloatParse.
