(* ===== verification/AspectRatio.v ===== *)
(** * The aspect-ratio resolver

    [VeniceImageGenerator.ASPECT_RATIOS] (src/venice_image_gen.py, lines
    25-38) and [parse_aspect_ratio] (lines 141-168): a preset token is
    looked up after [lower()]; otherwise a token containing [':'] is split,
    both parts go through [float], and the dimensions are computed with
    binary64 arithmetic, truncated by [int] and rounded up to a multiple
    of 8. A [ValueError] inside the [try] becomes the [ValueError]
    "Invalid aspect ratio: ..." of line 168; any other exception escapes. *)

From S2P Require Import Prelude PyFloat.
From Stdlib Require Import ZArith String Ascii Lia.

Open Scope string_scope.
Open Scope py_scope.
Open Scope Z_scope.

Module AspectRatio.
Import F64 FloatParse.

(** The class attribute [ASPECT_RATIOS], in its source order. *)
Definition ASPECT_RATIOS : list (string * (Z * Z)) :=
  [("square", (1024, 1024)); ("1:1", (1024, 1024));
   ("landscape", (1264, 848)); ("3:2", (1264, 848));
   ("cinema", (1280, 720)); ("16:9", (1280, 720));
   ("tall", (720, 1280)); ("9:16", (720, 1280));
   ("portrait", (848, 1264)); ("2:3", (848, 1264));
   ("instagram", (1011, 1264)); ("4:5", (1011, 1264))].

Fixpoint assoc_lookup (k : string) (l : list (string * (Z * Z))) : option (Z * Z) :=
  match l with
  | [] => None
  | (k', v) :: l' => if String.eqb k k' then Some v else assoc_lookup k l'
  end.

(** [ar_lower in ASPECT_RATIOS] and [ASPECT_RATIOS[ar_lower]]. *)
Definition lookup_preset (k : string) : option (Z * Z) := assoc_lookup k ASPECT_RATIOS.

Definition base_size : Z := 1024.

(** [((n + 7) // 8) * 8]; Python's [//] is floor division, as [Z.div]. *)
Definition round8 (n : Z) : Z := ((n + 7) / 8) * 8.

(** [w_ratio, h_ratio = map(float, parts)]: the unpacking pulls at most
    three items from the lazy [map], converting each one it pulls. *)
Definition unpack_ratio (parts : list string) : res (float * float) :=
  match parts with
  | [] => Raise (ValueError "not enough values to unpack (expected 2, got 0)")
  | [a] =>
      _ <- py_float a ;;
      Raise (ValueError "not enough values to unpack (expected 2, got 1)")
  | a :: b :: rest =>
      w <- py_float a ;;
      h <- py_float b ;;
      match rest with
      | [] => Ok (w, h)
      | c :: _ =>
          _ <- py_float c ;;
          Raise (ValueError "too many values to unpack (expected 2)")
      end
  end.

(** Lines 152-164, once both ratios are floats. *)
Definition custom_dimensions (w_ratio h_ratio : float) : res (Z * Z) :=
  if ge w_ratio h_ratio then
    q <- truediv (mul (of_int base_size) h_ratio) w_ratio ;;
    height <- to_int q ;;
    Ok (round8 base_size, round8 height)
  else
    q <- truediv (mul (of_int base_size) w_ratio) h_ratio ;;
    width <- to_int q ;;
    Ok (round8 width, round8 base_size).

(** The body of the [try] of lines 149-164. *)
Definition parse_custom (ar_string : string) : res (Z * Z) :=
  r <- unpack_ratio (py_split ":" ar_string) ;;
  custom_dimensions (fst r) (snd r).

Definition invalid_aspect_ratio (ar_string : string) : exn :=
  ValueError ("Invalid aspect ratio: " ++ ar_string).

(** [parse_aspect_ratio(ar_string)] *)
Definition parse_aspect_ratio (ar_string : string) : res (Z * Z) :=
  match lookup_preset (py_lower ar_string) with
  | Some wh => Ok wh
  | None =>
      if str_contains ":" ar_string
      then except_value_error (parse_custom ar_string) (Raise (invalid_aspect_ratio ar_string))
      else Raise (invalid_aspect_ratio ar_string)
  end.

(** ** Lemmas *)

Lemma lookup_preset_In k wh : In (k, wh) ASPECT_RATIOS -> lookup_preset k = Some wh.
Proof.
  simpl. intros H.
  repeat (destruct H as [H|H]; [injection H as <- <-; reflexivity|]).
  contradiction.
Qed.

Lemma round8_mod n : round8 n mod 8 = 0.
Proof. unfold round8. apply Z_mod_mult. Qed.

Lemma round8_bounds n : n <= round8 n < n + 8.
Proof. unfold round8. pose proof (Z.div_mod (n + 7) 8). pose proof (Z.mod_pos_bound (n + 7) 8). lia. Qed.

Lemma split_two_parts_contains s a b :
  py_split ":" s = [a; b] -> str_contains ":" s = true.
Proof.
  destruct (str_contains ":" s) eqn:E; [done|].
  rewrite (py_split_no_sep _ _ E). discriminate.
Qed.

Lemma split_length_contains s :
  List.length (py_split ":" s) <> 1%nat -> str_contains ":" s = true.
Proof.
  destruct (str_contains ":" s) eqn:E; [done|].
  rewrite (py_split_no_sep _ _ E). done.
Qed.

Lemma py_float_value_error s e : py_float s = Raise e -> e = ValueError "could not convert string to float".
Proof. unfold py_float. destruct (of_string s); congruence. Qed.

(** The unpacking only ever raises [ValueError]. *)
Lemma unpack_ratio_raise ps e : unpack_ratio ps = Raise e -> is_value_error e = true.
Proof.
  unfold unpack_ratio, py_float.
  destruct ps as [|a [|b [|c rest]]]; simpl; try (intros [= <-]; reflexivity);
    repeat match goal with |- context [of_string ?x] => destruct (of_string x) end;
    simpl; intros [= <-]; reflexivity.
Qed.

Lemma unpack_ratio_Ok ps r : unpack_ratio ps = Ok r -> List.length ps = 2%nat.
Proof.
  unfold unpack_ratio, py_float.
  destruct ps as [|a [|b [|c rest]]]; simpl; try discriminate;
    repeat match goal with |- context [of_string ?x] => destruct (of_string x) end;
    simpl; done.
Qed.

Lemma unpack_ratio_two a b w h :
  of_string a = Some w -> of_string b = Some h -> unpack_ratio [a; b] = Ok (w, h).
Proof. intros Ha Hb. unfold unpack_ratio, py_float. by rewrite Ha, Hb. Qed.

(** The custom branch of [parse_aspect_ratio] with its [try]. *)
Lemma parse_not_preset s :
  lookup_preset (py_lower s) = None -> str_contains ":" s = true ->
  parse_aspect_ratio s = except_value_error (parse_custom s) (Raise (invalid_aspect_ratio s)).
Proof. intros Hp Hc. unfold parse_aspect_ratio. by rewrite Hp, Hc. Qed.

Lemma parse_two_parts s a b w h :
  lookup_preset (py_lower s) = None -> py_split ":" s = [a; b] ->
  of_string a = Some w -> of_string b = Some h ->
  parse_aspect_ratio s
  = except_value_error (custom_dimensions w h) (Raise (invalid_aspect_ratio s)).
Proof.
  intros Hp Hs Ha Hb. rewrite parse_not_preset by eauto using split_two_parts_contains.
  unfold parse_custom. by rewrite Hs, (unpack_ratio_two _ _ _ _ Ha Hb).
Qed.

Lemma custom_dimensions_shape w h a b :
  custom_dimensions w h = Ok (a, b) -> a mod 8 = 0 /\ b mod 8 = 0 /\ (a = 1024 \/ b = 1024).
Proof.
  unfold custom_dimensions.
  destruct (ge w h); destruct (truediv _ _) as [q|]; simpl; try discriminate;
    destruct (to_int q); simpl; try discriminate; intros [= <- <-];
    rewrite !round8_mod; auto.
Qed.

Lemma custom_dimensions_raise w h e :
  custom_dimensions w h = Raise e ->
  is_value_error e = true \/ e = ZeroDivisionError "float division by zero"
  \/ e = OverflowError "cannot convert float infinity to integer".
Proof.
  unfold custom_dimensions, truediv, to_int.
  destruct (ge w h); destruct (is_zero _); simpl; try (intros [= <-]; tauto);
    case_match; simpl; try discriminate; intros [= <-]; tauto.
Qed.

(** The exceptions [parse_aspect_ratio] can raise: the [ValueError] of
    line 168, or one of the two arithmetic errors that escape the [try]. *)
Lemma parse_aspect_ratio_raise s e :
  parse_aspect_ratio s = Raise e ->
  e = invalid_aspect_ratio s \/ e = ZeroDivisionError "float division by zero"
  \/ e = OverflowError "cannot convert float infinity to integer".
Proof.
  unfold parse_aspect_ratio. destruct (lookup_preset (py_lower s)); [discriminate|].
  destruct (str_contains ":" s); [|intros [= <-]; tauto].
  unfold parse_custom, except_value_error.
  destruct (unpack_ratio (py_split ":" s)) as [r|e'] eqn:Eu; simpl.
  - destruct (custom_dimensions r.1 r.2) as [|e'] eqn:Ec; [discriminate|].
    apply custom_dimensions_raise in Ec as [He | [-> | ->]].
    + destruct e'; try discriminate; intros [= <-]; tauto.
    + intros [= <-]. tauto.
    + intros [= <-]. tauto.
  - apply unpack_ratio_raise in Eu. destruct e'; try discriminate; intros [= <-]; tauto.
Qed.

(** ** Custom integer ratios, checked through the whole pipeline *)

(** The token ["W:H"] a user types for integers [W] and [H]. *)
Definition token (W H : Z) : string := py_str_int W ++ ":" ++ py_str_int H.

(** The exact-arithmetic reading of lines 153-162. *)
Definition expected_custom (W H : Z) : Z * Z :=
  if H <=? W then (1024, round8 (1024 * H / W)) else (round8 (1024 * W / H), 1024).

Definition res_pair_eqb (r : res (Z * Z)) (p : Z * Z) : bool :=
  match r with
  | Ok (a, b) => (a =? fst p) && (b =? snd p)
  | Raise _ => false
  end.

Definition check_pair (W H : Z) : bool :=
  match lookup_preset (token W H) with
  | Some _ => true
  | None => res_pair_eqb (parse_aspect_ratio (token W H)) (expected_custom W H)
  end.

Definition check_upto (N : nat) : bool :=
  forallb (fun i => forallb (fun j => check_pair (Z.of_nat i) (Z.of_nat j)) (seq 1 N)) (seq 1 N).

Lemma res_pair_eqb_sound r p : res_pair_eqb r p = true -> r = Ok p.
Proof.
  destruct r as [[a b]|]; destruct p; simpl; [|discriminate].
  rewrite andb_true_iff, !Z.eqb_eq. by intros [-> ->].
Qed.

Lemma check_upto_sound N W H :
  check_upto N = true -> 1 <= W <= Z.of_nat N -> 1 <= H <= Z.of_nat N ->
  check_pair W H = true.
Proof.
  unfold check_upto. rewrite forallb_forall. intros Hall HW HH.
  specialize (Hall (Z.to_nat W)). rewrite forallb_forall in Hall.
  rewrite <- (Z2Nat.id W), <- (Z2Nat.id H) by lia.
  apply Hall; apply in_seq; lia.
Qed.

Lemma check_upto_100 : check_upto 100 = true.
Proof. vm_compute. reflexivity. Qed.

(** ** Properties of [parse_aspect_ratio] *)

(** C1. A preset token resolves to its entry of [ASPECT_RATIOS] whatever
    the case of its letters: any string whose [lower()] is a key. *)
Theorem preset_resolves s k wh :
  In (k, wh) ASPECT_RATIOS -> py_lower s = k -> parse_aspect_ratio s = Ok wh.
Proof.
  intros Hin Hl. unfold parse_aspect_ratio.
  by rewrite Hl, (lookup_preset_In _ _ Hin).
Qed.

Lemma preset_resolves_witness :
  In ("cinema", (1280, 720)) ASPECT_RATIOS /\ py_lower "CiNeMa" = "cinema" /\
  parse_aspect_ratio "CiNeMa" = Ok (1280, 720).
Proof.
  split; [simpl; tauto|]. split; [reflexivity|].
  apply (preset_resolves _ "cinema"); [simpl; tauto | reflexivity].
Defined.

(** C2. A custom ratio of two integers between 1 and 100 that is not a
    preset token resolves, through [float], binary64 multiplication and
    division and [int], to the exact-arithmetic dimensions: the larger
    side is 1024 and the other is [1024 * small / large] rounded down,
    then up to a multiple of 8. *)
Theorem custom_integer_ratio W H :
  1 <= W <= 100 -> 1 <= H <= 100 -> lookup_preset (token W H) = None ->
  parse_aspect_ratio (token W H) = Ok (expected_custom W H).
Proof.
  intros HW HH Hp.
  pose proof (check_upto_sound 100 W H check_upto_100 HW HH) as Hc.
  unfold check_pair in Hc. rewrite Hp in Hc. by apply res_pair_eqb_sound.
Qed.

Lemma custom_integer_ratio_witness :
  parse_aspect_ratio "4:3" = Ok (1024, 768) /\ parse_aspect_ratio "21:9" = Ok (1024, 440).
Proof.
  split.
  - apply (custom_integer_ratio 4 3); [lia | lia | reflexivity].
  - apply (custom_integer_ratio 21 9); [lia | lia | reflexivity].
Defined.

(** C3. A token that is not a preset and does not split into exactly two
    parts at [':'] (no colon, or two or more) raises the [ValueError]
    "Invalid aspect ratio: ..." of line 168. *)
Theorem invalid_unless_two_parts s :
  lookup_preset (py_lower s) = None -> List.length (py_split ":" s) <> 2%nat ->
  parse_aspect_ratio s = Raise (invalid_aspect_ratio s).
Proof.
  intros Hp Hlen. unfold parse_aspect_ratio. rewrite Hp.
  destruct (str_contains ":" s); [|done].
  unfold parse_custom. destruct (unpack_ratio (py_split ":" s)) as [r|e] eqn:E.
  - by apply unpack_ratio_Ok in E.
  - apply unpack_ratio_raise in E. destruct e; done.
Qed.

Lemma invalid_unless_two_parts_witness :
  parse_aspect_ratio "1:2:3" = Raise (invalid_aspect_ratio "1:2:3")
  /\ parse_aspect_ratio "wide" = Raise (invalid_aspect_ratio "wide").
Proof. split; apply invalid_unless_two_parts; vm_compute; congruence. Defined.

(** A two-part token one of whose parts [float] rejects raises the
    [ValueError] of line 168. *)
Theorem non_numeric_part_invalid s a b :
  lookup_preset (py_lower s) = None -> py_split ":" s = [a; b] ->
  of_string a = None \/ of_string b = None ->
  parse_aspect_ratio s = Raise (invalid_aspect_ratio s).
Proof.
  intros Hp Hs Hab. rewrite parse_not_preset by eauto using split_two_parts_contains.
  unfold parse_custom, unpack_ratio, py_float. rewrite Hs.
  destruct Hab as [-> | ->]; [done|]. by destruct (of_string a).
Qed.

Lemma non_numeric_part_invalid_witness :
  parse_aspect_ratio "4:x" = Raise (invalid_aspect_ratio "4:x").
Proof. apply (non_numeric_part_invalid _ "4" "x"); [reflexivity | reflexivity | right; reflexivity]. Defined.

Lemma SFleb_nan_l x : SFleb S754_nan x = false.
Proof. by destruct x. Qed.

Lemma SFleb_nan_r x : SFleb x S754_nan = false.
Proof. by destruct x. Qed.

Lemma SFdiv_nan_l y : SFdiv prec emax S754_nan y = S754_nan.
Proof. by destruct y. Qed.

Lemma SFdiv_nan_r x : SFdiv prec emax x S754_nan = S754_nan.
Proof. by destruct x. Qed.

Lemma SFmul_nan_r x : SFmul prec emax x S754_nan = S754_nan.
Proof. by destruct x. Qed.

(** A NaN divisor, or a NaN dividend with a non-zero divisor, makes
    [int] raise [ValueError], which the [try] turns into the error of
    line 168. *)
Theorem nan_part_invalid s a b w h :
  lookup_preset (py_lower s) = None -> py_split ":" s = [a; b] ->
  of_string a = Some w -> of_string b = Some h ->
  h = S754_nan \/ (w = S754_nan /\ is_zero h = false) ->
  parse_aspect_ratio s = Raise (invalid_aspect_ratio s).
Proof.
  intros Hp Hs Ha Hb Hn. rewrite (parse_two_parts s a b w h) by done.
  unfold custom_dimensions, ge, truediv, mul.
  destruct Hn as [-> | [-> Hz]].
  - by rewrite SFleb_nan_l, SFdiv_nan_r.
  - by rewrite SFleb_nan_r, SFmul_nan_r, Hz, SFdiv_nan_l.
Qed.

Lemma nan_part_invalid_witness :
  parse_aspect_ratio "nan:1" = Raise (invalid_aspect_ratio "nan:1")
  /\ parse_aspect_ratio "1:NaN" = Raise (invalid_aspect_ratio "1:NaN").
Proof.
  split.
  - eapply (nan_part_invalid _ "nan" "1"); try reflexivity. right; split; reflexivity.
  - eapply (nan_part_invalid _ "1" "NaN"); try reflexivity. left; reflexivity.
Defined.

(** C34. A zero ratio on the side that becomes the divisor ([0:0],
    [0:-1], [-1:0], ...) is not reported as an invalid aspect ratio:
    [ZeroDivisionError] is not a [ValueError], so it escapes the [try]
    of lines 149-166. *)
Theorem zero_divisor_escapes s a b w h :
  lookup_preset (py_lower s) = None -> py_split ":" s = [a; b] ->
  of_string a = Some w -> of_string b = Some h ->
  (is_zero w = true /\ ge w h = true) \/ (is_zero h = true /\ ge w h = false) ->
  parse_aspect_ratio s = Raise (ZeroDivisionError "float division by zero").
Proof.
  intros Hp Hs Ha Hb Hz. rewrite (parse_two_parts s a b w h) by done.
  unfold custom_dimensions, truediv.
  by destruct Hz as [[-> ->] | [-> ->]].
Qed.

Lemma zero_divisor_escapes_witness :
  parse_aspect_ratio "0:0" = Raise (ZeroDivisionError "float division by zero")
  /\ parse_aspect_ratio "-1:0" = Raise (ZeroDivisionError "float division by zero").
Proof.
  split.
  - apply (zero_divisor_escapes _ "0" "0" (S754_zero false) (S754_zero false));
      try reflexivity. left; split; reflexivity.
  - apply (zero_divisor_escapes _ "-1" "0" (S754_finite true 4503599627370496 (-52)) (S754_zero false));
      try reflexivity. right; split; reflexivity.
Defined.

(** C35. When [1024 * h_ratio] overflows to infinity in the branch
    [w_ratio >= h_ratio] with a finite [w_ratio], [int] raises
    [OverflowError], which also escapes the [try]. *)
Theorem overflow_escapes s a b sw mw ew h :
  lookup_preset (py_lower s) = None -> py_split ":" s = [a; b] ->
  of_string a = Some (S754_finite sw mw ew) -> of_string b = Some h ->
  ge (S754_finite sw mw ew) h = true -> mul (of_int base_size) h = S754_infinity false ->
  parse_aspect_ratio s = Raise (OverflowError "cannot convert float infinity to integer").
Proof.
  intros Hp Hs Ha Hb Hge Hm. rewrite (parse_two_parts s a b _ h) by done.
  unfold custom_dimensions, truediv. by rewrite Hge, Hm.
Qed.

Lemma overflow_escapes_witness :
  parse_aspect_ratio "1e308:1e308"
  = Raise (OverflowError "cannot convert float infinity to integer").
Proof.
  apply (overflow_escapes _ "1e308" "1e308" false 5010420900022432 971
           (S754_finite false 5010420900022432 971)); vm_compute; reflexivity.
Defined.

(** Every custom (non-preset) result is a pair of multiples of 8 one
    of which is [base_size] = 1024. *)
Theorem custom_result_shape s a b :
  lookup_preset (py_lower s) = None -> parse_aspect_ratio s = Ok (a, b) ->
  a mod 8 = 0 /\ b mod 8 = 0 /\ (a = 1024 \/ b = 1024).
Proof.
  intros Hp. unfold parse_aspect_ratio. rewrite Hp.
  destruct (str_contains ":" s); [|discriminate].
  unfold parse_custom. destruct (unpack_ratio _) as [[w h]|e]; simpl.
  - destruct (custom_dimensions w h) as [[a' b']|[]] eqn:E; simpl;
      try discriminate; intros [= <- <-]; eauto using custom_dimensions_shape.
  - destruct e; discriminate.
Qed.

Lemma custom_result_shape_witness :
  lookup_preset (py_lower "3:7") = None /\ parse_aspect_ratio "3:7" = Ok (440, 1024) /\
  440 mod 8 = 0 /\ 1024 mod 8 = 0 /\ (440 = 1024 \/ 1024 = 1024).
Proof.
  split; [reflexivity|]. split; [vm_compute; reflexivity|].
  apply (custom_result_shape "3:7"); vm_compute; reflexivity.
Defined.

(** C37. A zero ratio against a positive finite one gives a zero
    dimension: ["0:1"] resolves to [(0, 1024)]. *)
Theorem zero_ratio_zero_width s a b sw m e :
  lookup_preset (py_lower s) = None -> py_split ":" s = [a; b] ->
  of_string a = Some (S754_zero sw) -> of_string b = Some (S754_finite false m e) ->
  parse_aspect_ratio s = Ok (0, 1024).
Proof.
  intros Hp Hs Ha Hb. rewrite (parse_two_parts s a b _ _) by done.
  unfold custom_dimensions, ge, truediv, mul. by destruct sw.
Qed.

Lemma zero_ratio_zero_width_witness : parse_aspect_ratio "0:1" = Ok (0, 1024).
Proof. eapply (zero_ratio_zero_width _ "0" "1"); vm_compute; reflexivity. Defined.

(** C39. [round8] rounds up: it is the least multiple of 8 that is at
    least [n], not the nearest one the comment of line 160 announces. *)
Theorem round8_least_multiple n :
  round8 n mod 8 = 0 /\ n <= round8 n /\
  (forall m, m mod 8 = 0 -> n <= m -> round8 n <= m).
Proof.
  split; [apply round8_mod|]. split; [apply round8_bounds|].
  intros m Hm Hnm. pose proof (round8_bounds n). pose proof (round8_mod n).
  pose proof (Z.div_mod m 8). pose proof (Z.div_mod (round8 n) 8). lia.
Qed.

End AspectRatio.
