(* ===== verification/Payload.v ===== *)
(** * The request builder

    Python dicts and the two dictionaries the program builds for a
    generation request (src/venice_image_gen.py):
    - [Dict]: a dict as an association list in insertion order (the order
      [json.dumps] writes the keys in), with [d[k] = v] replacing a value
      in place and appending a new key;
    - [Request]: the payload of [generate_image] (lines 78-95): six fixed
      fields, then each optional parameter of [optional_params] that is in
      [kwargs] with a value other than [None];
    - [GenParams]: the dimension checks of [main] (lines 237-246) and the
      [gen_params] dictionary (lines 249-267), whose optional entries are
      added by truthiness tests on the parsed arguments. *)

From S2P Require Import Prelude PyFloat AspectRatio.
From Stdlib Require Import ZArith String Ascii Lia.

Open Scope string_scope.
Open Scope py_scope.
Open Scope Z_scope.

(** Python values that reach a payload. *)
Inductive pyval : Type :=
| PNone
| PBool (b : bool)
| PInt (n : Z)
| PFloat (f : float)
| PStr (s : string).

Definition is_none (v : pyval) : bool :=
  match v with PNone => true | _ => false end.

Module Dict.

Definition dict := list (string * pyval).

(** [d.get(k)], [None] when absent. *)
Fixpoint get (d : dict) (k : string) : option pyval :=
  match d with
  | [] => None
  | (k', v) :: d' => if String.eqb k k' then Some v else get d' k
  end.

(** [d.get(k, default)] *)
Definition get_default (d : dict) (k : string) (dflt : pyval) : pyval :=
  match get d k with Some v => v | None => dflt end.

(** [d[k] = v] *)
Fixpoint set (d : dict) (k : string) (v : pyval) : dict :=
  match d with
  | [] => [(k, v)]
  | (k', v') :: d' => if String.eqb k k' then (k, v) :: d' else (k', v') :: set d' k v
  end.

(** A literal [{k1: v1, k2: v2, ...}]. *)
Definition of_list (l : list (string * pyval)) : dict :=
  fold_left (fun d kv => set d kv.1 kv.2) l [].

Definition keys (d : dict) : list string := map fst d.

(** ** Lemmas *)

Lemma get_set_eq d k v : get (set d k v) k = Some v.
Proof.
  induction d as [|[k' v'] d IH]; simpl; [by rewrite String.eqb_refl|].
  destruct (String.eqb_spec k k'); simpl; [by rewrite String.eqb_refl|].
  destruct (String.eqb_spec k k'); [congruence | done].
Qed.

Lemma get_set_ne d k k' v : k <> k' -> get (set d k v) k' = get d k'.
Proof.
  intros Hne. induction d as [|[k0 v0] d IH]; simpl.
  - destruct (String.eqb_spec k' k); [congruence | done].
  - destruct (String.eqb_spec k k0) as [->|]; simpl.
    + destruct (String.eqb_spec k' k0); [congruence | done].
    + by destruct (String.eqb_spec k' k0).
Qed.

Lemma get_Some_In d k v : get d k = Some v -> k ∈ keys d.
Proof.
  induction d as [|[k' v'] d IH]; simpl; [discriminate|].
  destruct (String.eqb_spec k k') as [->|]; [left|right; auto].
Qed.

Lemma get_None d k : k ∉ keys d -> get d k = None.
Proof.
  induction d as [|[k' v'] d IH]; simpl; [done|].
  rewrite elem_of_cons. destruct (String.eqb_spec k k'); [tauto|].
  intros Hk. apply IH. tauto.
Qed.

(** [d[k] = v] keeps the order of the keys and appends a new one. *)
Lemma keys_set d k v :
  keys (set d k v) = if decide (k ∈ keys d) then keys d else (keys d ++ [k])%list.
Proof.
  induction d as [|[k' v'] d IH]; simpl; [done|].
  destruct (String.eqb_spec k k') as [->|Hne]; simpl.
  - rewrite decide_True; [done | by left].
  - rewrite IH. destruct (decide (k ∈ keys d)) as [Hin|Hnin].
    + rewrite decide_True; [done | by right].
    + rewrite decide_False; [done|]. rewrite elem_of_cons. tauto.
Qed.

Lemma keys_set_prefix d k v : exists l, keys (set d k v) = (keys d ++ l)%list.
Proof. rewrite keys_set. case_decide; [exists []; by rewrite app_nil_r | eauto]. Qed.

Lemma keys_set_NoDup d k v : NoDup (keys d) -> NoDup (keys (set d k v)).
Proof.
  rewrite keys_set. case_decide; [done|].
  intros Hd. apply NoDup_app. split; [done|]. split; [|apply NoDup_singleton].
  intros x Hx ->%list_elem_of_singleton. contradiction.
Qed.

Lemma keys_set_subset d k v : keys (set d k v) ⊆ k :: keys d.
Proof. rewrite keys_set. case_decide; set_solver. Qed.

End Dict.

Module Request.
Import Dict.

Definition DEFAULT_MODEL : string := "venice-sd35".

Definition optional_params : list string :=
  ["negative_prompt"; "width"; "height"; "steps"; "cfg_scale"; "seed"; "style_preset"].

(** The literal of lines 78-85. *)
Definition base_payload (prompt model : string) (kwargs : dict) : dict :=
  of_list [("model", PStr model); ("prompt", PStr prompt);
           ("format", get_default kwargs "format" (PStr "jpeg"));
           ("hide_watermark", PBool true);
           ("safe_mode", get_default kwargs "safe_mode" (PBool false));
           ("return_binary", PBool false)].

(** One iteration of the loop of lines 93-95. *)
Definition add_optional (kwargs : dict) (payload : dict) (param : string) : dict :=
  match get kwargs param with
  | Some v => if is_none v then payload else set payload param v
  | None => payload
  end.

(** The payload [generate_image(prompt, model, **kwargs)] posts. *)
Definition build_payload (prompt model : string) (kwargs : dict) : dict :=
  fold_left (add_optional kwargs) optional_params (base_payload prompt model kwargs).

End Request.

Module RequestFacts.
Import Dict Request.

Definition fixed_keys : list string :=
  ["model"; "prompt"; "format"; "hide_watermark"; "safe_mode"; "return_binary"].

(** What the loop of lines 93-95 forwards for [param]. *)
Definition passed (kwargs : dict) (param : string) : option pyval :=
  match get kwargs param with
  | Some v => if is_none v then None else Some v
  | None => None
  end.

Section Loop.
Context (kwargs : dict).

Lemma add_optional_other d p k : p <> k -> get (add_optional kwargs d p) k = get d k.
Proof.
  intros Hne. unfold add_optional.
  destruct (get kwargs p) as [v|]; [destruct (is_none v)|]; auto using get_set_ne.
Qed.

Lemma add_optional_self d p : get (add_optional kwargs d p) p = match passed kwargs p with Some v => Some v | None => get d p end.
Proof.
  unfold add_optional, passed.
  destruct (get kwargs p) as [v|]; [destruct (is_none v)|]; auto using get_set_eq.
Qed.

Lemma fold_optional_other ps d k :
  k ∉ ps -> get (fold_left (add_optional kwargs) ps d) k = get d k.
Proof.
  revert d. induction ps as [|p ps IH]; intros d Hk; simpl; [done|].
  rewrite elem_of_cons in Hk. rewrite IH by tauto.
  apply add_optional_other. intros ->. tauto.
Qed.

Lemma fold_optional_param ps d p :
  NoDup ps -> p ∈ ps -> get d p = None ->
  get (fold_left (add_optional kwargs) ps d) p = passed kwargs p.
Proof.
  revert d. induction ps as [|q ps IH]; intros d Hnd Hp Hd; simpl.
  - by apply elem_of_nil in Hp.
  - apply NoDup_cons in Hnd as [Hq Hnd]. apply elem_of_cons in Hp as [<-|Hp].
    + rewrite fold_optional_other by done. rewrite add_optional_self, Hd.
      by destruct (passed kwargs p).
    + apply IH; [done | done|]. rewrite add_optional_other; [done|].
      intros ->. contradiction.
Qed.

Lemma add_optional_keys d p :
  (exists l, keys (add_optional kwargs d p) = keys d ++ l)%list
  /\ (NoDup (keys d) -> NoDup (keys (add_optional kwargs d p)))
  /\ keys (add_optional kwargs d p) ⊆ p :: keys d.
Proof.
  unfold add_optional.
  destruct (get kwargs p) as [v|]; [destruct (is_none v)|];
    try (split; [exists []; by rewrite app_nil_r | split; [done | set_solver]]).
  split; [apply keys_set_prefix|]. split; [apply keys_set_NoDup | apply keys_set_subset].
Qed.

Lemma fold_optional_keys ps d :
  (exists l, keys (fold_left (add_optional kwargs) ps d) = keys d ++ l)%list
  /\ (NoDup (keys d) -> NoDup (keys (fold_left (add_optional kwargs) ps d)))
  /\ keys (fold_left (add_optional kwargs) ps d) ⊆ (ps ++ keys d)%list.
Proof.
  revert d. induction ps as [|p ps IH]; intros d; simpl.
  - split; [exists []; by rewrite app_nil_r | split; [done | set_solver]].
  - destruct (add_optional_keys d p) as [[l1 H1] [H2 H3]].
    destruct (IH (add_optional kwargs d p)) as [[l2 H4] [H5 H6]].
    split; [exists (l1 ++ l2)%list; by rewrite H4, H1, app_assoc|].
    split; [auto|]. set_solver.
Qed.
End Loop.

Lemma base_payload_keys prompt model kwargs : keys (base_payload prompt model kwargs) = fixed_keys.
Proof. reflexivity. Qed.

Lemma optional_params_NoDup : NoDup optional_params.
Proof. unfold optional_params. repeat constructor; set_solver. Qed.

Lemma fixed_not_optional k : k ∈ fixed_keys -> k ∉ optional_params.
Proof. unfold fixed_keys, optional_params. intros Hk. repeat (apply elem_of_cons in Hk as [->|Hk]; [set_solver|]). set_solver. Qed.

(** Whatever the keyword arguments, the payload of
    [generate_image] starts with the six fixed fields in their source
    order, [hide_watermark] is [True], [return_binary] is [False], and
    [format] and [safe_mode] default to ["jpeg"] and [False]. *)
Theorem payload_fixed_fields prompt model kwargs :
  let P := build_payload prompt model kwargs in
  take 6 (keys P) = fixed_keys /\
  get P "model" = Some (PStr model) /\ get P "prompt" = Some (PStr prompt) /\
  get P "format" = Some (get_default kwargs "format" (PStr "jpeg")) /\
  get P "hide_watermark" = Some (PBool true) /\
  get P "safe_mode" = Some (get_default kwargs "safe_mode" (PBool false)) /\
  get P "return_binary" = Some (PBool false).
Proof.
  intros P. unfold P, build_payload.
  destruct (fold_optional_keys kwargs optional_params (base_payload prompt model kwargs))
    as [[l Hl] _].
  rewrite Hl, base_payload_keys, take_app_length'; [|done].
  split; [done|].
  repeat split; rewrite fold_optional_other;
    try reflexivity; apply fixed_not_optional; unfold fixed_keys; set_solver.
Qed.

Lemma build_payload_optional prompt model kwargs p :
  p ∈ optional_params ->
  get (build_payload prompt model kwargs) p = passed kwargs p.
Proof.
  intros Hp. apply fold_optional_param; [apply optional_params_NoDup | done|].
  apply get_None. rewrite base_payload_keys. intros Hf.
  by apply (fixed_not_optional p).
Qed.

(** C4. An optional parameter is in the payload exactly when it is in
    the keyword arguments with a value other than [None], and then with
    that value. *)
Theorem optional_param_presence prompt model kwargs p :
  p ∈ optional_params ->
  get (build_payload prompt model kwargs) p = passed kwargs p.
Proof. apply build_payload_optional. Qed.

Lemma optional_param_presence_witness :
  get (build_payload "a cat" DEFAULT_MODEL [("seed", PNone); ("steps", PInt 30)]) "seed" = None
  /\ get (build_payload "a cat" DEFAULT_MODEL [("seed", PNone); ("steps", PInt 30)]) "steps"
     = Some (PInt 30).
Proof.
  split.
  - rewrite optional_param_presence; [reflexivity | unfold optional_params; set_solver].
  - rewrite optional_param_presence; [reflexivity | unfold optional_params; set_solver].
Defined.

(** The payload's keys are unique and are fixed or optional keys:
    a keyword argument outside [optional_params] (other than [format]
    and [safe_mode]) never reaches the request. *)
Theorem payload_keys_wf prompt model kwargs :
  NoDup (keys (build_payload prompt model kwargs)) /\
  keys (build_payload prompt model kwargs) ⊆ (optional_params ++ fixed_keys)%list.
Proof.
  destruct (fold_optional_keys kwargs optional_params (base_payload prompt model kwargs))
    as [_ [Hnd Hsub]].
  rewrite base_payload_keys in Hnd, Hsub. split; [apply Hnd | done].
  unfold fixed_keys. repeat constructor; set_solver.
Qed.

End RequestFacts.

Module GenParams.
Import Dict Request RequestFacts AspectRatio.

(** The argparse [Namespace] of lines 192-222: argparse itself is not
    modelled, its result is the input of [main]. An option that was not
    given is [None]. *)
Record Args : Type := mkArgs {
  list_models : bool;
  verbose : bool;
  prompt : option string;
  model : string;
  negative_prompt : option string;
  width : option Z;
  height : option Z;
  aspect_ratio : option string;
  steps : option Z;
  cfg_scale : option float;
  seed : option Z;
  style_preset : option string;
  format : string;
  output : option string;
  safe_mode : bool
}.

(** Python truthiness of the optional values. *)
Definition truthy_str (o : option string) : bool :=
  match o with Some s => negb (String.eqb s "") | None => false end.
Definition truthy_int (o : option Z) : bool :=
  match o with Some n => negb (Z.eqb n 0) | None => false end.

(** Lines 237-246: the dimensions, with the [--ar] checks. *)
Definition resolve_dimensions (args : Args) : res (option Z * option Z) :=
  if truthy_str (aspect_ratio args) then
    if truthy_int (width args) || truthy_int (height args)
    then Raise (ParserError "Cannot specify both --ar and --width/--height")
    else
      match parse_aspect_ratio (default "" (aspect_ratio args)) with
      | Ok (w, h) => Ok (Some w, Some h)
      | Raise (ValueError msg) => Raise (ParserError msg)
      | Raise e => Raise e
      end
  else Ok (width args, height args).

(** [if x: gen_params[k] = x] for a string, an int and a float. *)
Definition add_str (k : string) (o : option string) (d : dict) : dict :=
  match o with Some v => if String.eqb v "" then d else set d k (PStr v) | None => d end.
Definition add_int (k : string) (o : option Z) (d : dict) : dict :=
  match o with Some n => if Z.eqb n 0 then d else set d k (PInt n) | None => d end.
Definition add_float (k : string) (o : option float) (d : dict) : dict :=
  match o with Some f => if F64.is_zero f then d else set d k (PFloat f) | None => d end.

(** Lines 249-267. *)
Definition gen_params (w h : option Z) (args : Args) : dict :=
  let d := of_list [("format", PStr (format args)); ("safe_mode", PBool (safe_mode args))] in
  let d := add_str "negative_prompt" (negative_prompt args) d in
  let d := add_int "width" w d in
  let d := add_int "height" h d in
  let d := add_int "steps" (steps args) d in
  let d := add_float "cfg_scale" (cfg_scale args) d in
  let d := add_int "seed" (seed args) d in
  add_str "style_preset" (style_preset args) d.

(** The payload [main] makes [generate_image] post (line 271). *)
Definition request_payload (w h : option Z) (args : Args) : dict :=
  build_payload (default "" (prompt args)) (model args) (gen_params w h args).

(** ** Lemmas *)

(** The entry [if x: d[k] = x] leaves for an int, a string, a float. *)
Definition int_entry (o : option Z) : option pyval :=
  match o with Some n => if Z.eqb n 0 then None else Some (PInt n) | None => None end.
Definition str_entry (o : option string) : option pyval :=
  match o with Some v => if String.eqb v "" then None else Some (PStr v) | None => None end.
Definition float_entry (o : option float) : option pyval :=
  match o with Some f => if F64.is_zero f then None else Some (PFloat f) | None => None end.

Lemma get_add_int_same k o d :
  get (add_int k o d) k = match int_entry o with Some v => Some v | None => get d k end.
Proof. destruct o as [n|]; simpl; [destruct (Z.eqb n 0); simpl|]; auto using get_set_eq. Qed.
Lemma get_add_str_same k o d :
  get (add_str k o d) k = match str_entry o with Some v => Some v | None => get d k end.
Proof. destruct o as [v|]; simpl; [destruct (String.eqb v ""); simpl|]; auto using get_set_eq. Qed.
Lemma get_add_float_same k o d :
  get (add_float k o d) k = match float_entry o with Some v => Some v | None => get d k end.
Proof. destruct o as [f|]; simpl; [destruct (F64.is_zero f); simpl|]; auto using get_set_eq. Qed.

Lemma get_add_int_other k k' o d : k <> k' -> get (add_int k o d) k' = get d k'.
Proof. intros. destruct o as [n|]; simpl; [destruct (Z.eqb n 0)|]; auto using get_set_ne. Qed.
Lemma get_add_str_other k k' o d : k <> k' -> get (add_str k o d) k' = get d k'.
Proof. intros. destruct o as [v|]; simpl; [destruct (String.eqb v "")|]; auto using get_set_ne. Qed.
Lemma get_add_float_other k k' o d : k <> k' -> get (add_float k o d) k' = get d k'.
Proof. intros. destruct o as [f|]; simpl; [destruct (F64.is_zero f)|]; auto using get_set_ne. Qed.

Ltac get_gen_params :=
  unfold gen_params;
  repeat first
    [ rewrite get_add_int_same | rewrite get_add_str_same | rewrite get_add_float_same
    | rewrite get_add_int_other by discriminate | rewrite get_add_str_other by discriminate
    | rewrite get_add_float_other by discriminate ].

Lemma passed_entry d k e :
  get d k = e -> (forall v, e = Some v -> is_none v = false) -> passed d k = e.
Proof. intros Hg He. unfold passed. rewrite Hg. destruct e as [v|]; [by rewrite He|done]. Qed.

Lemma int_entry_nonzero n : n <> 0 -> int_entry (Some n) = Some (PInt n).
Proof. intros Hn. simpl. by rewrite (proj2 (Z.eqb_neq _ _) Hn). Qed.

Lemma int_entry_not_none o v : int_entry o = Some v -> is_none v = false.
Proof. destruct o as [n|]; simpl; [destruct (Z.eqb n 0)|]; by intros [= <-]. Qed.
Lemma str_entry_not_none o v : str_entry o = Some v -> is_none v = false.
Proof. destruct o as [x|]; simpl; [destruct (String.eqb x "")|]; by intros [= <-]. Qed.
Lemma float_entry_not_none o v : float_entry o = Some v -> is_none v = false.
Proof. destruct o as [f|]; simpl; [destruct (F64.is_zero f)|]; by intros [= <-]. Qed.

Lemma request_payload_get w h args k e :
  k ∈ optional_params -> get (gen_params w h args) k = e ->
  (forall v, e = Some v -> is_none v = false) ->
  get (request_payload w h args) k = e.
Proof.
  intros Hk Hg He. unfold request_payload.
  rewrite build_payload_optional by done. by apply passed_entry.
Qed.

(** [parse_aspect_ratio] raises [ValueError] only with the message of
    line 168. *)
Lemma parse_aspect_ratio_value_error s msg :
  parse_aspect_ratio s = Raise (ValueError msg) -> msg = "Invalid aspect ratio: " ++ s.
Proof.
  unfold parse_aspect_ratio, invalid_aspect_ratio.
  destruct (lookup_preset (py_lower s)); [discriminate|].
  destruct (str_contains ":" s); [|congruence].
  unfold except_value_error. destruct (parse_custom s) as [|[]]; congruence.
Qed.

(** ** Properties *)

(** C33. The optional fields of the posted payload are decided by
    truthiness, not by presence: an option given as [0], [0.0] or [""]
    (for instance [--seed 0]) is left out of the request. *)
Theorem payload_optional_truthiness w h args :
  let P := request_payload w h args in
  get P "negative_prompt" = str_entry (negative_prompt args) /\
  get P "width" = int_entry w /\ get P "height" = int_entry h /\
  get P "steps" = int_entry (steps args) /\
  get P "cfg_scale" = float_entry (cfg_scale args) /\
  get P "seed" = int_entry (seed args) /\
  get P "style_preset" = str_entry (style_preset args).
Proof.
  intros P. unfold P.
  repeat split; (apply request_payload_get;
    [ unfold optional_params; set_solver
    | get_gen_params; simpl; by repeat case_match
    | eauto using int_entry_not_none, str_entry_not_none, float_entry_not_none ]).
Qed.

Lemma resolve_dimensions_ar args ar :
  aspect_ratio args = Some ar -> ar <> "" ->
  truthy_int (width args) = false -> truthy_int (height args) = false ->
  resolve_dimensions args =
    match parse_aspect_ratio ar with
    | Ok (w, h) => Ok (Some w, Some h)
    | Raise (ValueError msg) => Raise (ParserError msg)
    | Raise e => Raise e
    end.
Proof.
  intros Har Hne Hw Hh. unfold resolve_dimensions. rewrite Har, Hw, Hh. simpl.
  destruct (String.eqb_spec ar ""); [contradiction | reflexivity].
Qed.

(** C32. [main] reports the [--ar]/[--width]/[--height] conflict exactly
    when an aspect ratio is given together with a width or a height that
    is truthy: [--ar square --width 0] is not a conflict. *)
Theorem ar_conflict_iff args :
  resolve_dimensions args = Raise (ParserError "Cannot specify both --ar and --width/--height")
  <-> truthy_str (aspect_ratio args) = true
      /\ (truthy_int (width args) || truthy_int (height args)) = true.
Proof.
  unfold resolve_dimensions.
  destruct (truthy_str (aspect_ratio args)); [|split; [discriminate | intros [? _]; discriminate]].
  destruct (truthy_int (width args) || truthy_int (height args)); [tauto|].
  split; [|intros [_ ?]; discriminate].
  destruct (parse_aspect_ratio _) as [[a b]|e] eqn:E; [discriminate|].
  apply parse_aspect_ratio_raise in E as [-> | [-> | ->]]; discriminate.
Qed.

Definition example_args (ar : option string) (w : option Z) (seed : option Z) : Args :=
  mkArgs false false (Some "a cat") DEFAULT_MODEL None w None ar None None seed None "jpeg" None false.

Lemma ar_conflict_iff_witness :
  resolve_dimensions (example_args (Some "square") (Some 512) None)
    = Raise (ParserError "Cannot specify both --ar and --width/--height")
  /\ resolve_dimensions (example_args (Some "square") (Some 0) None) = Ok (Some 1024, Some 1024).
Proof. split; [apply ar_conflict_iff; split; reflexivity | vm_compute; reflexivity]. Defined.

Lemma preset_nonzero k w h : In (k, (w, h)) ASPECT_RATIOS -> w <> 0 /\ h <> 0 /\ k <> "".
Proof. simpl. intros Hin. repeat (destruct Hin as [Hin|Hin]; [injection Hin as <- <- <-; done|]). done. Qed.

(** A preset [--ar] token, given without width or height, sends
    the preset's dimensions in the request. *)
Theorem preset_dims_in_payload args ar k w h :
  aspect_ratio args = Some ar -> In (k, (w, h)) ASPECT_RATIOS -> py_lower ar = k ->
  truthy_int (width args) = false -> truthy_int (height args) = false ->
  resolve_dimensions args = Ok (Some w, Some h) /\
  get (request_payload (Some w) (Some h) args) "width" = Some (PInt w) /\
  get (request_payload (Some w) (Some h) args) "height" = Some (PInt h).
Proof.
  intros Har Hin Hl Hw Hh. destruct (preset_nonzero _ _ _ Hin) as (Hw0 & Hh0 & Hk).
  split.
  - rewrite (resolve_dimensions_ar args ar) by (done || (intros ->; by subst k)).
    unfold parse_aspect_ratio. by rewrite Hl, (lookup_preset_In _ _ Hin).
  - split; apply request_payload_get;
      try (unfold optional_params; set_solver);
      try (get_gen_params; by rewrite int_entry_nonzero);
      by intros v [= <-].
Qed.

Lemma preset_dims_in_payload_witness :
  resolve_dimensions (example_args (Some "Portrait") None None) = Ok (Some 848, Some 1264) /\
  get (request_payload (Some 848) (Some 1264) (example_args (Some "Portrait") None None)) "width"
    = Some (PInt 848) /\
  get (request_payload (Some 848) (Some 1264) (example_args (Some "Portrait") None None)) "height"
    = Some (PInt 1264).
Proof.
  apply (preset_dims_in_payload _ "Portrait" "portrait");
    try reflexivity. simpl. tauto.
Defined.

(** C38. The token ["0:1"] passes the checks and resolves to [(0, 1024)],
    and since [0] is falsy the request carries a height and no width:
    width and height are not sent together. *)
Theorem zero_ratio_drops_width args :
  aspect_ratio args = Some "0:1" ->
  truthy_int (width args) = false -> truthy_int (height args) = false ->
  resolve_dimensions args = Ok (Some 0, Some 1024) /\
  get (request_payload (Some 0) (Some 1024) args) "width" = None /\
  get (request_payload (Some 0) (Some 1024) args) "height" = Some (PInt 1024).
Proof.
  intros Har Hw Hh. split.
  - rewrite (resolve_dimensions_ar args "0:1") by done. vm_compute. reflexivity.
  - split; apply request_payload_get; try (unfold optional_params; set_solver);
      try (get_gen_params; simpl; reflexivity); by intros v [= <-].
Qed.

Lemma zero_ratio_drops_width_witness :
  resolve_dimensions (example_args (Some "0:1") None None) = Ok (Some 0, Some 1024) /\
  get (request_payload (Some 0) (Some 1024) (example_args (Some "0:1") None None)) "width" = None /\
  get (request_payload (Some 0) (Some 1024) (example_args (Some "0:1") None None)) "height"
    = Some (PInt 1024).
Proof. apply zero_ratio_drops_width; reflexivity. Defined.

End GenParams.
