(* ===== verification/Base64.v ===== *)
(** * Decoding the base64 image data

    [save_image] decodes the image with [base64.b64decode(base64_data)]
    (src/venice_image_gen.py, line 132): the string must be ASCII, then
    [binascii.a2b_base64(s, strict_mode=False)] runs a four-state machine
    over the characters. Characters outside the base64 alphabet are
    skipped, a complete pad sequence ends the decoding (what follows is
    ignored), and a final incomplete quantum is an error, reported as
    [binascii.Error], a subclass of [ValueError]. Bytes are the integers
    0-255 the machine writes.

    The reference encoding [b2a] (the standard [base64.b64encode], with
    padding) is what the service is expected to send; it is the
    specification of well-formed input, not code of the program. *)

From S2P Require Import Prelude.
From Stdlib Require Import ZArith String Ascii Lia.

Open Scope string_scope.
Open Scope py_scope.
Open Scope Z_scope.
Open Scope list_scope.

Module Base64.

(** [table_a2b_base64]: the sextet of an alphabet character, 255 for any
    other character. *)
Definition a2b_table (c : ascii) : Z :=
  let n := Z.of_nat (code c) in
  if (65 <=? n) && (n <=? 90) then n - 65
  else if (97 <=? n) && (n <=? 122) then n - 71
  else if (48 <=? n) && (n <=? 57) then n + 4
  else if n =? 43 then 62
  else if n =? 47 then 63
  else 255.

Definition is_pad (c : ascii) : bool := Ascii.eqb c "=".

(** The machine's variables: [quad_pos], [leftchar], [pads] and the bytes
    written so far. *)
Record state : Type := mkState {
  quad_pos : Z;
  leftchar : Z;
  pads : Z;
  out : list Z
}.

Definition init : state := mkState 0 0 0 [].

(** The [switch (quad_pos)] on a valid sextet [v] (with [pads = 0]). *)
Definition push_sextet (st : state) (v : Z) : state :=
  let l := leftchar st in
  match quad_pos st with
  | 0 => mkState 1 v 0 (out st)
  | 1 => mkState 2 (Z.land v 15) 0 (out st ++ [Z.lor (Z.shiftl l 2) (Z.shiftr v 4)])
  | 2 => mkState 3 (Z.land v 3) 0 (out st ++ [Z.lor (Z.shiftl l 4) (Z.shiftr v 2)])
  | _ => mkState 0 0 0 (out st ++ [Z.lor (Z.shiftl l 6) v])
  end.

Inductive outcome : Type :=
| Continue (st : state)
| Stop (st : state).

(** One iteration of the loop over the input. *)
Definition step (st : state) (c : ascii) : outcome :=
  if is_pad c then
    if 2 <=? quad_pos st then
      let st' := mkState (quad_pos st) (leftchar st) (pads st + 1) (out st) in
      if 4 <=? quad_pos st + pads st' then Stop st' else Continue st'
    else Continue st
  else
    let v := a2b_table c in
    if 64 <=? v then Continue st else Continue (push_sextet st v).

Fixpoint run (st : state) (s : string) : outcome :=
  match s with
  | EmptyString => Continue st
  | String c s' =>
      match step st c with
      | Stop st' => Stop st'
      | Continue st' => run st' s'
      end
  end.

(** [binascii.a2b_base64(s, strict_mode=False)] *)
Definition a2b_base64 (s : string) : res (list Z) :=
  match run init s with
  | Stop st => Ok (out st)
  | Continue st =>
      if quad_pos st =? 0 then Ok (out st)
      else if quad_pos st =? 1 then
        Raise (ValueError ("Invalid base64-encoded string: number of data characters ("
                           ++ py_str_int (Z.of_nat (List.length (out st)) / 3 * 4 + 1)
                           ++ ") cannot be 1 more than a multiple of 4")%string)
      else Raise (ValueError "Incorrect padding")
  end.

(** [base64.b64decode(s)] for a [str] argument. *)
Definition b64decode (s : string) : res (list Z) :=
  if str_forall (fun c => Nat.ltb (code c) 128) s then a2b_base64 s
  else Raise (ValueError "string argument should contain only ASCII characters").

(** ** The standard encoding *)

Definition b2a_char (v : Z) : ascii :=
  ascii_of_nat (Z.to_nat (if v <? 26 then v + 65 else if v <? 52 then v + 71
                          else if v <? 62 then v - 4 else if v =? 62 then 43 else 47)).

Definition sextet1 (b1 : Z) : Z := Z.shiftr b1 2.
Definition sextet2 (b1 b2 : Z) : Z := Z.lor (Z.shiftl (Z.land b1 3) 4) (Z.shiftr b2 4).
Definition sextet3 (b2 b3 : Z) : Z := Z.lor (Z.shiftl (Z.land b2 15) 2) (Z.shiftr b3 6).
Definition sextet4 (b3 : Z) : Z := Z.land b3 63.

Fixpoint b2a (bs : list Z) : string :=
  match bs with
  | b1 :: b2 :: b3 :: rest =>
      String (b2a_char (sextet1 b1)) (String (b2a_char (sextet2 b1 b2))
        (String (b2a_char (sextet3 b2 b3)) (String (b2a_char (sextet4 b3)) (b2a rest))))
  | [b1; b2] =>
      String (b2a_char (sextet1 b1)) (String (b2a_char (sextet2 b1 b2))
        (String (b2a_char (sextet3 b2 0)) "="))
  | [b1] => String (b2a_char (sextet1 b1)) (String (b2a_char (sextet2 b1 0)) "==")
  | [] => EmptyString
  end.

(** ** Lemmas *)

Definition is_byte (b : Z) : Prop := 0 <= b < 256.

(** A boolean test over the 256 byte values. *)
Definition all_bytes (f : Z -> bool) : bool := forallb (fun n => f (Z.of_nat n)) (seq 0 256).

Lemma all_bytes_spec f b : all_bytes f = true -> 0 <= b < 256 -> f b = true.
Proof.
  unfold all_bytes. rewrite forallb_forall. intros H Hb.
  rewrite <- (Z2Nat.id b) by lia. apply H, in_seq. lia.
Qed.

Lemma all_sextets_spec f v :
  forallb (fun n => f (Z.of_nat n)) (seq 0 64) = true -> 0 <= v < 64 -> f v = true.
Proof.
  rewrite forallb_forall. intros H Hv.
  rewrite <- (Z2Nat.id v) by lia. apply H, in_seq. lia.
Qed.

(** The encoding's characters decode to their sextet. *)
Lemma a2b_b2a_char v : 0 <= v < 64 ->
  a2b_table (b2a_char v) = v /\ is_pad (b2a_char v) = false /\ Nat.ltb (code (b2a_char v)) 128 = true.
Proof.
  intros Hv.
  pose proof (all_sextets_spec
    (fun v => (a2b_table (b2a_char v) =? v) && negb (is_pad (b2a_char v))
              && Nat.ltb (code (b2a_char v)) 128) v ltac:(vm_compute; reflexivity) Hv) as H.
  rewrite !andb_true_iff, Z.eqb_eq, negb_true_iff in H. tauto.
Qed.

Lemma sextets_bound b1 b2 : is_byte b1 -> is_byte b2 ->
  0 <= sextet1 b1 < 64 /\ 0 <= sextet2 b1 b2 < 64 /\ 0 <= sextet3 b1 b2 < 64 /\ 0 <= sextet4 b2 < 64.
Proof.
  intros H1 H2.
  pose proof (all_bytes_spec (fun b1 => all_bytes (fun b2 =>
    (0 <=? sextet1 b1) && (sextet1 b1 <? 64) && (0 <=? sextet2 b1 b2) && (sextet2 b1 b2 <? 64)
    && (0 <=? sextet3 b1 b2) && (sextet3 b1 b2 <? 64) && (0 <=? sextet4 b2) && (sextet4 b2 <? 64)))
    b1 ltac:(vm_compute; reflexivity) H1) as H.
  apply (all_bytes_spec _ b2) in H; [|done].
  rewrite !andb_true_iff, !Z.leb_le, !Z.ltb_lt in H. tauto.
Qed.

(** The bit-level facts behind the round trip, for two bytes [x] and [y]. *)
Lemma decode_bits x y : is_byte x -> is_byte y ->
  Z.lor (Z.shiftl (sextet1 x) 2) (Z.shiftr (sextet2 x y) 4) = x /\
  Z.land (sextet2 x y) 15 = Z.shiftr y 4 /\
  Z.lor (Z.shiftl (Z.shiftr x 4) 4) (Z.shiftr (sextet3 x y) 2) = x /\
  Z.land (sextet3 x y) 3 = Z.shiftr y 6 /\
  Z.lor (Z.shiftl (Z.shiftr y 6) 6) (sextet4 y) = y.
Proof.
  intros H1 H2.
  pose proof (all_bytes_spec (fun x => all_bytes (fun y =>
    (Z.lor (Z.shiftl (sextet1 x) 2) (Z.shiftr (sextet2 x y) 4) =? x)
    && (Z.land (sextet2 x y) 15 =? Z.shiftr y 4)
    && (Z.lor (Z.shiftl (Z.shiftr x 4) 4) (Z.shiftr (sextet3 x y) 2) =? x)
    && (Z.land (sextet3 x y) 3 =? Z.shiftr y 6)
    && (Z.lor (Z.shiftl (Z.shiftr y 6) 6) (sextet4 y) =? y)))
    x ltac:(vm_compute; reflexivity) H1) as H.
  apply (all_bytes_spec _ y) in H; [|done].
  rewrite !andb_true_iff, !Z.eqb_eq in H. tauto.
Qed.

Lemma run_app st s1 s2 :
  run st (s1 ++ s2) =
  match run st s1 with Stop st' => Stop st' | Continue st' => run st' s2 end.
Proof.
  revert st. induction s1 as [|c s1 IH]; intros st; simpl; [done|].
  destruct (step st c); [apply IH | done].
Qed.

Lemma step_sextet st v :
  0 <= v < 64 -> step st (b2a_char v) = Continue (push_sextet st v).
Proof.
  intros Hv. destruct (a2b_b2a_char v Hv) as (Ht & Hp & _).
  unfold step. rewrite Hp, Ht. destruct (Z.leb_spec 64 v); [lia | done].
Qed.

(** A full quantum of the encoding appends its three bytes and brings the
    machine back to [quad_pos = 0]. *)
Lemma run_quantum acc b1 b2 b3 rest :
  is_byte b1 -> is_byte b2 -> is_byte b3 ->
  run (mkState 0 0 0 acc)
      (String (b2a_char (sextet1 b1)) (String (b2a_char (sextet2 b1 b2))
        (String (b2a_char (sextet3 b2 b3)) (String (b2a_char (sextet4 b3)) rest))))
  = run (mkState 0 0 0 (acc ++ [b1; b2; b3])) rest.
Proof.
  intros H1 H2 H3.
  destruct (sextets_bound b1 b2 H1 H2) as (S1 & S2 & _).
  destruct (sextets_bound b2 b3 H2 H3) as (_ & _ & S3 & S4).
  destruct (decode_bits b1 b2 H1 H2) as (D1 & D2 & _).
  destruct (decode_bits b2 b3 H2 H3) as (_ & _ & D3 & D4 & D5).
  simpl. rewrite !step_sextet by done. unfold push_sextet; simpl.
  rewrite D1, D2, D3, D4, D5, <- !app_assoc. reflexivity.
Qed.

Lemma mod3_step n : ((3 + n) mod 3 = n mod 3)%nat.
Proof. rewrite Nat.add_comm, <- (Nat.Div0.mod_add n 1 3). reflexivity. Qed.

(** Running the encoding of [bs] appends [bs]; it ends on the pad
    sequence exactly when [length bs] is not a multiple of 3, and otherwise
    at [quad_pos = 0]. *)
Lemma run_b2a n bs acc :
  (List.length bs <= n)%nat -> Forall is_byte bs ->
  exists st, out st = acc ++ bs /\
    run (mkState 0 0 0 acc) (b2a bs)
    = (if Nat.eqb (List.length bs mod 3) 0 then Continue st else Stop st) /\
    (Nat.eqb (List.length bs mod 3) 0 = true -> quad_pos st = 0).
Proof.
  revert bs acc. induction n as [|n IH]; intros bs acc Hlen Hb.
  { destruct bs; [|simpl in Hlen; lia]. exists (mkState 0 0 0 acc). simpl. rewrite app_nil_r. auto. }
  destruct bs as [|b1 [|b2 [|b3 rest]]]; simpl in Hlen.
  - exists (mkState 0 0 0 acc). simpl. rewrite app_nil_r. auto.
  - apply Forall_cons in Hb as [H1 _].
    destruct (sextets_bound b1 0 H1 ltac:(unfold is_byte; lia)) as (S1 & S2 & _).
    destruct (decode_bits b1 0 H1 ltac:(unfold is_byte; lia)) as (D1 & _).
    eexists. split; [|split; [simpl; rewrite !step_sextet by done; unfold push_sextet; simpl; reflexivity
                            | discriminate]].
    simpl. by rewrite D1.
  - apply Forall_cons in Hb as [H1 Hb]. apply Forall_cons in Hb as [H2 _].
    destruct (sextets_bound b1 b2 H1 H2) as (S1 & S2 & _).
    destruct (sextets_bound b2 0 H2 ltac:(unfold is_byte; lia)) as (_ & _ & S3 & _).
    destruct (decode_bits b1 b2 H1 H2) as (D1 & D2 & _).
    destruct (decode_bits b2 0 H2 ltac:(unfold is_byte; lia)) as (_ & _ & D3 & _).
    eexists. split; [|split; [simpl; rewrite !step_sextet by done; unfold push_sextet; simpl; reflexivity
                            | discriminate]].
    simpl. rewrite D1, D2, D3, <- app_assoc. reflexivity.
  - apply Forall_cons in Hb as [H1 Hb]. apply Forall_cons in Hb as [H2 Hb].
    apply Forall_cons in Hb as [H3 Hb].
    simpl b2a. rewrite run_quantum by done.
    destruct (IH rest (acc ++ [b1; b2; b3]) ltac:(lia) Hb) as (st & Hout & Hrun & Hq).
    replace (List.length (b1 :: b2 :: b3 :: rest) mod 3)%nat with (List.length rest mod 3)%nat.
    + exists st. split; [by rewrite Hout, <- app_assoc | done].
    + change (List.length (b1 :: b2 :: b3 :: rest)) with (3 + List.length rest)%nat.
      by rewrite mod3_step.
Qed.

Lemma b2a_ascii bs : Forall is_byte bs -> str_forall (fun c => Nat.ltb (code c) 128) (b2a bs) = true.
Proof.
  intros Hb. remember (List.length bs) as n eqn:Hn. assert (List.length bs <= n)%nat as Hle by lia.
  clear Hn. revert bs Hb Hle. induction n as [|n IH]; intros bs Hb Hle.
  { destruct bs; [done | simpl in Hle; lia]. }
  assert (forall v, 0 <= v < 64 -> Nat.ltb (code (b2a_char v)) 128 = true) as Hc
    by (intros v Hv; apply a2b_b2a_char, Hv).
  destruct bs as [|b1 [|b2 [|b3 rest]]]; simpl in Hle; [done| | |].
  - apply Forall_cons in Hb as [H1 _].
    destruct (sextets_bound b1 0 H1 ltac:(unfold is_byte; lia)) as (S1 & S2 & _).
    simpl. by rewrite !Hc.
  - apply Forall_cons in Hb as [H1 Hb]. apply Forall_cons in Hb as [H2 _].
    destruct (sextets_bound b1 b2 H1 H2) as (S1 & S2 & _).
    destruct (sextets_bound b2 0 H2 ltac:(unfold is_byte; lia)) as (_ & _ & S3 & _).
    simpl. by rewrite !Hc.
  - apply Forall_cons in Hb as [H1 Hb]. apply Forall_cons in Hb as [H2 Hb].
    apply Forall_cons in Hb as [H3 Hb].
    destruct (sextets_bound b1 b2 H1 H2) as (S1 & S2 & _).
    destruct (sextets_bound b2 b3 H2 H3) as (_ & _ & S3 & S4).
    simpl. rewrite !Hc by done. simpl. apply IH; [done | lia].
Qed.

Definition is_ascii (c : ascii) : bool := Nat.ltb (code c) 128.

(** The characters the machine reads: the alphabet and the pad. *)
Definition keep (c : ascii) : bool := is_pad c || (a2b_table c <? 64).

Lemma a2b_table_nonneg c : 0 <= a2b_table c.
Proof. unfold a2b_table. repeat case_match; rewrite ?andb_true_iff, ?Z.leb_le in *; lia. Qed.

Lemma a2b_table_pad c : is_pad c = true -> a2b_table c = 255.
Proof. unfold is_pad. rewrite Ascii.eqb_eq. by intros ->. Qed.

Lemma a2b_table_ascii c : a2b_table c < 64 -> is_ascii c = true.
Proof.
  unfold a2b_table, is_ascii. intros H. apply Nat.ltb_lt.
  repeat case_match; rewrite ?andb_true_iff, ?Z.leb_le, ?Z.eqb_eq in *; lia.
Qed.

Lemma step_skip st c : keep c = false -> step st c = Continue st.
Proof.
  unfold keep, step. rewrite orb_false_iff, Z.ltb_ge. intros [-> H].
  by destruct (Z.leb_spec 64 (a2b_table c)); [|lia].
Qed.

Lemma run_filter st s : run st s = run st (str_filter keep s).
Proof.
  revert st. induction s as [|c s IH]; intros st; simpl; [done|].
  destruct (keep c) eqn:Hk; simpl.
  - destruct (step st c); [apply IH | done].
  - rewrite step_skip by done. apply IH.
Qed.

(** The invariant of the machine: [leftchar] holds the bits not yet
    written (6, 4 or 2 of them after one, two or three sextets) and every
    byte written is in 0-255. *)
Definition inv (st : state) : Prop :=
  (quad_pos st = 0 \/ (quad_pos st = 1 /\ 0 <= leftchar st < 64)
   \/ (quad_pos st = 2 /\ 0 <= leftchar st < 16) \/ (quad_pos st = 3 /\ 0 <= leftchar st < 4))
  /\ Forall is_byte (out st).

Definition push_ok (l v : Z) : bool :=
  (0 <=? Z.lor (Z.shiftl l 2) (Z.shiftr v 4)) && (Z.lor (Z.shiftl l 2) (Z.shiftr v 4) <? 256)
  && (negb (l <? 16) || ((0 <=? Z.lor (Z.shiftl l 4) (Z.shiftr v 2))
                         && (Z.lor (Z.shiftl l 4) (Z.shiftr v 2) <? 256)))
  && (negb (l <? 4) || ((0 <=? Z.lor (Z.shiftl l 6) v) && (Z.lor (Z.shiftl l 6) v <? 256)))
  && (0 <=? Z.land v 15) && (Z.land v 15 <? 16) && (0 <=? Z.land v 3) && (Z.land v 3 <? 4).

Lemma push_bounds l v : 0 <= l < 64 -> 0 <= v < 64 ->
  is_byte (Z.lor (Z.shiftl l 2) (Z.shiftr v 4)) /\
  (l < 16 -> is_byte (Z.lor (Z.shiftl l 4) (Z.shiftr v 2))) /\
  (l < 4 -> is_byte (Z.lor (Z.shiftl l 6) v)) /\
  0 <= Z.land v 15 < 16 /\ 0 <= Z.land v 3 < 4.
Proof.
  intros Hl Hv.
  pose proof (all_sextets_spec (fun l => forallb (fun n => push_ok l (Z.of_nat n)) (seq 0 64))
    l ltac:(vm_compute; reflexivity) Hl) as H.
  apply (all_sextets_spec (push_ok l) v) in H; [|done]. unfold push_ok, is_byte in *.
  rewrite !andb_true_iff, !orb_true_iff, !negb_true_iff, !andb_true_iff in H.
  rewrite !Z.leb_le, !Z.ltb_lt, !Z.ltb_ge in H.
  intuition lia.
Qed.

Lemma step_inv st c : inv st ->
  match step st c with Continue st' | Stop st' => inv st' end.
Proof.
  intros [Hq Hout]. unfold step.
  destruct (is_pad c).
  - destruct (2 <=? quad_pos st); [|split; done].
    destruct (4 <=? _); (split; [simpl; tauto | done]).
  - pose proof (a2b_table_nonneg c).
    destruct (Z.leb_spec 64 (a2b_table c)); [split; done|].
    unfold push_sextet. set (v := a2b_table c) in *. clearbody v.
    destruct Hq as [Hq | [[Hq Hl] | [[Hq Hl] | [Hq Hl]]]]; rewrite Hq; simpl.
    + split; [simpl; lia | done].
    + destruct (push_bounds (leftchar st) v ltac:(lia) ltac:(lia)) as (B1 & _ & _ & B4 & _).
      split; [simpl; lia | apply Forall_app; auto].
    + destruct (push_bounds (leftchar st) v ltac:(lia) ltac:(lia)) as (_ & B2 & _ & _ & B5).
      split; [simpl; lia | apply Forall_app; split; [done | constructor; [apply B2; lia | done]]].
    + destruct (push_bounds (leftchar st) v ltac:(lia) ltac:(lia)) as (_ & _ & B3 & _).
      split; [simpl; lia | apply Forall_app; split; [done | constructor; [apply B3; lia | done]]].
Qed.

Lemma run_inv st s : inv st -> match run st s with Continue st' | Stop st' => inv st' end.
Proof.
  revert st. induction s as [|c s IH]; intros st Hst; simpl; [done|].
  pose proof (step_inv st c Hst) as H. destruct (step st c); [apply IH|]; done.
Qed.

(** Over alphabet characters only, [quad_pos] counts them modulo 4. *)
Lemma run_alphabet st s :
  0 <= quad_pos st < 4 -> str_forall (fun c => a2b_table c <? 64) s = true ->
  exists st', run st s = Continue st' /\
              quad_pos st' = (quad_pos st + Z.of_nat (String.length s)) mod 4.
Proof.
  revert st. induction s as [|c s IH]; intros st Hq Hs; simpl.
  - exists st. split; [done|]. rewrite Z.add_0_r, Z.mod_small; lia.
  - simpl in Hs. rewrite andb_true_iff, Z.ltb_lt in Hs. destruct Hs as [Hc Hs].
    unfold step. destruct (is_pad c) eqn:Hp; [rewrite a2b_table_pad in Hc by done; lia|].
    destruct (Z.leb_spec 64 (a2b_table c)); [lia|].
    assert (quad_pos (push_sextet st (a2b_table c)) = (quad_pos st + 1) mod 4) as Hpush.
    { unfold push_sextet.
      assert (quad_pos st = 0 \/ quad_pos st = 1 \/ quad_pos st = 2 \/ quad_pos st = 3)
        as [-> | [-> | [-> | ->]]] by lia; reflexivity. }
    destruct (IH (push_sextet st (a2b_table c))) as (st' & Hrun & Hq'); [| done |].
    + rewrite Hpush. apply Z.mod_pos_bound. lia.
    + exists st'. split; [done|]. rewrite Hq', Hpush, Nat2Z.inj_succ.
      rewrite Zplus_mod_idemp_l. f_equal. lia.
Qed.

Lemma a2b_base64_run st s :
  run init s = Continue st -> quad_pos st = 0 -> a2b_base64 s = Ok (out st).
Proof. intros Hr Hq. unfold a2b_base64. by rewrite Hr, Hq. Qed.

(** ** Properties *)

(** Round trip: decoding the standard base64 encoding of any byte
    string gives the byte string back. *)
Theorem b64decode_b2a bs : Forall is_byte bs -> b64decode (b2a bs) = Ok bs.
Proof.
  intros Hb. unfold b64decode. rewrite b2a_ascii by done.
  destruct (run_b2a (List.length bs) bs [] ltac:(lia) Hb) as (st & Hout & Hrun & Hq).
  unfold a2b_base64, init. rewrite Hrun. simpl in Hout.
  destruct (Nat.eqb (List.length bs mod 3) 0) eqn:E; [rewrite Hq by done; simpl |]; by rewrite Hout.
Qed.

Lemma b64decode_b2a_witness : b64decode (b2a [0; 1; 2; 255; 128; 77; 200]) = Ok [0; 1; 2; 255; 128; 77; 200].
Proof. apply b64decode_b2a. repeat constructor; unfold is_byte; lia. Defined.

(** C31. On ASCII input, characters outside the base64 alphabet (line
    breaks, spaces, [-], [_], ...) are skipped: the result is that of the
    input without them. *)
Theorem b64decode_skips_invalid s :
  str_forall is_ascii s = true -> b64decode s = b64decode (str_filter keep s).
Proof.
  intros Ha. unfold b64decode, is_ascii in *. rewrite Ha, str_forall_filter by done.
  unfold a2b_base64. by rewrite <- run_filter.
Qed.

Lemma b64decode_skips_invalid_witness : b64decode "YW J-j" = b64decode "YWJj".
Proof. rewrite (b64decode_skips_invalid "YW J-j") by reflexivity. reflexivity. Defined.

(** Whatever the input, every value the decoder returns is a byte
    (0-255): the machine's invariant holds at every step. *)
Theorem b64decode_bytes s bs : b64decode s = Ok bs -> Forall is_byte bs.
Proof.
  unfold b64decode, a2b_base64. destruct (str_forall _ s); [|discriminate].
  pose proof (run_inv init s ltac:(split; [left; done | constructor])) as Hinv.
  destruct (run init s) as [st|st]; destruct Hinv as [_ Hout].
  - repeat case_match; try discriminate. by intros [= <-].
  - by intros [= <-].
Qed.

Lemma b64decode_bytes_witness : b64decode "/+8=" = Ok [255; 239] /\ Forall is_byte [255; 239].
Proof.
  assert (b64decode "/+8=" = Ok [255; 239]) as H by reflexivity.
  split; [exact H | exact (b64decode_bytes _ _ H)].
Defined.

(** Input made only of alphabet characters (no padding) decodes
    exactly when its length is a multiple of 4: one character more is the
    "cannot be 1 more than a multiple of 4" error, two or three more is
    "Incorrect padding". *)
Theorem b64decode_unpadded s :
  str_forall (fun c => a2b_table c <? 64) s = true ->
  let n := (String.length s mod 4)%nat in
  ((n = 0)%nat -> exists bs, b64decode s = Ok bs) /\
  ((n = 1)%nat -> exists msg, b64decode s = Raise (ValueError msg)) /\
  ((n = 2 \/ n = 3)%nat -> b64decode s = Raise (ValueError "Incorrect padding")).
Proof.
  intros Hs n.
  assert (str_forall is_ascii s = true) as Ha.
  { eapply str_forall_impl; [|exact Hs]. intros c Hc. apply a2b_table_ascii. by apply Z.ltb_lt. }
  destruct (run_alphabet init s ltac:(simpl; lia) Hs) as (st & Hrun & Hq).
  simpl in Hq. unfold b64decode. unfold is_ascii in Ha. rewrite Ha.
  unfold a2b_base64. rewrite Hrun, Hq.
  assert (Z.of_nat (String.length s) mod 4 = Z.of_nat n) as Hn.
  { unfold n. rewrite Nat2Z.inj_mod. reflexivity. }
  rewrite Z.add_0_l, Hn. split; [|split].
  - intros ->. simpl. eauto.
  - intros ->. simpl. eauto.
  - intros [-> | ->]; reflexivity.
Qed.

Lemma b64decode_unpadded_witness : b64decode "YQ" = Raise (ValueError "Incorrect padding").
Proof. apply (b64decode_unpadded "YQ"); [reflexivity | simpl; lia]. Defined.

(** Decoding stops at the first complete pad sequence: after the
    padded encoding of a byte string whose length is not a multiple of 3,
    any ASCII text is ignored. *)
Theorem b64decode_stops_at_padding bs t :
  Forall is_byte bs -> (List.length bs mod 3 <> 0)%nat -> str_forall is_ascii t = true ->
  b64decode (b2a bs ++ t) = Ok bs.
Proof.
  intros Hb Hlen Ht. unfold b64decode. unfold is_ascii in Ht.
  rewrite str_forall_app, b2a_ascii, Ht by done.
  destruct (run_b2a (List.length bs) bs [] ltac:(lia) Hb) as (st & Hout & Hrun & _).
  unfold a2b_base64, init. rewrite run_app, Hrun.
  destruct (Nat.eqb_spec (List.length bs mod 3) 0); [contradiction|]. simpl in Hout. by rewrite Hout.
Qed.

Lemma b64decode_stops_at_padding_witness : b64decode (b2a [97] ++ "junk") = Ok [97].
Proof. apply b64decode_stops_at_padding; [repeat constructor; unfold is_byte; lia | simpl; lia | reflexivity]. Defined.

End Base64.
