(* ===== verification/PyRepr.v ===== *)
(** * Python's text conversions: [repr] and [str] of floats and strings, [format(x, '.2f')]

    The program turns values into text in its f-strings: the image id of
    a generation result in the default file name (line 119,
    [f"{image_id}.{format_ext}"]), the structured error body in
    [f"API Error: {error_data}"] (line 107), the model ids of
    [list_models] (line 67) and the generation time in
    [f"{total_time:.2f}"] (line 291). This file models CPython's
    conversions for the values involved:
    - [float_repr]: [float.__repr__], the shortest decimal string that
      reads back as the same double (David Gay's mode 0, nearest of the
      shortest, ties to an even last digit), written in fixed notation
      when the decimal point position is in [-3, 16] and in exponent
      notation otherwise (CPython's [format_float_short], type ['r']);
    - [fixed 2]: [format(x, '.2f')], the exact binary value rounded to two
      decimals, ties to even, with the sign of a negative zero kept;
    - [str_repr]: [str.__repr__] for strings whose characters are the
      code points 0-255 (a [string] of the model is a sequence of such
      code points).
    The search for the shortest digits tries 1 to 16 digits and falls
    back to the nearest 17-digit decimal, which always reads back. *)

From S2P Require Import Prelude.
From S2P Require Import PyFloat.
From Stdlib Require Import ZArith String Ascii Lia.

Open Scope string_scope.
Open Scope Z_scope.

Module Repr.
Import F64.

(** Structural equality of floats (not IEEE [==]: [-0.0] and [0.0]
    differ, a NaN equals itself). *)
Definition float_eqb (x y : float) : bool :=
  match x, y with
  | S754_zero a, S754_zero b => Bool.eqb a b
  | S754_infinity a, S754_infinity b => Bool.eqb a b
  | S754_nan, S754_nan => true
  | S754_finite a m e, S754_finite b m' e' => Bool.eqb a b && Pos.eqb m m' && Z.eqb e e'
  | _, _ => false
  end.

(** The magnitude [m * 2^e] of a finite float as a fraction [num/den]. *)
Definition frac (m : positive) (e : Z) : Z * Z :=
  if Z.leb 0 e then (Zpos m * 2 ^ e, 1) else (Zpos m, 2 ^ (- e)).

(** Number of decimal digits of a positive integer. *)
Definition ndigits (n : Z) : Z := Z.of_nat (String.length (pretty n)).

(** [floor (log10 (num/den))] for positive [num] and [den]. *)
Definition dec_exp (num den : Z) : Z :=
  if Z.leb den num then ndigits (num / den) - 1
  else - ndigits ((den + num - 1) / num - 1).

(** [num/den * 10^k] as a fraction. *)
Definition scale (num den k : Z) : Z * Z :=
  if Z.leb 0 k then (num * 10 ^ k, den) else (num, den * 10 ^ (- k)).

(** [a/b] rounded to the nearest integer, ties to even. *)
Definition round_half_even (a b : Z) : Z :=
  let d := a / b in
  let r := a mod b in
  if Z.ltb (2 * r) b then d
  else if Z.ltb b (2 * r) then d + 1
  else if Z.even d then d else d + 1.

(** The [n]-digit decimal [D * 10^(q+1-n)] that reads back as [x], if
    one exists: the floor or the ceiling of [|x| * 10^(n-1-q)], the
    nearer one when both read back, the even one on a tie. *)
Definition pick (neg : bool) (x : float) (num den q n : Z) : option Z :=
  let '(a, b) := scale num den (n - 1 - q) in
  let d := a / b in
  let ok D := float_eqb (of_decimal neg D (q + 1 - n)) x in
  match ok d, ok (d + 1) with
  | true, true => Some (round_half_even a b)
  | true, false => Some d
  | false, true => Some (d + 1)
  | false, false => None
  end.

(** The shortest digits, trying [n], [n+1], ... digits. *)
Fixpoint shortest (fuel : nat) (neg : bool) (x : float) (num den q n : Z) : Z * Z :=
  match fuel with
  | O => let '(a, b) := scale num den (n - 1 - q) in (round_half_even a b, n)
  | S f =>
      match pick neg x num den q n with
      | Some D => (D, n)
      | None => shortest f neg x num den q (n + 1)
      end
  end.

Fixpoint zeros (n : nat) : string :=
  match n with O => "" | S k => String "0" (zeros k) end.

(** Trailing zeros of the digit string removed. *)
Definition rstrip0 (s : string) : string :=
  String.rev ((fix go (t : string) : string :=
                 match t with String "0" t' => go t' | _ => t end) (String.rev s)).

(** [n] written with at least [w] digits. *)
Definition pad_left (w : nat) (s : string) : string :=
  zeros (w - String.length s) ++ s.

(** CPython's layout of digits [ds] with decimal point position
    [decpt] (the value is [0.ds * 10^decpt]), type ['r']. *)
Definition layout (ds : string) (decpt : Z) : string :=
  let nd := Z.of_nat (String.length ds) in
  if Z.leb decpt (-4) || Z.ltb 16 decpt then
    let mant := match ds with
                | String c rest => if String.eqb rest "" then String c "" else String c ("." ++ rest)
                | EmptyString => ds
                end in
    let ex := decpt - 1 in
    mant ++ "e" ++ (if Z.ltb ex 0 then "-" else "+") ++ pad_left 2 (pretty (Z.abs ex))
  else if Z.leb decpt 0 then "0." ++ zeros (Z.to_nat (- decpt)) ++ ds
  else if Z.leb nd decpt then ds ++ zeros (Z.to_nat (decpt - nd)) ++ ".0"
  else substring 0 (Z.to_nat decpt) ds ++ "." ++ substring (Z.to_nat decpt) (Z.to_nat (nd - decpt)) ds.

Definition sign_str (neg : bool) : string := if neg then "-" else "".

(** [repr(x)] for a float. *)
Definition float_repr (x : float) : string :=
  match x with
  | S754_zero s => sign_str s ++ "0.0"
  | S754_infinity s => sign_str s ++ "inf"
  | S754_nan => "nan"
  | S754_finite s m e =>
      let '(num, den) := frac m e in
      let q := dec_exp num den in
      let '(D, n) := shortest 16 s x num den q 1 in
      let ds := pretty D in
      let decpt := q + 1 + (ndigits D - n) in
      sign_str s ++ layout (rstrip0 ds) decpt
  end.

(** [format(x, '.<prec>f')]. *)
Definition fixed (prec : nat) (x : float) : string :=
  match x with
  | S754_zero s => sign_str s ++ "0." ++ zeros prec
  | S754_infinity s => sign_str s ++ "inf"
  | S754_nan => "nan"
  | S754_finite s m e =>
      let '(num, den) := frac m e in
      let '(a, b) := scale num den (Z.of_nat prec) in
      let N := round_half_even a b in
      sign_str s ++ pretty (N / 10 ^ Z.of_nat prec) ++ "."
        ++ pad_left prec (pretty (N mod 10 ^ Z.of_nat prec))
  end.

(** Two hexadecimal digits of a code point below 256, lowercase. *)
Definition hex_digit (n : nat) : ascii :=
  if Nat.ltb n 10 then ascii_of_nat (48 + n) else ascii_of_nat (87 + n).

Definition hex2 (n : nat) : string :=
  String (hex_digit (n / 16)) (String (hex_digit (n mod 16)) "").

(** [Py_UNICODE_ISPRINTABLE] on code points 0-255: not the controls
    0-31 and 127-159, not the no-break space 160 (category Zs) and
    not the soft hyphen 173 (category Cf). *)
Definition printable (c : ascii) : bool :=
  let n := nat_of_ascii c in
  negb (Nat.ltb n 32 || (Nat.leb 127 n && Nat.leb n 160) || Nat.eqb n 173).

(** One character inside the quotes [q] of [unicode_repr]. *)
Definition repr_char (q : ascii) (c : ascii) : string :=
  if Ascii.eqb c q || Ascii.eqb c "\" then String "\" (String c "")
  else if Nat.eqb (nat_of_ascii c) 9 then "\t"
  else if Nat.eqb (nat_of_ascii c) 10 then "\n"
  else if Nat.eqb (nat_of_ascii c) 13 then "\r"
  else if printable c then String c ""
  else "\x" ++ hex2 (nat_of_ascii c).

Fixpoint str_concat_map (f : ascii -> string) (s : string) : string :=
  match s with
  | EmptyString => ""
  | String c s' => f c ++ str_concat_map f s'
  end.

(** [repr(s)]: single quotes unless [s] contains a single quote and no
    double quote. *)
Definition dquote : ascii := ascii_of_nat 34.

Definition str_repr (s : string) : string :=
  let q := if str_contains "'" s && negb (str_contains dquote s) then dquote else "'"%char in
  String q (str_concat_map (repr_char q) s ++ String q "").

End Repr.
