(* ===== verification/Json.v ===== *)
(** * Decoded JSON values and the Python operations the program applies to them

    [response.json()] (lines 57 and 100 of src/venice_image_gen.py)
    hands the program the value [json.loads] builds: [None], a bool, an
    int, a float, a str, a list or a dict with string keys, nested. The
    program then calls [.get] on it (lines 63-65, 274, 279, 288, 290),
    tests its truthiness (lines 66, 275, 289), iterates it (line 63),
    indexes it (line 282), joins it (line 66), divides it (line 290) and
    formats it into f-strings (lines 67, 107, 119) or [json.dumps(data,
    indent=2)] (line 60). Each of these is a Python operation with its
    own errors: [.get] on a non-dict raises [AttributeError], indexing an
    int raises [TypeError], and so on. This file models the values as
    the inductive [json] and each operation as a function returning
    [res], with CPython's messages.

    A dict is the list of its items in insertion order; the dicts
    [json.loads] builds have distinct keys, so looking up the first
    matching key is looking up the key. *)

From S2P Require Import Prelude.
From S2P Require Import PyFloat.
From S2P Require Import PyRepr.
From Stdlib Require Import ZArith String Ascii Lia.

Open Scope string_scope.
Open Scope Z_scope.

Module PyJson.
Import F64 Repr.

Inductive json : Type :=
| JNull
| JBool (b : bool)
| JInt (n : Z)
| JFloat (f : float)
| JStr (s : string)
| JList (l : list json)
| JDict (kvs : list (string * json)).

Definition type_name (v : json) : string :=
  match v with
  | JNull => "NoneType" | JBool _ => "bool" | JInt _ => "int" | JFloat _ => "float"
  | JStr _ => "str" | JList _ => "list" | JDict _ => "dict"
  end.

(** [bool(v)]: [None], [False], zeros and empty containers are false
    (a NaN is true). *)
Definition truthy (v : json) : bool :=
  match v with
  | JNull => false
  | JBool b => b
  | JInt n => negb (Z.eqb n 0)
  | JFloat f => negb (is_zero f)
  | JStr s => negb (String.eqb s "")
  | JList l => negb (Nat.eqb (List.length l) 0)
  | JDict kvs => negb (Nat.eqb (List.length kvs) 0)
  end.

Fixpoint lookup (kvs : list (string * json)) (k : string) : option json :=
  match kvs with
  | [] => None
  | (k', v) :: kvs' => if String.eqb k k' then Some v else lookup kvs' k
  end.

(** [v.get(k, dflt)]. *)
Definition get (v : json) (k : string) (dflt : json) : res json :=
  match v with
  | JDict kvs => Ok (default dflt (lookup kvs k))
  | _ => Raise (AttributeError ("'" ++ type_name v ++ "' object has no attribute 'get'"))
  end.

Fixpoint chars (s : string) : list json :=
  match s with
  | EmptyString => []
  | String c s' => JStr (String c "") :: chars s'
  end.

(** [iter(v)]: the items of a list, the characters of a string, the
    keys of a dict. *)
Definition iter (v : json) : res (list json) :=
  match v with
  | JList l => Ok l
  | JStr s => Ok (chars s)
  | JDict kvs => Ok (map (fun kv => JStr (fst kv)) kvs)
  | _ => Raise (TypeError ("'" ++ type_name v ++ "' object is not iterable"))
  end.

(** [v[0]]: a dict has only string keys, so [0] is never one of them. *)
Definition index0 (v : json) : res json :=
  match v with
  | JList (x :: _) => Ok x
  | JList [] => Raise (IndexError "list index out of range")
  | JStr (String c _) => Ok (JStr (String c ""))
  | JStr EmptyString => Raise (IndexError "string index out of range")
  | JDict _ => Raise (KeyError "0")
  | _ => Raise (TypeError ("'" ++ type_name v ++ "' object is not subscriptable"))
  end.

Fixpoint sep_concat (sep : string) (l : list string) : string :=
  match l with
  | [] => ""
  | [s] => s
  | s :: l' => s ++ sep ++ sep_concat sep l'
  end.

(** The items of [sep.join(v)] once [v] is iterated: all must be str. *)
Fixpoint join_items (i : nat) (l : list json) : res (list string) :=
  match l with
  | [] => Ok []
  | JStr s :: l' => rest <- join_items (S i) l' ;; Ok (s :: rest)
  | v :: _ => Raise (TypeError ("sequence item " ++ pretty (Z.of_nat i) ++ ": expected str instance, "
                                 ++ type_name v ++ " found"))
  end.

(** [sep.join(v)]. *)
Definition join (sep : string) (v : json) : res string :=
  match v with
  | JList _ | JStr _ | JDict _ =>
      items <- iter v ;; ss <- join_items 0 items ;; Ok (sep_concat sep ss)
  | _ => Raise (TypeError "can only join an iterable")
  end.

(** [repr(v)]. *)
Fixpoint py_repr (v : json) : string :=
  match v with
  | JNull => "None"
  | JBool b => if b then "True" else "False"
  | JInt n => pretty n
  | JFloat f => float_repr f
  | JStr s => str_repr s
  | JList l => "[" ++ sep_concat ", " (map py_repr l) ++ "]"
  | JDict kvs => "{" ++ sep_concat ", " (map (fun kv => str_repr (fst kv) ++ ": " ++ py_repr (snd kv)) kvs) ++ "}"
  end.

(** [str(v)], which is also [format(v, '')] in an f-string. *)
Definition py_str (v : json) : string :=
  match v with
  | JStr s => s
  | _ => py_repr v
  end.

(** ** [json.dumps(v, indent=2)] with its default [ensure_ascii=True] *)

Definition newline : string := String (ascii_of_nat 10) "".

Definition hex4 (n : nat) : string := "00" ++ hex2 n.

(** One character of a JSON string literal: the named escapes, [\uXXXX]
    for the other characters outside [' '..'~']. *)
Definition json_char (c : ascii) : string :=
  let n := nat_of_ascii c in
  if Nat.eqb n 34 then String "\" (String c "")
  else if Nat.eqb n 92 then "\\"
  else if Nat.eqb n 10 then "\n"
  else if Nat.eqb n 13 then "\r"
  else if Nat.eqb n 9 then "\t"
  else if Nat.eqb n 8 then "\b"
  else if Nat.eqb n 12 then "\f"
  else if Nat.ltb n 32 || Nat.ltb 126 n then "\u" ++ hex4 n
  else String c "".

Definition json_str (s : string) : string :=
  String dquote (str_concat_map json_char s ++ String dquote "").

Definition json_float (f : float) : string :=
  match f with
  | S754_infinity s => if s then "-Infinity" else "Infinity"
  | S754_nan => "NaN"
  | _ => float_repr f
  end.

Fixpoint indent (n : nat) : string :=
  match n with O => "" | S k => "  " ++ indent k end.

Fixpoint dumps_at (lvl : nat) (v : json) : string :=
  match v with
  | JNull => "null"
  | JBool b => if b then "true" else "false"
  | JInt n => pretty n
  | JFloat f => json_float f
  | JStr s => json_str s
  | JList [] => "[]"
  | JList l =>
      let sep := newline ++ indent (S lvl) in
      "[" ++ sep ++ sep_concat ("," ++ sep) (map (dumps_at (S lvl)) l) ++ newline ++ indent lvl ++ "]"
  | JDict [] => "{}"
  | JDict kvs =>
      let sep := newline ++ indent (S lvl) in
      "{" ++ sep
        ++ sep_concat ("," ++ sep) (map (fun kv => json_str (fst kv) ++ ": " ++ dumps_at (S lvl) (snd kv)) kvs)
        ++ newline ++ indent lvl ++ "}"
  end.

Definition dumps (v : json) : string := dumps_at 0 v.

(** ** [v / 1000] *)

(** An int divided by an int is the correctly rounded quotient, and an
    [OverflowError] when that is too large for a float. *)
Definition int_div_1000 (n : Z) : res float :=
  match of_decimal (Z.ltb n 0) (Z.abs n) (-3) with
  | S754_infinity _ => Raise (OverflowError "integer division result too large for a float")
  | f => Ok f
  end.

Definition div_1000 (v : json) : res float :=
  match v with
  | JInt n => int_div_1000 n
  | JBool b => int_div_1000 (if b then 1 else 0)
  | JFloat f => Ok (SFdiv prec emax f (of_int 1000))
  | _ => Raise (TypeError ("unsupported operand type(s) for /: '" ++ type_name v ++ "' and 'int'"))
  end.

(** ** [str(e)] of the exceptions the program prints *)

Definition exn_str (e : exn) : string :=
  match e with
  | ValueError m | ZeroDivisionError m | OverflowError m | TypeError m
  | AttributeError m | KeyError m | IndexError m | ParserError m | JSONDecodeError m => m
  | OSError n s f => "[Errno " ++ pretty n ++ "] " ++ s ++ ": " ++ str_repr f
  | SystemExit n => pretty n
  end.

End PyJson.
