(* ===== verification/JsonText.v ===== *)
(** * JSON text: [json.dumps] as [requests] sends a payload, [json.loads] as it reads a response

    The program hands its payload to [requests.post(url, json=payload)]
    (line 98), which encodes it with [json.dumps(payload,
    allow_nan=False)] (requests' [PreparedRequest.prepare_body]) and
    raises [InvalidJSONError] when that raises [ValueError]; it reads
    each response with [response.json()] (lines 57 and 100, and 106 on
    the error path), which is [json.loads(response.text)] and raises
    requests' [JSONDecodeError] when that raises [json.JSONDecodeError].
    This file models the text level of both, for CPython 3.11's C
    accelerator ([Modules/_json.c]):
    - [encode]: [c_make_encoder] with the separators [', '] and [': '],
      [ensure_ascii] and [allow_nan=False]: [float.__repr__] for a finite
      float and [ValueError] for the others, [int.__repr__] with its
      4300-digit limit;
    - [scan_value] and its helpers: [scan_once_unicode],
      [scanstring_unicode], [_parse_object_unicode],
      [_parse_array_unicode], [_match_number_unicode], the named
      constants; a dict keeps the position of the first occurrence of a
      key and the value of the last ([PyDict_SetItem]);
    - [loads]: [JSONDecoder.decode]: the whitespace around the value,
      ["Extra data"], and the [JSONDecodeError] message with its line and
      column.
    Characters are code points 0-255 as everywhere in the development: a
    [\uXXXX] escape above [ÿ] has no character of the model, and the
    scanner stops there ([Beyond]); [in_model] tells which texts the
    model decodes. The scanner runs on fuel: [loads] gives it
    [2 * length + 1], which [scan_value_enough] shows is never
    exhausted, and [scan_value_more] that more fuel changes nothing.
    [decode_encode] reads back the text [encode] writes for a
    well-formed value; [dict_json_wf] gives its hypothesis for a payload
    [encode] accepts (used by [Client.generate_request_wire]), and
    [decode_no_value] is the error of a text that is not JSON. *)

From S2P Require Import Prelude.
From S2P Require Import PyFloat.
From S2P Require Import Payload.
From S2P Require Import PyRepr.
From S2P Require Import Json.
From Stdlib Require Import ZArith String Ascii Lia.

Open Scope string_scope.
Open Scope py_scope.
Local Open Scope nat_scope.

Module JsonText.
Import F64 FloatParse Repr PyJson.

(** ** [json.dumps(obj, allow_nan=False)] *)

Definition OUT_OF_RANGE : string := "Out of range float values are not JSON compliant".

Definition TO_STR_LIMIT : string :=
  "Exceeds the limit (4300 digits) for integer string conversion; use sys.set_int_max_str_digits() to increase the limit".

(** [int.__repr__]: [ValueError] beyond 4300 digits. *)
Definition enc_int (n : Z) : res string :=
  if Nat.ltb INT_MAX_STR_DIGITS (String.length (pretty (Z.abs n))) then Raise (ValueError TO_STR_LIMIT)
  else Ok (pretty n).

(** [encoder_encode_float] with [allow_nan] false. *)
Definition enc_float (f : float) : res string :=
  match f with
  | S754_infinity _ | S754_nan => Raise (ValueError OUT_OF_RANGE)
  | _ => Ok (float_repr f)
  end.

(** [encoder_listencode_obj]: the items of a list or dict are encoded
    left to right, the first error ends the encoding. *)
Fixpoint encode (v : json) : res string :=
  match v with
  | JNull => Ok "null"
  | JBool b => Ok (if b then "true" else "false")
  | JInt n => enc_int n
  | JFloat f => enc_float f
  | JStr s => Ok (json_str s)
  | JList l =>
      items <- res_traverse encode l ;;
      Ok ("[" ++ sep_concat ", " items ++ "]")
  | JDict kvs =>
      items <- res_traverse (fun kv => a <- encode (snd kv) ;; Ok (json_str (fst kv) ++ ": " ++ a)) kvs ;;
      Ok ("{" ++ sep_concat ", " items ++ "}")
  end.

(** The JSON value of a payload entry. *)
Definition pyval_json (v : pyval) : json :=
  match v with
  | PNone => JNull
  | PBool b => JBool b
  | PInt n => JInt n
  | PFloat f => JFloat f
  | PStr s => JStr s
  end.

Definition dict_json (d : Dict.dict) : json := JDict (map (fun kv => (fst kv, pyval_json (snd kv))) d).

(** ** The scanner *)

(** Why a scan stops: a [JSONDecodeError] with its message and the
    length of the input left where it is raised, the [ValueError] of
    [int()] beyond 4300 digits, a character outside the model, or no
    fuel left. *)
Inductive load_err : Type :=
| DecodeError (msg : string) (rem : nat)
| DigitLimit (digits : nat)
| Beyond
| OutOfFuel.

Inductive scan (A : Type) : Type :=
| Found (a : A) (rest : string)
| Fail (e : load_err).
Arguments Found {A} a rest.
Arguments Fail {A} e.

Definition sbind {A B} (m : scan A) (k : A -> string -> scan B) : scan B :=
  match m with Found a rest => k a rest | Fail e => Fail e end.

Declare Scope scan_scope.
Delimit Scope scan_scope with scan.
Notation "'let*' x & r <- m 'in' k" := (sbind m (fun x r => k))
  (at level 100, x name, r name, m at level 100, right associativity) : scan_scope.
Local Open Scope scan_scope.

Definition smap {A B} (f : A -> B) (m : scan A) : scan B :=
  let* a & r <- m in Found (f a) r.

(** [IS_WHITESPACE]: space, tab, line feed, carriage return. *)
Definition is_ws (c : ascii) : bool :=
  let n := nat_of_ascii c in Nat.eqb n 32 || Nat.eqb n 9 || Nat.eqb n 10 || Nat.eqb n 13.

Fixpoint skip_ws (s : string) : string :=
  match s with
  | String c s' => if is_ws c then skip_ws s' else s
  | EmptyString => s
  end.

(** The value of a hexadecimal digit, either case. *)
Definition hex_val (c : ascii) : option nat :=
  let n := nat_of_ascii c in
  if Nat.leb 48 n && Nat.leb n 57 then Some (n - 48)
  else if Nat.leb 97 n && Nat.leb n 102 then Some (n - 87)
  else if Nat.leb 65 n && Nat.leb n 70 then Some (n - 55)
  else None.

Definition hex4_val (a b c d : ascii) : option nat :=
  match hex_val a, hex_val b, hex_val c, hex_val d with
  | Some x, Some y, Some z, Some t => Some (((x * 16 + y) * 16 + z) * 16 + t)
  | _, _, _, _ => None
  end.

(** The character of a one-letter escape. *)
Definition simple_escape (e : ascii) : option ascii :=
  if Ascii.eqb e dquote || Ascii.eqb e "\" || Ascii.eqb e "/" then Some e
  else if Ascii.eqb e "b" then Some (ascii_of_nat 8)
  else if Ascii.eqb e "f" then Some (ascii_of_nat 12)
  else if Ascii.eqb e "n" then Some (ascii_of_nat 10)
  else if Ascii.eqb e "r" then Some (ascii_of_nat 13)
  else if Ascii.eqb e "t" then Some (ascii_of_nat 9)
  else None.

Definition scons (c : ascii) (m : scan string) : scan string := smap (String c) m.

Definition INVALID_U : string := "Invalid \uXXXX escape".

(** [scanstring_unicode] after the opening quote; [start] is the
    length of the input at the quote. *)
Fixpoint scan_str (start : nat) (s : string) : scan string :=
  match s with
  | EmptyString => Fail (DecodeError "Unterminated string starting at" start)
  | String c s' =>
      if Ascii.eqb c dquote then Found EmptyString s'
      else if Ascii.eqb c "\" then
        match s' with
        | EmptyString => Fail (DecodeError "Unterminated string starting at" start)
        | String e s'' =>
            if Ascii.eqb e "u" then
              match s'' with
              | String h1 (String h2 (String h3 (String h4 rest))) =>
                  match rest, hex4_val h1 h2 h3 h4 with
                  | EmptyString, _ | _, None => Fail (DecodeError INVALID_U (String.length s'))
                  | _, Some n => if Nat.ltb n 256 then scons (ascii_of_nat n) (scan_str start rest) else Fail Beyond
                  end
              | _ => Fail (DecodeError INVALID_U (String.length s'))
              end
            else match simple_escape e with
                 | Some d => scons d (scan_str start s'')
                 | None => Fail (DecodeError "Invalid \escape" (String.length s))
                 end
        end
      else if Nat.ltb (nat_of_ascii c) 32 then Fail (DecodeError "Invalid control character at" (String.length s))
      else scons c (scan_str start s')
  end.

(** The longest prefix of ASCII digits and the rest. *)
Fixpoint digit_span (s : string) : string * string :=
  match s with
  | String c s' => if py_isdigit c then let '(ds, r) := digit_span s' in (String c ds, r) else ("", s)
  | EmptyString => ("", s)
  end.

(** A fraction: a point followed by at least one digit, else nothing. *)
Definition frac_span (s : string) : string * string :=
  match s with
  | String p (String d s') =>
      if Ascii.eqb p "." && py_isdigit d then let '(ds, r) := digit_span s' in (String p (String d ds), r)
      else ("", s)
  | _ => ("", s)
  end.

(** An exponent: [e] or [E], a sign, at least one digit; without a
    digit the scanner backtracks to the [e]. *)
Definition exp_span (s : string) : string * string :=
  match s with
  | String e s1 =>
      if Ascii.eqb e "e" || Ascii.eqb e "E" then
        let '(sg, s2) := match s1 with
                         | String c s' => if Ascii.eqb c "+" || Ascii.eqb c "-" then (String c "", s') else ("", s1)
                         | EmptyString => ("", s1)
                         end in
        match digit_span s2 with
        | (String d ds, r) => (String e (sg ++ String d ds), r)
        | (EmptyString, _) => ("", s)
        end
      else ("", s)
  | EmptyString => ("", s)
  end.

(** The pieces of a number at the start of [s]: the sign, the integer
    part ([0] or digits not starting with [0]), the fraction, the
    exponent and the rest, or [None] when no digit follows the sign. *)
Definition split_number (s : string) : option (bool * string * string * string * string) :=
  let '(neg, s1) := match s with
                    | String c s' => if Ascii.eqb c "-" then (true, s') else (false, s)
                    | EmptyString => (false, s)
                    end in
  match s1 with
  | String c s2 =>
      if py_isdigit c then
        let '(ip, s3) := if Ascii.eqb c "0" then (String c "", s2)
                         else let '(ds, r) := digit_span s2 in (String c ds, r) in
        let '(fp, s4) := frac_span s3 in
        let '(ep, s5) := exp_span s4 in
        Some (neg, ip, fp, ep, s5)
      else None
  | EmptyString => None
  end.

Definition digits_of (s : string) : Z := fold_left (fun acc d => (acc * 10 + d)%Z) (str_digits s) 0%Z.

(** [_match_number_unicode]: an int through [PyLong_FromString] with
    its 4300-digit limit, a float through [PyFloat_FromString]. *)
Definition scan_number (s : string) : scan json :=
  match split_number s with
  | None => Fail (DecodeError "Expecting value" (String.length s))
  | Some (neg, ip, fp, ep, rest) =>
      if String.eqb fp "" && String.eqb ep "" then
        if Nat.ltb INT_MAX_STR_DIGITS (String.length ip) then Fail (DigitLimit (String.length ip))
        else Found (JInt (if neg then (- digits_of ip)%Z else digits_of ip)) rest
      else
        match of_string ((if neg then "-" else "") ++ ip ++ fp ++ ep) with
        | Some f => Found (JFloat f) rest
        | None => Fail (DecodeError "Expecting value" (String.length s))
        end
  end.

(** The rest of [s] after the prefix [p], if [s] starts with it. *)
Fixpoint after (p s : string) : option string :=
  match p, s with
  | EmptyString, _ => Some s
  | String a p', String b s' => if Ascii.eqb a b then after p' s' else None
  | _, _ => None
  end.

(** The named values of [scan_once_unicode], then a number. *)
Definition scan_literal (s : string) : scan json :=
  match after "null" s with Some r => Found JNull r | None =>
  match after "true" s with Some r => Found (JBool true) r | None =>
  match after "false" s with Some r => Found (JBool false) r | None =>
  match after "NaN" s with Some r => Found (JFloat S754_nan) r | None =>
  match after "Infinity" s with Some r => Found (JFloat (S754_infinity false)) r | None =>
  match after "-Infinity" s with Some r => Found (JFloat (S754_infinity true)) r | None =>
  scan_number s
  end end end end end end.

(** [d[k] = v] on the dict being built: a key seen before keeps its
    place and takes the new value. *)
Fixpoint jset (kvs : list (string * json)) (k : string) (v : json) : list (string * json) :=
  match kvs with
  | [] => [(k, v)]
  | (k', v') :: kvs' => if String.eqb k k' then (k, v) :: kvs' else (k', v') :: jset kvs' k v
  end.

Definition build_dict (items : list (string * json)) : json :=
  JDict (fold_left (fun d kv => jset d (fst kv) (snd kv)) items []).

Definition EXPECTING_NAME : string := "Expecting property name enclosed in double quotes".

(** [scan_once_unicode] and the loops of [_parse_array_unicode] and
    [_parse_object_unicode]. [scan_elems] and [scan_members] start at
    an element or a key, after the whitespace. *)
Fixpoint scan_value (fuel : nat) (s : string) {struct fuel} : scan json :=
  match fuel with
  | O => Fail OutOfFuel
  | S f =>
      match s with
      | EmptyString => Fail (DecodeError "Expecting value" 0)
      | String c s' =>
          if Ascii.eqb c dquote then smap JStr (scan_str (String.length s) s')
          else if Ascii.eqb c "[" then
            let s1 := skip_ws s' in
            match after "]" s1 with
            | Some r => Found (JList []) r
            | None => smap JList (scan_elems f s1)
            end
          else if Ascii.eqb c "{" then
            let s1 := skip_ws s' in
            match after "}" s1 with
            | Some r => Found (JDict []) r
            | None => smap build_dict (scan_members f s1)
            end
          else scan_literal s
      end
  end
with scan_elems (fuel : nat) (s : string) {struct fuel} : scan (list json) :=
  match fuel with
  | O => Fail OutOfFuel
  | S f =>
      let* v & r <- scan_value f s in
      let r1 := skip_ws r in
      match after "]" r1, after "," r1 with
      | Some r', _ => Found [v] r'
      | None, Some r' => let* vs & r'' <- scan_elems f (skip_ws r') in Found (v :: vs) r''
      | None, None => Fail (DecodeError "Expecting ',' delimiter" (String.length r1))
      end
  end
with scan_members (fuel : nat) (s : string) {struct fuel} : scan (list (string * json)) :=
  match fuel with
  | O => Fail OutOfFuel
  | S f =>
      match s with
      | String c s' =>
          if Ascii.eqb c dquote then
            let* k & r <- scan_str (String.length s) s' in
            let r1 := skip_ws r in
            match after ":" r1 with
            | Some r' =>
                let* v & r2 <- scan_value f (skip_ws r') in
                let r3 := skip_ws r2 in
                match after "}" r3, after "," r3 with
                | Some r4, _ => Found [(k, v)] r4
                | None, Some r4 => let* kvs & r5 <- scan_members f (skip_ws r4) in Found ((k, v) :: kvs) r5
                | None, None => Fail (DecodeError "Expecting ',' delimiter" (String.length r3))
                end
            | None => Fail (DecodeError "Expecting ':' delimiter" (String.length r1))
            end
          else Fail (DecodeError EXPECTING_NAME (String.length s))
      | EmptyString => Fail (DecodeError EXPECTING_NAME 0)
      end
  end.
(** What may follow a value inside the text [encode] writes: a comma,
    a closing bracket or brace, or the end. *)
Definition stop (r : string) : bool :=
  match r with
  | EmptyString => true
  | String c _ => Ascii.eqb c "," || Ascii.eqb c "]" || Ascii.eqb c "}"
  end.

(** The characters a JSON value can start with. *)
Definition value_start (c : ascii) : bool :=
  Ascii.eqb c dquote || Ascii.eqb c "[" || Ascii.eqb c "{" || Ascii.eqb c "n" || Ascii.eqb c "t"
  || Ascii.eqb c "f" || Ascii.eqb c "N" || Ascii.eqb c "I" || Ascii.eqb c "-" || py_isdigit c.

(** ** The values [loads] gives back from their text *)

(** A float whose [repr] is a JSON number (a point or an exponent,
    nothing after it) that [float()] reads back as the same float: every
    finite float when [repr] is correct, checked here by evaluation. *)
Definition float_ok (f : float) : bool :=
  match split_number (float_repr f) with
  | Some (_, _, fp, ep, EmptyString) =>
      negb (String.eqb fp "" && String.eqb ep "")
      && match of_string (float_repr f) with Some g => float_eqb g f | None => false end
  | _ => false
  end.

Fixpoint keys_distinct (kvs : list (string * json)) : bool :=
  match kvs with
  | [] => true
  | (k, _) :: kvs' => negb (existsb (String.eqb k) (map fst kvs')) && keys_distinct kvs'
  end.

(** Values [encode] writes and [loads] reads back: ints within the
    digit limit, floats as above, dicts without repeated keys. *)
Fixpoint wf_json (v : json) : bool :=
  match v with
  | JInt n => Nat.leb (String.length (pretty (Z.abs n))) INT_MAX_STR_DIGITS
  | JFloat f => float_ok f
  | JList l => forallb wf_json l
  | JDict kvs => forallb (fun kv => wf_json (snd kv)) kvs && keys_distinct kvs
  | _ => true
  end.

(** A payload entry [encode] writes and [loads] reads back, when
    [encode] accepts it: a float whose [repr] reads back. *)
Definition pyval_ok (v : pyval) : bool :=
  match v with PFloat f => float_ok f | _ => true end.

(** A bound on the fuel the scan of a value's text takes. *)
Fixpoint jsize (v : json) : nat :=
  match v with
  | JList l => S (list_sum (map (fun x => S (jsize x)) l))
  | JDict kvs => S (list_sum (map (fun kv => S (jsize (snd kv))) kvs))
  | _ => 1
  end.

(** ** [json.loads(s)] *)

(** [JSONDecoder.decode]: whitespace, one value, whitespace, and
    ["Extra data"] when anything is left. *)
Definition decode (doc : string) : scan json :=
  let s := skip_ws doc in
  let* v & r <- scan_value (2 * String.length s + 1) s in
  match skip_ws r with
  | EmptyString => Found v EmptyString
  | r1 => Fail (DecodeError "Extra data" (String.length r1))
  end.

Fixpoint count_nl (s : string) : nat :=
  match s with
  | EmptyString => 0
  | String c s' => (if Nat.eqb (nat_of_ascii c) 10 then 1 else 0) + count_nl s'
  end.

(** [s.rfind('\n')] as the number of characters after the last line
    feed, or [None] without one. *)
Fixpoint after_last_nl (s : string) : option nat :=
  match s with
  | EmptyString => None
  | String c s' =>
      match after_last_nl s' with
      | Some k => Some k
      | None => if Nat.eqb (nat_of_ascii c) 10 then Some (String.length s') else None
      end
  end.

(** [str(JSONDecodeError(msg, doc, pos))]:
    ["%s: line %d column %d (char %d)"], with the line counted from the
    line feeds before [pos] and the column from the last of them. *)
Definition decode_error_str (msg doc : string) (pos : nat) : string :=
  let before := substring 0 pos doc in
  let lineno := count_nl before + 1 in
  let colno := match after_last_nl before with Some k => k + 1 | None => pos + 1 end in
  msg ++ ": line " ++ pretty (Z.of_nat lineno) ++ " column " ++ pretty (Z.of_nat colno)
      ++ " (char " ++ pretty (Z.of_nat pos) ++ ")".

Definition to_int_limit (digits : nat) : string :=
  "Exceeds the limit (4300 digits) for integer string conversion: value has " ++ pretty (Z.of_nat digits)
    ++ " digits; use sys.set_int_max_str_digits() to increase the limit".

(** The texts the model decodes: no [\uXXXX] escape beyond the
    model's characters on the way (fuel never runs out,
    [scan_value_enough]). *)
Definition in_model (doc : string) : bool :=
  match decode doc with
  | Fail Beyond | Fail OutOfFuel => false
  | _ => true
  end.

(** [json.loads(doc)]. *)
Definition loads (doc : string) : res json :=
  match decode doc with
  | Found v _ => Ok v
  | Fail (DecodeError msg rem) => Raise (JSONDecodeError (decode_error_str msg doc (String.length doc - rem)))
  | Fail (DigitLimit n) => Raise (ValueError (to_int_limit n))
  | Fail Beyond | Fail OutOfFuel => Raise (JSONDecodeError "")
  end.

(** ** Termination: the fuel of [decode] is never exhausted *)

(** A scan that does not run out of fuel and, when it finds a value,
    leaves less than [n] characters. *)
Definition progress {A} (n : nat) (m : scan A) : Prop :=
  m <> Fail OutOfFuel /\ forall a r, m = Found a r -> String.length r < n.

Lemma progress_found {A} n (a : A) r : String.length r < n -> progress n (Found a r).
Proof. split; [discriminate | by intros ? ? [= _ <-]]. Qed.

Lemma progress_fail {A} n e : e <> OutOfFuel -> progress n (@Fail A e).
Proof. split; [congruence | discriminate]. Qed.

Lemma progress_bind {A B} n (m : scan A) (k : A -> string -> scan B) :
  progress n m -> (forall a r, m = Found a r -> progress n (k a r)) -> progress n (sbind m k).
Proof. intros [Hm _] Hk. destruct m as [a r|e]; simpl; [by apply Hk|]. by apply progress_fail; congruence. Qed.

Lemma progress_smap {A B} n (f : A -> B) m : progress n m -> progress n (smap f m).
Proof. intros Hm. apply progress_bind; [done|]. intros a r E. apply progress_found. by apply (proj2 Hm a r). Qed.

Lemma progress_mono {A} n n' (m : scan A) : progress n m -> n <= n' -> progress n' m.
Proof. intros [H1 H2] Hn. split; [done|]. intros a r E. specialize (H2 a r E). lia. Qed.

Lemma skip_ws_length s : String.length (skip_ws s) <= String.length s.
Proof. induction s as [|c s IH]; simpl; [lia|]. destruct (is_ws c); simpl; lia. Qed.

Lemma after_length p s r : after p s = Some r -> String.length r + String.length p = String.length s.
Proof.
  revert s. induction p as [|a p IH]; intros [|b s]; simpl; try discriminate.
  1-2: intros [= <-]; simpl; lia.
  destruct (Ascii.eqb a b); [|discriminate]. intros H. apply IH in H. lia.
Qed.

#[local] Hint Resolve progress_found progress_fail progress_smap skip_ws_length : core.

Lemma scan_str_progress k s : progress (String.length s) (scan_str k s).
Proof.
  revert k. pattern s. apply (induction_ltof1 _ String.length). clear s. intros s IH k. unfold ltof in IH.
  destruct s as [|c' s]; simpl; [by apply progress_fail|].
  destruct (Ascii.eqb c' dquote); [apply progress_found; lia|].
  destruct (Ascii.eqb c' "\").
  - destruct s as [|e s]; [by apply progress_fail|].
    destruct (Ascii.eqb e "u").
    + destruct s as [|h1 [|h2 [|h3 [|h4 rest]]]]; try by apply progress_fail.
      destruct rest as [|x rest]; [by apply progress_fail|].
      destruct (hex4_val h1 h2 h3 h4) as [m|]; [|by apply progress_fail].
      destruct (Nat.ltb m 256); [|by apply progress_fail].
      apply progress_smap. eapply progress_mono; [apply IH|]; simpl; lia.
    + destruct (simple_escape e); [|by apply progress_fail].
      apply progress_smap. eapply progress_mono; [apply IH|]; simpl; lia.
  - destruct (Nat.ltb _ 32); [by apply progress_fail|].
    apply progress_smap. eapply progress_mono; [apply IH|]; simpl; lia.
Qed.

Lemma digit_span_app s ds r : digit_span s = (ds, r) -> s = ds ++ r.
Proof.
  revert ds. induction s as [|c s IH]; simpl; intros ds; [by intros [= <- <-]|].
  destruct (py_isdigit c); [|by intros [= <- <-]].
  destruct (digit_span s) as [ds' r'] eqn:E. intros [= <- <-]. simpl. by rewrite (IH ds').
Qed.

Lemma frac_span_app s fp r : frac_span s = (fp, r) -> s = fp ++ r.
Proof.
  unfold frac_span. destruct s as [|p [|d s]]; try by intros [= <- <-].
  destruct (Ascii.eqb p "." && py_isdigit d); [|by intros [= <- <-]].
  destruct (digit_span s) as [ds r'] eqn:E. intros [= <- <-]. simpl. by rewrite (digit_span_app _ _ _ E).
Qed.

Lemma exp_span_app s ep r : exp_span s = (ep, r) -> s = ep ++ r.
Proof.
  unfold exp_span. destruct s as [|e s1]; [by intros [= <- <-]|].
  destruct (Ascii.eqb e "e" || Ascii.eqb e "E"); [|by intros [= <- <-]].
  destruct (match s1 with String c s' => if Ascii.eqb c "+" || Ascii.eqb c "-" then (String c "", s') else ("", s1)
            | EmptyString => ("", s1) end) as [sg s2] eqn:Es.
  assert (s1 = sg ++ s2) as ->.
  { destruct s1 as [|c s']; [by injection Es as <- <-|].
    destruct (Ascii.eqb c "+" || Ascii.eqb c "-"); by injection Es as <- <-. }
  destruct (digit_span s2) as [[|d ds] r'] eqn:E; [by intros [= <- <-]|].
  intros [= <- <-]. apply digit_span_app in E as ->. simpl. by rewrite <- !string_app_assoc.
Qed.

(** A number is the text its pieces spell, followed by the rest. *)
Lemma split_number_app s neg ip fp ep rest :
  split_number s = Some (neg, ip, fp, ep, rest) ->
  s = (if neg then "-" else "") ++ ip ++ fp ++ ep ++ rest /\ ip <> "".
Proof.
  unfold split_number.
  destruct (match s with String c s' => if Ascii.eqb c "-" then (true, s') else (false, s)
            | EmptyString => (false, s) end) as [ng s1] eqn:Eg.
  assert (s = (if ng then "-" else "") ++ s1) as Hs.
  { destruct s as [|c s']; [by injection Eg as <- <-|].
    destruct (Ascii.eqb_spec c "-") as [->|]; by injection Eg as <- <-. }
  destruct s1 as [|c s2]; [discriminate|]. destruct (py_isdigit c); [|discriminate].
  destruct (if Ascii.eqb c "0" then (String c "", s2) else let '(ds, r) := digit_span s2 in (String c ds, r))
    as [ip' s3] eqn:Ei.
  assert (String c s2 = ip' ++ s3 /\ ip' <> "") as [Hi Hne].
  { destruct (Ascii.eqb c "0"); [by injection Ei as <- <-|].
    destruct (digit_span s2) as [ds r] eqn:E. injection Ei as <- <-. by rewrite (digit_span_app _ _ _ E). }
  destruct (frac_span s3) as [fp' s4] eqn:Ef. destruct (exp_span s4) as [ep' s5] eqn:Ee.
  intros [= <- <- <- <- <-]. split; [|done].
  rewrite Hs, Hi, (frac_span_app _ _ _ Ef), (exp_span_app _ _ _ Ee). done.
Qed.

Lemma scan_number_progress s : progress (String.length s) (scan_number s).
Proof.
  unfold scan_number. destruct (split_number s) as [[[[[neg ip] fp] ep] rest]|] eqn:E; [|by apply progress_fail].
  apply split_number_app in E as [Hs Hne].
  assert (String.length rest < String.length s).
  { rewrite Hs. rewrite !string_app_length. destruct ip; [done|]. simpl. lia. }
  destruct (String.eqb fp "" && String.eqb ep "").
  - destruct (Nat.ltb _ _); auto.
  - destruct (of_string _); auto.
Qed.

Lemma scan_literal_progress s : progress (String.length s) (scan_literal s).
Proof.
  unfold scan_literal.
  repeat match goal with
  | |- progress _ (match after ?p s with Some _ => _ | None => _ end) =>
      let E := fresh "E" in destruct (after p s) as [r|] eqn:E;
      [apply progress_found; apply after_length in E; simpl in E; lia|]
  end.
  apply scan_number_progress.
Qed.

(** Length facts for [lia]: what [after] leaves and what [skip_ws]
    keeps. *)
Ltac lengths :=
  repeat match goal with
  | H : after _ _ = Some _ |- _ => apply after_length in H; simpl in H
  end;
  repeat match goal with
  | |- context [skip_ws ?x] =>
      lazymatch goal with _ : String.length (skip_ws x) <= _ |- _ => fail | _ => idtac end;
      pose proof (skip_ws_length x)
  | H : context [skip_ws ?x] |- _ =>
      lazymatch goal with _ : String.length (skip_ws x) <= _ |- _ => fail | _ => idtac end;
      pose proof (skip_ws_length x)
  end; simpl in *.

Lemma scan_progress f :
  (forall s, 2 * String.length s + 1 <= f -> progress (String.length s) (scan_value f s)) /\
  (forall s, 2 * String.length s + 2 <= f -> progress (String.length s) (scan_elems f s)) /\
  (forall s, 2 * String.length s + 2 <= f -> progress (String.length s) (scan_members f s)).
Proof.
  induction f as [|f (IHv & IHe & IHm)]; [split; [|split]; intros s Hf; lia|].
  split; [|split]; intros s Hf.
  - destruct s as [|c s']; cbn [scan_value]; [by apply progress_fail|].
    destruct (Ascii.eqb c dquote).
    { apply progress_smap. eapply progress_mono; [apply scan_str_progress|]. simpl; lia. }
    destruct (Ascii.eqb c "[").
    { destruct (after "]" (skip_ws s')) as [r|] eqn:E; [apply progress_found; lengths; lia|].
      apply progress_smap. eapply progress_mono; [apply IHe|]; lengths; lia. }
    destruct (Ascii.eqb c "{").
    { destruct (after "}" (skip_ws s')) as [r|] eqn:E; [apply progress_found; lengths; lia|].
      apply progress_smap. eapply progress_mono; [apply IHm|]; lengths; lia. }
    apply scan_literal_progress.
  - cbn [scan_elems]. assert (2 * String.length s + 1 <= f) as Hv by lia.
    apply progress_bind; [eapply progress_mono; [apply IHv|]; lia|].
    intros v r E. pose proof (proj2 (IHv s Hv) v r E) as Hr.
    destruct (after "]" (skip_ws r)) as [r'|] eqn:E1; [apply progress_found; lengths; lia|].
    destruct (after "," (skip_ws r)) as [r'|] eqn:E2; [|apply progress_fail; discriminate].
    assert (2 * String.length (skip_ws r') + 2 <= f) as He by (lengths; lia).
    apply progress_bind; [eapply progress_mono; [apply IHe|]; lengths; lia|].
    intros vs r'' E3. apply progress_found. pose proof (proj2 (IHe _ He) vs r'' E3). lengths; lia.
  - destruct s as [|c s']; cbn [scan_members]; [by apply progress_fail|].
    destruct (Ascii.eqb c dquote); [|by apply progress_fail].
    apply progress_bind; [eapply progress_mono; [apply scan_str_progress|]; simpl; lia|].
    intros k r E. pose proof (proj2 (scan_str_progress (String.length (String c s')) s') k r E) as Hr.
    destruct (after ":" (skip_ws r)) as [r'|] eqn:E1; [|apply progress_fail; discriminate].
    assert (2 * String.length (skip_ws r') + 1 <= f) as Hv by (lengths; lia).
    apply progress_bind; [eapply progress_mono; [apply IHv|]; lengths; lia|].
    intros v r2 E2. pose proof (proj2 (IHv _ Hv) v r2 E2) as Hr2.
    destruct (after "}" (skip_ws r2)) as [r3|] eqn:E3; [apply progress_found; lengths; lia|].
    destruct (after "," (skip_ws r2)) as [r3|] eqn:E4; [|apply progress_fail; discriminate].
    assert (2 * String.length (skip_ws r3) + 2 <= f) as Hm by (lengths; lia).
    apply progress_bind; [eapply progress_mono; [apply IHm|]; lengths; lia|].
    intros kvs r5 E5. apply progress_found. pose proof (proj2 (IHm _ Hm) kvs r5 E5). lengths; lia.
Qed.

(** [decode] never runs out of fuel. *)
Lemma scan_value_enough s : scan_value (2 * String.length s + 1) s <> Fail OutOfFuel.
Proof. apply (proj1 (scan_progress _) s). lia. Qed.

(** ** More fuel gives the same result *)

(** [m'] is [m] unless [m] ran out of fuel. *)
Definition agree {A} (m m' : scan A) : Prop := m <> Fail OutOfFuel -> m' = m.

Lemma agree_refl {A} (m : scan A) : agree m m.
Proof. by intros _. Qed.

Lemma agree_bind {A B} (m m' : scan A) (k k' : A -> string -> scan B) :
  agree m m' -> (forall a r, agree (k a r) (k' a r)) -> agree (sbind m k) (sbind m' k').
Proof.
  intros Hm Hk. destruct m as [a r|e]; simpl.
  - rewrite Hm by discriminate. apply Hk.
  - intros He. rewrite Hm by congruence. done.
Qed.

Lemma agree_smap {A B} (f : A -> B) m m' : agree m m' -> agree (smap f m) (smap f m').
Proof. intros H. apply agree_bind; [done|]. intros. apply agree_refl. Qed.

Lemma scan_mono f : forall f', f <= f' ->
  (forall s, agree (scan_value f s) (scan_value f' s)) /\
  (forall s, agree (scan_elems f s) (scan_elems f' s)) /\
  (forall s, agree (scan_members f s) (scan_members f' s)).
Proof.
  induction f as [|f IH]; intros f' Hf.
  { split; [|split]; intros s H; by destruct H. }
  destruct f' as [|f']; [lia|]. destruct (IH f' ltac:(lia)) as (Hv & He & Hm).
  split; [|split]; intros s; cbn [scan_value scan_elems scan_members];
    repeat match goal with
    | |- agree ?m ?m => apply agree_refl
    | |- agree (smap _ _) (smap _ _) => apply agree_smap
    | |- agree (sbind _ _) (sbind _ _) => apply agree_bind; [try done|intros ? ?]
    | |- agree (if ?b then _ else _) _ => destruct b
    | |- agree (match ?x with _ => _ end) _ => destruct x
    end; auto.
Qed.

(** A scan that does not run out of fuel gives its result with any
    more fuel. *)
Lemma scan_value_more f f' s :
  f <= f' -> scan_value f s <> Fail OutOfFuel -> scan_value f' s = scan_value f s.
Proof. intros Hf. apply (proj1 (scan_mono f f' Hf)). Qed.

(** ** Round trip: [json.loads(json.dumps(v))] is [v] *)

(** One escaped character reads back, checked for the 256 characters. *)
Lemma scan_str_char k c t : t <> "" -> scan_str k (json_char c ++ t) = scons c (scan_str k t).
Proof. destruct t as [|x t]; [done|]. intros _. destruct c as [[] [] [] [] [] [] [] []]; reflexivity. Qed.

Lemma scan_str_json k s rest : scan_str k (str_concat_map json_char s ++ String dquote rest) = Found s rest.
Proof.
  induction s as [|c s IH]; [reflexivity|].
  change (str_concat_map json_char (String c s)) with (json_char c ++ str_concat_map json_char s).
  rewrite string_app_assoc, scan_str_char by (by destruct (str_concat_map json_char s)).
  by rewrite IH.
Qed.

Lemma json_str_app s rest : json_str s ++ rest = String dquote (str_concat_map json_char s ++ String dquote rest).
Proof. unfold json_str. change (String dquote ?x ++ rest) with (String dquote (x ++ rest)). by rewrite string_app_assoc. Qed.

(** Numbers: what follows the text does not change the scan. *)

Lemma stop_char c r :
  stop (String c r) = true ->
  py_isdigit c = false /\ Ascii.eqb c "." = false /\ Ascii.eqb c "e" = false /\ Ascii.eqb c "E" = false
  /\ Ascii.eqb c "+" = false /\ Ascii.eqb c "-" = false.
Proof.
  simpl. intros H. repeat (apply orb_prop in H as [H|H]); apply Ascii.eqb_eq in H as ->; repeat split.
Qed.

Lemma digit_span_ext s ds r rest :
  digit_span s = (ds, r) -> stop rest = true -> digit_span (s ++ rest) = (ds, r ++ rest).
Proof.
  intros E Hs. revert ds r E. induction s as [|c s IH]; intros ds r; simpl.
  - intros [= <- <-]. destruct rest as [|c r]; [done|]. simpl. by rewrite (proj1 (stop_char c r Hs)).
  - destruct (py_isdigit c); [|by intros [= <- <-]].
    destruct (digit_span s) as [ds' r'] eqn:E. intros [= <- <-]. by rewrite (IH ds' r').
Qed.

Lemma frac_span_ext s fp r rest :
  frac_span s = (fp, r) -> stop rest = true -> frac_span (s ++ rest) = (fp, r ++ rest).
Proof.
  intros E Hs. destruct s as [|p [|d s]].
  - injection E as <- <-. destruct rest as [|c r]; [done|].
    destruct (stop_char c r Hs) as (_ & Hp & _). destruct r as [|d r]; simpl; [done|]. by rewrite Hp.
  - injection E as <- <-. destruct rest as [|c r]; [done|]. simpl.
    by rewrite (proj1 (stop_char c r Hs)), andb_false_r.
  - unfold frac_span in E |- *. change (String p (String d s) ++ rest) with (String p (String d (s ++ rest))).
    cbv beta iota in E |- *.
    destruct (Ascii.eqb p "." && py_isdigit d); [|by injection E as <- <-].
    destruct (digit_span s) as [ds r'] eqn:Ed. injection E as <- <-.
    by rewrite (digit_span_ext _ _ _ _ Ed Hs).
Qed.

Lemma exp_span_ext s ep r rest :
  exp_span s = (ep, r) -> stop rest = true -> exp_span (s ++ rest) = (ep, r ++ rest).
Proof.
  intros E Hs. destruct s as [|e s1].
  - injection E as <- <-. destruct rest as [|c r]; [done|].
    destruct (stop_char c r Hs) as (_ & _ & He & HE & _). simpl. by rewrite He, HE.
  - unfold exp_span in E |- *. change (String e s1 ++ rest) with (String e (s1 ++ rest)).
    cbv beta iota in E |- *.
    destruct (Ascii.eqb e "e" || Ascii.eqb e "E"); [|by injection E as <- <-].
    assert (forall sg s2, (match s1 with String c s' => if Ascii.eqb c "+" || Ascii.eqb c "-" then (String c "", s')
                           else ("", s1) | EmptyString => ("", s1) end) = (sg, s2) ->
            (match s1 ++ rest with String c s' => if Ascii.eqb c "+" || Ascii.eqb c "-" then (String c "", s')
                           else ("", s1 ++ rest) | EmptyString => ("", s1 ++ rest) end) = (sg, s2 ++ rest)) as Hsg.
    { intros sg s2. destruct s1 as [|c s'].
      - intros [= <- <-]. destruct rest as [|c r0]; [done|].
        destruct (stop_char c r0 Hs) as (_ & _ & _ & _ & Hplus & Hminus). simpl. by rewrite Hplus, Hminus.
      - simpl. destruct (Ascii.eqb c "+" || Ascii.eqb c "-"); by intros [= <- <-]. }
    destruct (match s1 with String c s' => if Ascii.eqb c "+" || Ascii.eqb c "-" then (String c "", s')
              else ("", s1) | EmptyString => ("", s1) end) as [sg s2] eqn:Esg.
    rewrite (Hsg sg s2 eq_refl).
    destruct (digit_span s2) as [ds r2] eqn:Ed. rewrite (digit_span_ext _ _ _ _ Ed Hs).
    destruct ds; by injection E as <- <-.
Qed.

Lemma split_number_ext s neg ip fp ep r rest :
  split_number s = Some (neg, ip, fp, ep, r) -> stop rest = true ->
  split_number (s ++ rest) = Some (neg, ip, fp, ep, r ++ rest).
Proof.
  intros E Hs. unfold split_number in E |- *.
  destruct s as [|c0 s0]; [discriminate|]. change (String c0 s0 ++ rest) with (String c0 (s0 ++ rest)).
  cbv beta iota in E |- *.
  destruct (Ascii.eqb c0 "-") eqn:Em.
  - destruct s0 as [|c s2]; [discriminate|]. change (String c s2 ++ rest) with (String c (s2 ++ rest)).
    cbv beta iota in E |- *.
    destruct (py_isdigit c); [|discriminate].
    destruct (if Ascii.eqb c "0" then (String c "", s2) else let '(ds, r) := digit_span s2 in (String c ds, r))
      as [ip' s3] eqn:Ei.
    assert ((if Ascii.eqb c "0" then (String c "", s2 ++ rest)
             else let '(ds, r) := digit_span (s2 ++ rest) in (String c ds, r)) = (ip', s3 ++ rest)) as ->.
    { destruct (Ascii.eqb c "0"); [by injection Ei as <- <-|].
      destruct (digit_span s2) as [ds r'] eqn:Ed. injection Ei as <- <-. by rewrite (digit_span_ext _ _ _ _ Ed Hs). }
    destruct (frac_span s3) as [fp' s4] eqn:Ef. rewrite (frac_span_ext _ _ _ _ Ef Hs).
    destruct (exp_span s4) as [ep' s5] eqn:Ee. rewrite (exp_span_ext _ _ _ _ Ee Hs).
    by injection E as <- <- <- <- <-.
  - destruct (py_isdigit c0); [|discriminate].
    destruct (if Ascii.eqb c0 "0" then (String c0 "", s0) else let '(ds, r) := digit_span s0 in (String c0 ds, r))
      as [ip' s3] eqn:Ei.
    assert ((if Ascii.eqb c0 "0" then (String c0 "", s0 ++ rest)
             else let '(ds, r) := digit_span (s0 ++ rest) in (String c0 ds, r)) = (ip', s3 ++ rest)) as ->.
    { destruct (Ascii.eqb c0 "0"); [by injection Ei as <- <-|].
      destruct (digit_span s0) as [ds r'] eqn:Ed. injection Ei as <- <-. by rewrite (digit_span_ext _ _ _ _ Ed Hs). }
    destruct (frac_span s3) as [fp' s4] eqn:Ef. rewrite (frac_span_ext _ _ _ _ Ef Hs).
    destruct (exp_span s4) as [ep' s5] eqn:Ee. rewrite (exp_span_ext _ _ _ _ Ee Hs).
    by injection E as <- <- <- <- <-.
Qed.

Lemma digit_neq a c : py_isdigit a = false -> py_isdigit c = true -> Ascii.eqb a c = false /\ Ascii.eqb c a = false.
Proof. intros Ha Hc. destruct (Ascii.eqb_spec a c) as [->|]; [congruence|]. split; [done|]. by apply Ascii.eqb_neq. Qed.

Lemma digit_span_all t : str_forall py_isdigit t = true -> digit_span t = (t, "").
Proof. induction t as [|c t IH]; simpl; [done|]. intros H. apply andb_prop in H as [-> H]. by rewrite IH. Qed.

Lemma split_number_pretty n :
  split_number (pretty n) = Some (Z.ltb n 0, pretty (Z.abs n), "", "", "").
Proof.
  destruct n as [|p|p]; [reflexivity| |];
    destruct (pretty_pos_lead p) as (c & t & E & Hc & Hv & Ht).
  - change (Z.abs (Zpos p)) with (Zpos p). rewrite E. unfold split_number. cbv beta iota.
    rewrite (proj2 (digit_neq "-" c eq_refl Hc)), Hc.
    rewrite (proj2 (Ascii.eqb_neq c "0")) by (intros ->; done).
    rewrite digit_span_all by done. reflexivity.
  - change (pretty (Zneg p)) with (String "-" (pretty (Zpos p))). change (Z.abs (Zneg p)) with (Zpos p).
    rewrite E. unfold split_number. cbv beta iota.
    replace (Ascii.eqb "-" "-") with true by reflexivity. cbv beta iota. rewrite Hc.
    rewrite (proj2 (Ascii.eqb_neq c "0")) by (intros ->; done).
    rewrite digit_span_all by done. reflexivity.
Qed.

Lemma split_number_first s x :
  split_number s = Some x ->
  exists c s', s = String c s' /\
    (py_isdigit c = true \/ (c = "-"%char /\ exists d s'', s' = String d s'' /\ py_isdigit d = true)).
Proof.
  unfold split_number. destruct s as [|c s']; [discriminate|]. cbv beta iota.
  exists c, s'. split; [done|].
  destruct (Ascii.eqb_spec c "-") as [->|Hm].
  - right. split; [done|]. destruct s' as [|d s'']; [discriminate|]. exists d, s''. split; [done|].
    by destruct (py_isdigit d).
  - left. by destruct (py_isdigit c).
Qed.

(** A number is not one of the named values. *)
Lemma scan_literal_number s x : split_number s = Some x -> scan_literal s = scan_number s.
Proof.
  intros E. destruct (split_number_first s x E) as (c & s' & -> & [Hc | (-> & d & s'' & -> & Hd)]).
  - unfold scan_literal. cbn [after].
    rewrite (proj1 (digit_neq "n" c eq_refl Hc)), (proj1 (digit_neq "t" c eq_refl Hc)),
      (proj1 (digit_neq "f" c eq_refl Hc)), (proj1 (digit_neq "N" c eq_refl Hc)),
      (proj1 (digit_neq "I" c eq_refl Hc)), (proj1 (digit_neq "-" c eq_refl Hc)).
    reflexivity.
  - unfold scan_literal. cbn [after]. rewrite (proj1 (digit_neq "I" d eq_refl Hd)). reflexivity.
Qed.

Lemma digits_of_pretty n : digits_of (pretty (Z.abs n)) = Z.abs n.
Proof. destruct n; [reflexivity| |]; apply pretty_pos_value. Qed.

(** An int in the digit limit reads back from its [str]. *)
Lemma scan_literal_int n rest :
  (String.length (pretty (Z.abs n)) <= INT_MAX_STR_DIGITS)%nat -> stop rest = true ->
  scan_literal (pretty n ++ rest) = Found (JInt n) rest.
Proof.
  intros Hl Hs. pose proof (split_number_ext _ _ _ _ _ _ rest (split_number_pretty n) Hs) as E.
  rewrite (scan_literal_number _ _ E). unfold scan_number. rewrite E. cbn -[Nat.ltb].
  rewrite (proj2 (Nat.ltb_ge _ _) Hl), digits_of_pretty.
  destruct (Z.ltb_spec n 0); [replace (- Z.abs n)%Z with n by lia | replace (Z.abs n) with n by lia]; reflexivity.
Qed.

Lemma float_eqb_eq x y : float_eqb x y = true -> x = y.
Proof.
  destruct x as [a|a| |a m e], y as [b|b| |b m' e']; simpl; try discriminate; try (intros; done).
  1-2: by intros ->%Bool.eqb_prop.
  intros H. apply andb_prop in H as [H He]. apply andb_prop in H as [Ha Hm].
  apply Bool.eqb_prop in Ha as ->. apply Pos.eqb_eq in Hm as ->. by apply Z.eqb_eq in He as ->.
Qed.

(** A float that passes [float_ok] reads back from its [repr]. *)
Lemma scan_literal_float f rest :
  float_ok f = true -> stop rest = true -> scan_literal (float_repr f ++ rest) = Found (JFloat f) rest.
Proof.
  unfold float_ok. intros Hf Hs.
  destruct (split_number (float_repr f)) as [[[[[neg ip] fp] ep] [|x r]]|] eqn:E; try discriminate.
  apply andb_prop in Hf as [Hfe Hg].
  pose proof (split_number_ext _ _ _ _ _ _ rest E Hs) as E'.
  rewrite (scan_literal_number _ _ E'). unfold scan_number. rewrite E'.
  apply negb_true_iff in Hfe. rewrite Hfe.
  destruct (split_number_app _ _ _ _ _ _ E) as [Ht _]. rewrite string_app_nil_r in Ht.
  rewrite <- Ht.
  destruct (of_string (float_repr f)) as [g|]; [|discriminate]. by apply float_eqb_eq in Hg as ->.
Qed.

(** Induction on values with a hypothesis for each item of a list or
    dict. *)
Fixpoint json_ind' (P : json -> Prop)
  (Hnull : P JNull) (Hbool : forall b, P (JBool b)) (Hint : forall n, P (JInt n))
  (Hfloat : forall f, P (JFloat f)) (Hstr : forall s, P (JStr s))
  (Hlist : forall l, Forall P l -> P (JList l))
  (Hdict : forall kvs, Forall (fun kv => P (snd kv)) kvs -> P (JDict kvs)) (v : json) {struct v} : P v :=
  let F := json_ind' P Hnull Hbool Hint Hfloat Hstr Hlist Hdict in
  match v with
  | JNull => Hnull
  | JBool b => Hbool b
  | JInt n => Hint n
  | JFloat f => Hfloat f
  | JStr s => Hstr s
  | JList l =>
      Hlist l ((fix G (l : list json) : Forall P l :=
                  match l return Forall P l with
                  | [] => @List.Forall_nil _ P
                  | x :: l' => @List.Forall_cons _ P x l' (F x) (G l')
                  end) l)
  | JDict kvs =>
      Hdict kvs ((fix G (kvs : list (string * json)) : Forall (fun kv => P (snd kv)) kvs :=
                    match kvs return Forall (fun kv => P (snd kv)) kvs with
                    | [] => @List.Forall_nil _ (fun kv => P (snd kv))
                    | kv :: kvs' => @List.Forall_cons _ (fun kv => P (snd kv)) kv kvs' (F (snd kv)) (G kvs')
                    end) kvs)
  end.

Lemma digit_not_ws c : py_isdigit c = true -> is_ws c = false.
Proof.
  unfold py_isdigit, is_ws, code. intros H. apply andb_prop in H as [H1 H2]. apply Nat.leb_le in H1, H2.
  repeat rewrite (proj2 (Nat.eqb_neq _ _)) by lia. done.
Qed.

Lemma skip_ws_nows c s : is_ws c = false -> skip_ws (String c s) = String c s.
Proof. simpl. by intros ->. Qed.

(** The text of a value starts with a character that is not
    whitespace and not a closing bracket. *)
Lemma encode_first v t :
  wf_json v = true -> encode v = Ok t ->
  exists c t', t = String c t' /\ is_ws c = false /\ Ascii.eqb c "]" = false.
Proof.
  intros Hw. destruct v as [| b | n | f | str | l | kvs]; simpl.
  - intros [= <-]. eauto.
  - destruct b; intros [= <-]; eauto.
  - unfold enc_int. destruct (Nat.ltb _ _); [discriminate|]. intros [= <-].
    destruct (split_number_first _ _ (split_number_pretty n)) as (c & s & -> & [Hc | (-> & _)]); [|eauto].
    exists c, s. split; [done|]. split; [by apply digit_not_ws|]. apply (digit_neq "]" c eq_refl Hc).
  - intros H. assert (t = float_repr f) as -> by (destruct f; unfold enc_float in H; try discriminate; by injection H as <-).
    simpl in Hw. unfold float_ok in Hw.
    destruct (split_number (float_repr f)) as [x|] eqn:E; [|discriminate].
    destruct (split_number_first _ _ E) as (c & s0 & Hr & [Hc | (-> & _)]); rewrite Hr; [|eauto].
    exists c, s0. split; [done|]. split; [by apply digit_not_ws|]. apply (digit_neq "]" c eq_refl Hc).
  - intros [= <-]. unfold json_str. eauto.
  - destruct (res_traverse encode l); simpl; [|discriminate]. intros [= <-]. eauto.
  - destruct (res_traverse _ kvs); simpl; [|discriminate]. intros [= <-]. eauto.
Qed.

(** The text of [v] followed by anything that may follow it scans as
    [v], given fuel for its size. *)
Definition reads_back (v : json) : Prop :=
  forall t rest f, wf_json v = true -> encode v = Ok t -> stop rest = true -> jsize v <= f ->
  scan_value f (t ++ rest) = Found v rest.

(** Evaluates the comparisons of two literal characters in the goal. *)
Ltac eval_eqb :=
  repeat match goal with
  | |- context [Ascii.eqb ?a ?b] =>
      let v := eval vm_compute in (Ascii.eqb a b) in
      lazymatch v with
      | true => change (Ascii.eqb a b) with true
      | false => change (Ascii.eqb a b) with false
      end
  end; cbv beta iota.

Lemma sep_concat_cons2 sep a b l : sep_concat sep (a :: b :: l) = a ++ sep ++ sep_concat sep (b :: l).
Proof. reflexivity. Qed.

Lemma sep_concat_first sep t items c t' :
  t = String c t' -> exists u, sep_concat sep (t :: items) = String c u.
Proof. intros ->. destruct items; simpl; eauto. Qed.

Lemma elems_reads_back l items rest f :
  Forall reads_back l -> forallb wf_json l = true -> Forall2 (fun x s => encode x = Ok s) l items -> l <> [] ->
  list_sum (map (fun x => S (jsize x)) l) <= f ->
  scan_elems f (sep_concat ", " items ++ "]" ++ rest) = Found l rest.
Proof.
  intros Hrt Hwf H2. revert f Hrt Hwf. induction H2 as [|x t l items Hx H2 IH]; intros f Hrt Hwf Hne Hf; [done|].
  apply Forall_cons_iff in Hrt as [Hrx Hrl]. simpl in Hwf. apply andb_prop in Hwf as [Hwx Hwl].
  destruct f as [|f]; [simpl in Hf; lia|]. simpl in Hf. cbn [scan_elems].
  destruct H2 as [|y t' l' items' Hy H2'].
  - change (sep_concat ", " [t]) with t.
    rewrite (Hrx t ("]" ++ rest) f) by (done || lia). reflexivity.
  - rewrite sep_concat_cons2, !string_app_assoc.
    rewrite (Hrx t _ f) by (done || lia). cbn [sbind].
    destruct (encode_first y t') as (c & u & Et & Hc & Hb); [by apply andb_prop in Hwl as [? _]|done|].
    destruct (sep_concat_first ", " t' items' c u Et) as [u' Eu]. rewrite Eu.
    change (skip_ws (", " ++ ?x)) with (String "," (" " ++ x)). cbn [after]. eval_eqb.
    change (skip_ws (" " ++ ?x)) with (skip_ws x). rewrite string_app_cons, skip_ws_nows by done.
    rewrite <- string_app_cons, <- Eu.
    rewrite (IH f) by (done || (simpl in *; lia)). reflexivity.
Qed.

Lemma members_reads_back kvs items rest f :
  Forall (fun kv => reads_back (snd kv)) kvs -> forallb (fun kv => wf_json (snd kv)) kvs = true ->
  Forall2 (fun kv s => (a <- encode (snd kv) ;; Ok (json_str (fst kv) ++ ": " ++ a)) = Ok s) kvs items ->
  kvs <> [] -> list_sum (map (fun kv => S (jsize (snd kv))) kvs) <= f ->
  scan_members f (sep_concat ", " items ++ "}" ++ rest) = Found kvs rest.
Proof.
  intros Hrt Hwf H2. revert f Hrt Hwf.
  induction H2 as [|[k x] t kvs items Hx H2 IH]; intros f Hrt Hwf Hne Hf; [done|].
  apply Forall_cons_iff in Hrt as [Hrx Hrl]. simpl in Hwf, Hrx, Hx. apply andb_prop in Hwf as [Hwx Hwl].
  apply res_bind_eq_Ok in Hx as (a & Ha & [= <-]).
  destruct f as [|f]; [simpl in Hf; lia|]. simpl in Hf.
  destruct (encode_first x a Hwx Ha) as (c & u & Ea & Hc & _).
  destruct H2 as [|[k' y] t' kvs' items' Hy H2'].
  - change (sep_concat ", " [?t]) with t. rewrite !string_app_assoc, json_str_app. cbn [scan_members].
    eval_eqb. rewrite scan_str_json. cbn [sbind].
    change (skip_ws (": " ++ ?x)) with (String ":" (" " ++ x)). cbn [after]. eval_eqb.
    change (skip_ws (" " ++ ?x)) with (skip_ws x).
    rewrite Ea, string_app_cons, skip_ws_nows, <- string_app_cons, <- Ea by done.
    rewrite (Hrx a ("}" ++ rest) f) by (done || lia). reflexivity.
  - rewrite sep_concat_cons2, !string_app_assoc, json_str_app. cbn [scan_members].
    eval_eqb. rewrite scan_str_json. cbn [sbind].
    change (skip_ws (": " ++ ?x)) with (String ":" (" " ++ x)). cbn [after]. eval_eqb.
    change (skip_ws (" " ++ ?x)) with (skip_ws x).
    rewrite Ea, string_app_cons, skip_ws_nows, <- string_app_cons, <- Ea by done.
    rewrite (Hrx a _ f) by (done || lia). cbn [sbind].
    change (skip_ws (", " ++ ?x)) with (String "," (" " ++ x)). cbn [after]. eval_eqb.
    change (skip_ws (" " ++ ?x)) with (skip_ws x).
    apply res_bind_eq_Ok in Hy as (b & Hb & [= <-]).
    simpl fst in IH |- *.
    destruct (sep_concat_first ", " (json_str k' ++ ": " ++ b) items' dquote
                (str_concat_map json_char k' ++ String dquote (": " ++ b))) as [u' Eu].
    { by rewrite json_str_app. }
    rewrite Eu, string_app_cons, skip_ws_nows, <- string_app_cons, <- Eu by done.
    rewrite (IH f) by (done || (simpl in *; lia)). reflexivity.
Qed.

(** [jset] on a key not yet in the dict appends it. *)
Lemma jset_new kvs k v : existsb (String.eqb k) (map fst kvs) = false -> jset kvs k v = (kvs ++ [(k, v)])%list.
Proof.
  induction kvs as [|[k' v'] kvs IH]; simpl; [done|].
  destruct (String.eqb k k'); [discriminate|]. simpl. intros H. by rewrite IH.
Qed.

Lemma build_dict_distinct kvs acc :
  keys_distinct kvs = true -> Forall (fun kv => existsb (String.eqb (fst kv)) (map fst acc) = false) kvs ->
  fold_left (fun d kv => jset d (fst kv) (snd kv)) kvs acc = (acc ++ kvs)%list.
Proof.
  revert acc. induction kvs as [|[k v] kvs IH]; intros acc Hd Hn; simpl; [by rewrite app_nil_r|].
  apply andb_prop in Hd as [Hk Hd]. apply Forall_cons_iff in Hn as [Hn Hns]. simpl in Hn.
  rewrite jset_new by done. rewrite IH; [by rewrite <- app_assoc|done|].
  apply Forall_forall. intros [k' v'] Hin. simpl.
  pose proof (proj1 (Forall_forall _ _) Hns _ Hin) as Hk'. simpl in Hk'.
  rewrite map_app, existsb_app, Hk'. simpl.
  destruct (String.eqb_spec k' k) as [->|]; [|done].
  apply negb_true_iff in Hk. rewrite <- Hk. symmetry. apply existsb_exists. exists k. split.
  - apply in_map_iff. exists (k, v'). split; [done|]. by apply list_elem_of_In.
  - apply String.eqb_refl.
Qed.

(** A value that does not start with a quote or a bracket is a named
    value or a number. *)
Lemma scan_value_literal f c s :
  Ascii.eqb c dquote = false -> Ascii.eqb c "[" = false -> Ascii.eqb c "{" = false ->
  scan_value (S f) (String c s) = scan_literal (String c s).
Proof. intros H1 H2 H3. cbn [scan_value]. by rewrite H1, H2, H3. Qed.

Lemma number_value f n rest :
  (exists c s, n = String c s /\ (py_isdigit c = true \/ c = "-"%char)) ->
  scan_value (S f) (n ++ rest) = scan_literal (n ++ rest).
Proof.
  intros (c & s & -> & Hc). rewrite string_app_cons.
  apply scan_value_literal; destruct Hc as [Hc | ->]; try reflexivity;
    match goal with |- Ascii.eqb c ?a = false => exact (proj2 (digit_neq a c eq_refl Hc)) end.
Qed.

Lemma number_first s x :
  split_number s = Some x -> exists c s', s = String c s' /\ (py_isdigit c = true \/ c = "-"%char).
Proof. intros E. destruct (split_number_first s x E) as (c & s' & -> & [H | [-> _]]); eauto. Qed.

Lemma encode_reads_back v : reads_back v.
Proof.
  induction v as [| b | n | x | str | l IH | kvs IH] using json_ind'; intros t rest f Hw He Hs Hf;
    (destruct f as [|f]; [simpl in Hf; lia|]).
  - injection He as <-. reflexivity.
  - destruct b; injection He as <-; reflexivity.
  - simpl in He. unfold enc_int in He. destruct (Nat.ltb _ _); [discriminate|]. injection He as <-.
    rewrite number_value by (apply (number_first _ _ (split_number_pretty n))).
    apply scan_literal_int; [by apply Nat.leb_le|done].
  - simpl in Hw. assert (t = float_repr x) as ->.
    { destruct x; simpl in He; unfold enc_float in He; try discriminate; by injection He as <-. }
    pose proof Hw as Hok. unfold float_ok in Hw. destruct (split_number (float_repr x)) as [y|] eqn:E; [|discriminate].
    rewrite number_value by (apply (number_first _ _ E)). by apply scan_literal_float.
  - injection He as <-. rewrite json_str_app. cbn [scan_value]. eval_eqb. by rewrite scan_str_json.
  - simpl in He, Hw, Hf. apply res_bind_eq_Ok in He as (items & Hi & [= <-]).
    apply res_traverse_Ok in Hi. rewrite !string_app_assoc, string_app_cons. cbn [scan_value]. eval_eqb.
    change ("" ++ ?y) with y.
    destruct l as [|x l'].
    + inversion Hi; subst. reflexivity.
    + destruct items as [|t' items]; [inversion Hi|].
      destruct (encode_first x t') as (c & u & Et & Hc & Hb); [by apply andb_prop in Hw as [? _]|by inversion Hi|].
      destruct (sep_concat_first ", " t' items c u Et) as [u' Eu].
      rewrite Eu, string_app_cons, skip_ws_nows by done. cbn [after]. rewrite Ascii.eqb_sym, Hb.
      rewrite <- string_app_cons, <- Eu. rewrite (elems_reads_back (x :: l')) by (done || lia). reflexivity.
  - simpl in He, Hw, Hf. apply andb_prop in Hw as [Hw Hd]. apply res_bind_eq_Ok in He as (items & Hi & [= <-]).
    apply res_traverse_Ok in Hi. rewrite !string_app_assoc, string_app_cons. cbn [scan_value]. eval_eqb.
    change ("" ++ ?y) with y.
    destruct kvs as [|[k x] kvs'].
    + inversion Hi; subst. reflexivity.
    + destruct items as [|t' items]; [inversion Hi|].
      inversion Hi as [|? ? ? ? Hx _]; subst. simpl in Hx. apply res_bind_eq_Ok in Hx as (a & _ & [= <-]).
      destruct (sep_concat_first ", " (json_str k ++ ": " ++ a) items dquote
                  (str_concat_map json_char k ++ String dquote (": " ++ a))) as [u' Eu].
      { by rewrite json_str_app. }
      rewrite Eu, string_app_cons, skip_ws_nows by done. cbn [after]. eval_eqb.
      rewrite <- string_app_cons, <- Eu. rewrite (members_reads_back ((k, x) :: kvs')) by (done || lia). cbn [smap sbind].
      unfold build_dict. rewrite build_dict_distinct by (done || by apply Forall_forall). reflexivity.
Qed.

(** The scan of [decode] reads the text of a well-formed value whole. *)
Lemma decode_encode v t : wf_json v = true -> encode v = Ok t -> decode t = Found v "".
Proof.
  intros Hw He. unfold decode.
  destruct (encode_first v t Hw He) as (c & u & -> & Hc & _). rewrite skip_ws_nows by done.
  pose proof (encode_reads_back v (String c u) "" (jsize v) Hw He eq_refl (Nat.le_refl _)) as R.
  rewrite string_app_nil_r in R.
  set (L := 2 * String.length (String c u) + 1).
  rewrite <- (scan_value_more L (Nat.max L (jsize v))) by (lia || apply scan_value_enough).
  rewrite (scan_value_more (jsize v) (Nat.max L (jsize v))), R by (lia || congruence).
  reflexivity.
Qed.

(** An int [encode] writes is within the digit limit. *)
Lemma enc_int_Ok n t : enc_int n = Ok t -> Nat.leb (String.length (pretty (Z.abs n))) INT_MAX_STR_DIGITS = true.
Proof. unfold enc_int. destruct (Nat.ltb_spec INT_MAX_STR_DIGITS (String.length (pretty (Z.abs n)))); [discriminate|]. intros _. by apply Nat.leb_le. Qed.

(** Each value of a dict [encode] writes was written. *)
Lemma encode_dict_Ok kvs t : encode (JDict kvs) = Ok t -> Forall (fun kv => exists a, encode (snd kv) = Ok a) kvs.
Proof.
  cbn [encode]. intros (items & Hi & _)%res_bind_eq_Ok. apply res_traverse_Ok in Hi.
  induction Hi as [|kv b kvs' bs Hb _ IH]; constructor; [|done].
  apply res_bind_eq_Ok in Hb as (a & Ha & _). eauto.
Qed.

Lemma keys_distinct_NoDup kvs : keys_distinct kvs = true <-> NoDup (map fst kvs).
Proof.
  induction kvs as [|[k v] kvs IH]; simpl; [split; [constructor|done]|].
  rewrite andb_true_iff, negb_true_iff, NoDup_cons, IH, <- not_true_iff_false, existsb_exists.
  split; intros [Hk Hd]; split; try done.
  - intros Hin. apply Hk. exists k. split; [by apply list_elem_of_In | apply String.eqb_refl].
  - intros (k' & Hin & ->%String.eqb_eq). by apply Hk, list_elem_of_In.
Qed.

(** A payload dict [encode] accepts is well formed when its keys are
    distinct and its floats read back. *)
Lemma dict_json_wf d t :
  NoDup (Dict.keys d) -> forallb (fun kv => pyval_ok (snd kv)) d = true ->
  encode (dict_json d) = Ok t -> wf_json (dict_json d) = true.
Proof.
  intros Hn Hf He%encode_dict_Ok. unfold dict_json in *. cbn [wf_json]. apply andb_true_iff. split.
  - apply forallb_forall. intros kv' (kv & <- & Hin)%in_map_iff. cbn [snd].
    rewrite forallb_forall in Hf. specialize (Hf kv Hin).
    rewrite List.Forall_forall in He. destruct (He (fst kv, pyval_json (snd kv))) as [a Ha]; [apply in_map_iff; eauto|].
    destruct (snd kv); simpl in *; eauto using enc_int_Ok.
  - apply keys_distinct_NoDup. by rewrite map_map.
Qed.

(** A text whose first character starts no JSON value, an HTML page
    for instance, is refused at its first character. *)
Lemma decode_no_value c s :
  is_ws c = false -> value_start c = false ->
  decode (String c s) = Fail (DecodeError "Expecting value" (String.length (String c s))).
Proof.
  intros Hw Hv. unfold value_start in Hv. repeat (apply orb_false_iff in Hv as [Hv ?]).
  unfold decode. rewrite skip_ws_nows by done.
  replace (2 * String.length (String c s) + 1) with (S (2 * String.length (String c s))) by lia.
  rewrite scan_value_literal by done. unfold scan_literal. cbn [after].
  rewrite !(Ascii.eqb_sym _ c).
  repeat match goal with H : Ascii.eqb c _ = false |- _ => rewrite H end.
  unfold scan_number, split_number.
  repeat match goal with H : Ascii.eqb c _ = false |- _ => rewrite H end. cbv beta iota.
  match goal with H : py_isdigit c = false |- _ => by rewrite H end.
Qed.

Lemma loads_no_value c s :
  is_ws c = false -> value_start c = false ->
  loads (String c s) = Raise (JSONDecodeError "Expecting value: line 1 column 1 (char 0)").
Proof. intros Hw Hv. unfold loads. rewrite decode_no_value by done. by rewrite Nat.sub_diag. Qed.

(** A repeated key keeps its first position and takes its last value:
    [{"a": 1, "b": 0, "a": 2}] reads as [{"a": 2, "b": 0}]. *)
Example loads_repeated_key :
  loads ("{" ++ json_str "a" ++ ": 1, " ++ json_str "b" ++ ": 0, " ++ json_str "a" ++ ": 2}") =
    Ok (JDict [("a", JInt 2); ("b", JInt 0)]).
Proof. vm_compute. reflexivity. Qed.

End JsonText.
