(* ===== verification/Argparse.v ===== *)
(** * The command line: [parser.parse_args()] of line 222

    Lines 192-220 of src/venice_image_gen.py declare the parser's
    arguments; line 222 calls [parser.parse_args()], which runs the
    algorithm of CPython 3.11's argparse ([ArgumentParser.parse_known_args],
    [_parse_known_args], [_parse_optional], [_get_option_tuples],
    [_get_values], [_get_value], [_check_value], [parse_args]) on
    [sys.argv[1:]]. This file models that algorithm for the parser the
    program builds:
    - [parser_optionals]: the optionals in the order they are added
      ([-h]/[--help] first), with their option strings, destination,
      action ([store_true], [store] with a type and choices, [help]) and
      default; the positional [prompt] ([nargs='?']) is [take_prompt];
    - [classify]: the pattern of the command line, one [pat] per
      argument ('O' with its option tuple, 'A', '-' for the first [--]);
      [parse_optional] is [_parse_optional] with abbreviations,
      [--opt=value], negative numbers and the ambiguity error;
    - [loop] and [finish]: the [while start_index <= max_option_string_index]
      loop of [_parse_known_args] and the positionals after it;
    - [parse_args]: the defaults, the loop and the check for unrecognized
      arguments. An [ArgumentError] and [parser.error] are
      [Raise (ParserError msg)] (the message [parser.error] prints);
      the help action is [Raise (SystemExit 0)].
    [cmdline_of] turns the result into the [cmdline] that [Cli.main]
    takes. *)

From S2P Require Import Prelude.
From S2P Require Import PyFloat.
From S2P Require Import Payload.
From S2P Require Import PyRepr.
From S2P Require Import Json.
From Stdlib Require Import ZArith String Ascii Lia.

Open Scope string_scope.
Open Scope py_scope.

Module Argparse.
Import F64 FloatParse Repr PyJson GenParams.

(** ** [int(s)] and [float(s)] of an argument string *)


(** [int(s)]: surrounding whitespace, a sign, then a [digitpart]
    (digits with single underscores between them); [None] is the
    [ValueError]. *)
Definition int_of_string (s : string) : option Z :=
  let '(neg, u) := take_sign (strip s) in
  match digitpart u with
  | Some (ds, EmptyString) =>
      if Nat.ltb INT_MAX_STR_DIGITS (List.length ds) then None
      else Some (if neg then (- digits_value ds)%Z else digits_value ds)
  | _ => None
  end.

(** ** The parser's arguments (lines 192-220) *)

Inductive conv : Type := ToStr | ToInt | ToFloat.

Inductive kind : Type :=
| StoreTrue
| Store (ty : conv) (choices : option (list string))
| HelpAction.

(** The values a [Namespace] attribute takes. [VEmpty] is the empty
    list [_get_values] returns when the only argument of an option was
    [--] and has been removed. *)
Inductive value : Type :=
| VNone
| VBool (b : bool)
| VStr (s : string)
| VInt (n : Z)
| VFloat (f : float)
| VEmpty.

Record action : Type := mkAction {
  act_strings : list string;
  act_dest : string;
  act_kind : kind;
  act_default : value
}.

(** [ArgumentParser(...)] adds [-h]/[--help] first. *)
Definition help_action : action := mkAction ["-h"; "--help"] "help" HelpAction VNone.

(** Lines 192-195. *)
Definition list_models_action : action := mkAction ["--list-models"] "list_models" StoreTrue (VBool false).
Definition verbose_action : action := mkAction ["--verbose"] "verbose" StoreTrue (VBool false).

(** Lines 199-201; [prompt] (line 198) is the positional of [take_prompt]. *)
Definition model_action : action := mkAction ["--model"] "model" (Store ToStr None) (VStr "venice-sd35").
Definition negative_prompt_action : action :=
  mkAction ["--negative-prompt"] "negative_prompt" (Store ToStr None) VNone.

(** Lines 204-207. *)
Definition width_action : action := mkAction ["--width"] "width" (Store ToInt None) VNone.
Definition height_action : action := mkAction ["--height"] "height" (Store ToInt None) VNone.
Definition aspect_ratio_action : action :=
  mkAction ["--ar"; "--aspect-ratio"] "aspect_ratio" (Store ToStr None) VNone.

(** Lines 211-214. *)
Definition steps_action : action := mkAction ["--steps"] "steps" (Store ToInt None) VNone.
Definition cfg_scale_action : action := mkAction ["--cfg-scale"] "cfg_scale" (Store ToFloat None) VNone.
Definition seed_action : action := mkAction ["--seed"] "seed" (Store ToInt None) VNone.
Definition style_preset_action : action := mkAction ["--style-preset"] "style_preset" (Store ToStr None) VNone.

(** Lines 217-220. *)
Definition FORMATS : list string := ["jpeg"; "png"; "webp"].
Definition format_action : action := mkAction ["--format"] "format" (Store ToStr (Some FORMATS)) (VStr "jpeg").
Definition output_action : action := mkAction ["--output"] "output" (Store ToStr None) VNone.
Definition safe_mode_action : action := mkAction ["--safe-mode"] "safe_mode" StoreTrue (VBool false).

(** [parser._actions] but the positional, in the order they were added. *)
Definition parser_optionals : list action :=
  [help_action; list_models_action; verbose_action; model_action; negative_prompt_action;
   width_action; height_action; aspect_ratio_action; steps_action; cfg_scale_action; seed_action;
   style_preset_action; format_action; output_action; safe_mode_action].

(** [parser._option_string_actions], in insertion order. *)
Definition option_string_actions : list (string * action) :=
  flat_map (fun a => map (fun s => (s, a)) (act_strings a)) parser_optionals.

Definition find_option (s : string) : option action :=
  option_map snd (List.find (fun p => String.eqb (fst p) s) option_string_actions).

(** ** The pattern of the command line *)

Inductive opt_tuple : Type :=
| Known (a : action) (option_string : string) (explicit_arg : option string)
| Unknown.

Inductive pat : Type := PO (t : opt_tuple) | PA | PDash.

(** [s.split(c, 1)] when [s] contains [c]. *)
Fixpoint split_at (c : ascii) (s : string) : option (string * string) :=
  match s with
  | EmptyString => None
  | String d s' =>
      if Ascii.eqb d c then Some ("", s')
      else option_map (fun p => (String d (fst p), snd p)) (split_at c s')
  end.

Definition split_eq : string -> option (string * string) := split_at "=".

Definition tuple_string (t : opt_tuple) : string :=
  match t with Known _ os _ => os | Unknown => "" end.

(** [_get_option_tuples(s)] for [s] of length two or more starting with
    ['-']: the option strings [s] abbreviates. *)
Definition get_option_tuples (s : string) : list opt_tuple :=
  match s with
  | String c0 (String c1 tail) =>
      if Ascii.eqb c1 "-" then
        let '(pre, ex) := match split_eq s with Some (o, e) => (o, Some e) | None => (s, None) end in
        map (fun p => Known (snd p) (fst p) ex)
          (List.filter (fun p => String.prefix pre (fst p)) option_string_actions)
      else
        let short := String c0 (String c1 "") in
        flat_map (fun p => if String.eqb (fst p) short then [Known (snd p) (fst p) (Some tail)]
                           else if String.prefix s (fst p) then [Known (snd p) (fst p) None]
                           else []) option_string_actions
  | _ => []
  end.

Fixpoint all_digits (s : string) : bool :=
  match s with
  | EmptyString => true
  | String c s' => py_isdigit c && all_digits s'
  end.

(** [^-\d+$|^-\d*\.\d+$]; [$] also matches before a final newline. *)
Definition negative_number (s : string) : bool :=
  match s with
  | String c t =>
      Ascii.eqb c "-" &&
      let n := String.length t in
      let t := if String.eqb (substring (n - 1) 1 t) (String (ascii_of_nat 10) "")
               then substring 0 (n - 1) t else t in
      let digits_dot_digits :=
        match split_at "." t with
        | Some (ip, fp) => all_digits ip && all_digits fp && negb (String.eqb fp "")
        | None => false
        end in
      ((all_digits t && negb (String.eqb t "")) || digits_dot_digits)
  | EmptyString => false
  end.

(** [_parse_optional(s)]: [None] for an argument, [Some t] for an
    option string; an ambiguous abbreviation is [parser.error]. *)
Definition parse_optional (s : string) : res (option opt_tuple) :=
  match s with
  | EmptyString => Ok None
  | String c rest =>
      if negb (Ascii.eqb c "-") then Ok None else
      match find_option s with
      | Some a => Ok (Some (Known a s None))
      | None =>
          if String.eqb rest "" then Ok None else
          let by_eq := match split_eq s with
                       | Some (o, e) => option_map (fun a => Known a o (Some e)) (find_option o)
                       | None => None
                       end in
          match by_eq with
          | Some t => Ok (Some t)
          | None =>
              match get_option_tuples s with
              | [] => if negative_number s || str_contains " " s then Ok None else Ok (Some Unknown)
              | [t] => Ok (Some t)
              | ts => Raise (ParserError ("ambiguous option: " ++ s ++ " could match "
                                          ++ sep_concat ", " (map tuple_string ts)))
              end
          end
      end
  end.

Definition pat_of (t : option opt_tuple) : pat :=
  match t with Some t => PO t | None => PA end.

(** The loop of [_parse_known_args] that builds [arg_strings_pattern]. *)
Fixpoint classify (args : list string) : res (list pat) :=
  match args with
  | [] => Ok []
  | s :: rest =>
      if String.eqb s "--" then Ok (PDash :: map (fun _ => PA) rest)
      else
        t <- parse_optional s ;;
        ps <- classify rest ;;
        Ok (pat_of t :: ps)
  end.

(** ** Converting and storing values *)

Definition namespace := list (string * value).

Fixpoint ns_get (ns : namespace) (k : string) : option value :=
  match ns with
  | [] => None
  | (k', v) :: ns' => if String.eqb k k' then Some v else ns_get ns' k
  end.

(** [setattr(namespace, k, v)]. *)
Fixpoint ns_set (ns : namespace) (k : string) (v : value) : namespace :=
  match ns with
  | [] => [(k, v)]
  | (k', v') :: ns' => if String.eqb k k' then (k, v) :: ns' else (k', v') :: ns_set ns' k v
  end.

(** [ArgumentError(action, msg)] as [parser.error] prints it. *)
Definition arg_error {A} (a : action) (msg : string) : res A :=
  Raise (ParserError ("argument " ++ sep_concat "/" (act_strings a) ++ ": " ++ msg)).

Definition conv_name (ty : conv) : string :=
  match ty with ToStr => "str" | ToInt => "int" | ToFloat => "float" end.

(** [_get_value]: the type conversion. *)
Definition get_value (a : action) (ty : conv) (s : string) : res value :=
  let invalid := arg_error a ("invalid " ++ conv_name ty ++ " value: " ++ str_repr s) in
  match ty with
  | ToStr => Ok (VStr s)
  | ToInt => match int_of_string s with Some n => Ok (VInt n) | None => invalid end
  | ToFloat => match of_string s with Some f => Ok (VFloat f) | None => invalid end
  end.

(** [_check_value]: a converted string must be one of the choices. *)
Definition check_value (a : action) (choices : option (list string)) (v : value) : res unit :=
  match choices, v with
  | Some cs, VStr s =>
      if existsb (String.eqb s) cs then Ok tt
      else arg_error a ("invalid choice: " ++ str_repr s ++ " (choose from "
                        ++ sep_concat ", " (map str_repr cs) ++ ")")
  | _, _ => Ok tt
  end.

(** [arg_strings.remove('--')]: the first [--] goes. *)
Fixpoint remove_dashdash (l : list string) : list string :=
  match l with
  | [] => []
  | s :: l' => if String.eqb s "--" then l' else s :: remove_dashdash l'
  end.

(** [take_action] of an optional: [_get_values], then the action's
    [__call__]. A [store] action gets exactly one string; without it
    (it was [--]) the value is the empty list, and no choice is checked. *)
Definition take_optional (a : action) (args : list string) (ns : namespace) : res namespace :=
  match act_kind a with
  | HelpAction => Raise (SystemExit 0)
  | StoreTrue => Ok (ns_set ns (act_dest a) (VBool true))
  | Store ty choices =>
      match remove_dashdash args with
      | [s] => v <- get_value a ty s ;; _ <- check_value a choices v ;; Ok (ns_set ns (act_dest a) v)
      | _ => Ok (ns_set ns (act_dest a) VEmpty)
      end
  end.

(** [take_action] of the positional [prompt] ([nargs='?'], no type):
    no string left gives its default [None]. *)
Definition take_prompt (args : list string) (ns : namespace) : namespace :=
  match remove_dashdash args with
  | [s] => ns_set ns "prompt" (VStr s)
  | _ => ns_set ns "prompt" VNone
  end.

Fixpoint take_all (tuples : list (action * list string)) (ns : namespace) : res namespace :=
  match tuples with
  | [] => Ok ns
  | (a, args) :: tuples' => ns' <- take_optional a args ns ;; take_all tuples' ns'
  end.

(** ** The loop of [_parse_known_args] *)

(** [nargs=0]: [store_true] and [help]. *)
Definition nargs_zero (a : action) : bool :=
  match act_kind a with Store _ _ => false | _ => true end.

(** [option_string[1] not in prefix_chars]. *)
Definition single_dash (os : string) : bool :=
  match os with String _ (String c _) => negb (Ascii.eqb c "-") | _ => true end.

(** [match_argument(action, arg_strings_pattern[start:])] for an option
    string followed by [rest]: the pattern [()] of a [nargs=0] action
    takes nothing, the pattern [(A)] of [store] takes one argument. *)
Definition match_following (a : action) (rest : list (string * pat)) : res (list string) :=
  if nargs_zero a then Ok []
  else match rest with
       | (s, PA) :: _ => Ok [s]
       | _ => arg_error a "expected one argument"
       end.

(** Whether the option string took the argument after it. *)
Definition took (args : list string) : bool := match args with [] => false | _ => true end.

(** The [while True] loop of [consume_optional] for an option string
    with an explicit argument [e]: the action tuples, and whether the
    argument after the option string was taken. A single-dash [nargs=0]
    option reads its explicit argument as more single-dash options
    ([-hh] is [-h -h]). *)
Fixpoint explicit_tuples (a : action) (os e : string) (rest : list (string * pat))
  : res (list (action * list string) * bool) :=
  let ignored := arg_error a ("ignored explicit argument " ++ str_repr e) in
  if nargs_zero a then
    if single_dash os && negb (String.eqb e "") then
      match e with
      | String c e' =>
          let os' := String "-" (String c "") in
          match find_option os' with
          | Some a' =>
              r <- (if String.eqb e' "" then
                      args <- match_following a' rest ;; Ok ([(a', args)], took args)
                    else explicit_tuples a' os' e' rest) ;;
              Ok ((a, []) :: fst r, snd r)
          | None => ignored
          end
      | EmptyString => ignored
      end
    else ignored
  else Ok ([(a, [e])], false).

Definition is_option (p : string * pat) : bool :=
  match snd p with PO _ => true | _ => false end.

Fixpoint dashes (ps : list (string * pat)) : nat :=
  match ps with (_, PDash) :: ps' => S (dashes ps') | _ => O end.

(** The length of the match of [prompt]'s pattern [-*A?-*] ([nargs='?']). *)
Definition positional_count (ps : list (string * pat)) : nat :=
  let d := dashes ps in
  match skipn d ps with
  | (_, PA) :: ps' => d + 1 + dashes ps'
  | _ => d
  end.

(** After the loop: [consume_positionals(start_index)], then the rest
    are extras. *)
Definition finish (ps : list (string * pat)) (pos_left : bool) (ns : namespace)
    (extras : list string) : namespace * list string :=
  let strs := map fst ps in
  if pos_left then
    let k := positional_count ps in
    (take_prompt (firstn k strs) ns, (extras ++ skipn k strs)%list)
  else (ns, (extras ++ strs)%list).

(** [while start_index <= max_option_string_index] on the arguments
    from [start_index] on. Before an option string the next pattern
    character is an 'A' (a '-' is never followed by an 'O'), and
    [consume_positionals] gives [prompt] exactly that argument when it
    is still to be parsed ([positional_count_before_option]); otherwise
    the argument is an extra. *)
Fixpoint loop (ps : list (string * pat)) (pos_left : bool) (ns : namespace)
    (extras : list string) {struct ps} : res (namespace * list string) :=
  if negb (existsb is_option ps) then Ok (finish ps pos_left ns extras) else
  match ps with
  | (s, PA) :: rest =>
      if pos_left then loop rest false (take_prompt [s] ns) extras
      else loop rest false ns (extras ++ [s])%list
  | (s, PO Unknown) :: rest => loop rest pos_left ns (extras ++ [s])%list
  | (s, PO (Known a os ex)) :: rest =>
      r <- match ex with
           | Some e => explicit_tuples a os e rest
           | None => args <- match_following a rest ;; Ok ([(a, args)], took args)
           end ;;
      ns' <- take_all (fst r) ns ;;
      loop (if snd r then match rest with [] => rest | _ :: rest' => rest' end else rest)
           pos_left ns' extras
  | _ => Ok (finish ps pos_left ns extras)
  end.

(** The defaults [parse_known_args] sets first, in the order of
    [parser._actions] ([help]'s default is [SUPPRESS]). The string
    defaults of [--model] and [--format] are converted again at the end
    of [_parse_known_args] when unseen; with no [type] that changes
    nothing. *)
Definition initial_namespace : namespace :=
  (map (fun a => (act_dest a, act_default a)) (firstn 2 (List.tl parser_optionals))
  ++ ("prompt", VNone) :: map (fun a => (act_dest a, act_default a)) (skipn 3 parser_optionals))%list.

Definition parse_known_args (args : list string) : res (namespace * list string) :=
  ps <- classify args ;;
  loop (combine args ps) true initial_namespace [].

(** [parser.parse_args()]. *)
Definition parse_args (args : list string) : res namespace :=
  r <- parse_known_args args ;;
  match snd r with
  | [] => Ok (fst r)
  | extras => Raise (ParserError ("unrecognized arguments: " ++ sep_concat " " extras))
  end.

(** ** The namespace as [GenParams.Args] *)

Definition as_bool (v : value) : bool := match v with VBool b => b | _ => false end.
Definition as_str (v : value) : option string := match v with VStr s => Some s | _ => None end.
Definition as_int (v : value) : option Z := match v with VInt n => Some n | _ => None end.
Definition as_float (v : value) : option float := match v with VFloat f => Some f | _ => None end.

(** [args.x] for the names of [Args]. The optional values are only
    tested for truthiness by [main] (lines 233-267 and [save_image]'s
    [if output_path]), where the empty list is false like [None]; [model]
    and [format] are used as they are, so a namespace where they hold
    the empty list has no [Args]. *)
Definition args_of (get : string -> value) : option Args :=
  match get "model", get "format" with
  | VStr m, VStr f =>
      Some (mkArgs (as_bool (get "list_models")) (as_bool (get "verbose")) (as_str (get "prompt")) m
              (as_str (get "negative_prompt")) (as_int (get "width")) (as_int (get "height"))
              (as_str (get "aspect_ratio")) (as_int (get "steps")) (as_float (get "cfg_scale"))
              (as_int (get "seed")) (as_str (get "style_preset")) f (as_str (get "output"))
              (as_bool (get "safe_mode")))
  | _, _ => None
  end.

Definition to_args (ns : namespace) : option Args := args_of (fun k => default VNone (ns_get ns k)).

(** What [parser.parse_args()] does with the command line. *)
Inductive cmdline : Type :=
| Parsed (args : Args)
| Rejected (msg : string)
| HelpAsked.

Definition cmdline_of (argv : list string) : option cmdline :=
  match parse_args argv with
  | Ok ns => option_map Parsed (to_args ns)
  | Raise (ParserError msg) => Some (Rejected msg)
  | Raise (SystemExit _) => Some HelpAsked
  | Raise _ => None
  end.


(** ** The type of a namespace *)

(** The values the destination of an action of kind [k] and default
    [d] may hold: [None] if that is the default, a converted value that
    passed the choices, or the empty list. *)
Definition fits (k : kind) (d : value) (v : value) : bool :=
  match k, v with
  | StoreTrue, VBool _ => true
  | Store _ _, VEmpty => true
  | Store _ _, VNone => match d with VNone => true | _ => false end
  | Store ToStr None, VStr _ => true
  | Store ToStr (Some cs), VStr s => existsb (String.eqb s) cs
  | Store ToInt _, VInt _ => true
  | Store ToFloat _, VFloat _ => true
  | _, _ => false
  end.

Definition dest_action (k : string) : option action :=
  List.find (fun a => String.eqb (act_dest a) k) (List.tl parser_optionals).

Definition slot_ok (k : string) (ov : option value) : bool :=
  if String.eqb k "prompt" then
    match ov with Some VNone | Some (VStr _) => true | _ => false end
  else
    match dest_action k with
    | Some a => match ov with Some v => fits (act_kind a) (act_default a) v | None => false end
    | None => true
    end.

(** Every destination of the parser holds a value of its type. *)
Definition ns_typed (ns : namespace) : Prop := forall k, slot_ok k (ns_get ns k) = true.

(** An option tuple names an action of the parser. *)
Definition pat_ok (p : pat) : Prop :=
  match p with PO (Known a _ _) => In a parser_optionals | _ => True end.

(** ** Lemmas on the namespace *)

Lemma ns_get_set ns k v k' :
  ns_get (ns_set ns k v) k' = if String.eqb k' k then Some v else ns_get ns k'.
Proof.
  induction ns as [|[k0 v0] ns IH]; simpl; [done|].
  destruct (String.eqb k k0) eqn:E; simpl.
  - apply String.eqb_eq in E as ->. by destruct (String.eqb k' k0).
  - rewrite IH. destruct (String.eqb k' k0) eqn:E'; [|done].
    apply String.eqb_eq in E' as ->. by rewrite String.eqb_sym, E.
Qed.

Ltac in_table H := repeat (destruct H as [<-|H]); [..|contradiction].

Lemma table_dest a :
  In a (List.tl parser_optionals) ->
  dest_action (act_dest a) = Some a /\ String.eqb (act_dest a) "prompt" = false.
Proof. intros H. in_table H; split; reflexivity. Qed.

Lemma dest_action_Some k a :
  dest_action k = Some a -> In a (List.tl parser_optionals) /\ act_dest a = k.
Proof.
  unfold dest_action. intros F. apply find_some in F as [Hin Heq]. by apply String.eqb_eq in Heq.
Qed.

Lemma ns_typed_set a v ns :
  In a (List.tl parser_optionals) -> fits (act_kind a) (act_default a) v = true -> ns_typed ns ->
  ns_typed (ns_set ns (act_dest a) v).
Proof.
  intros Ha Hv Hns k. rewrite ns_get_set. destruct (String.eqb k (act_dest a)) eqn:E; [|apply Hns].
  apply String.eqb_eq in E as ->. destruct (table_dest a Ha) as [Hk Hp].
  unfold slot_ok. by rewrite Hp, Hk.
Qed.

Lemma take_prompt_typed args ns : ns_typed ns -> ns_typed (take_prompt args ns).
Proof.
  intros Hns k. unfold take_prompt.
  destruct (remove_dashdash args) as [|s [|]]; rewrite ns_get_set;
    destruct (String.eqb k "prompt") eqn:E; try apply Hns;
    apply String.eqb_eq in E as ->; reflexivity.
Qed.

Lemma initial_typed : ns_typed initial_namespace.
Proof.
  intros k. unfold slot_ok. destruct (String.eqb k "prompt") eqn:E.
  { apply String.eqb_eq in E as ->. reflexivity. }
  destruct (dest_action k) as [a|] eqn:D; [|done].
  apply dest_action_Some in D as [Ha <-]. in_table Ha; reflexivity.
Qed.

(** ** Every action the parser takes is one of its own *)

Lemma find_option_In s a : find_option s = Some a -> In a parser_optionals.
Proof.
  unfold find_option. destruct (List.find _ _) as [[os a']|] eqn:F; [|discriminate].
  intros [= <-]. apply find_some in F as [Hin _].
  apply in_flat_map in Hin as (a'' & Hin & Hm). apply in_map_iff in Hm as (x & [= _ ->] & _). done.
Qed.

Lemma option_string_actions_In os a : In (os, a) option_string_actions -> In a parser_optionals.
Proof. intros Hin. apply in_flat_map in Hin as (a'' & Hin & Hm). by apply in_map_iff in Hm as (x & [= _ ->] & _). Qed.

Lemma get_option_tuples_ok s t : In t (get_option_tuples s) -> pat_ok (PO t).
Proof.
  unfold get_option_tuples. intros Hin. destruct s as [|c0 [|c1 tail]]; try contradiction.
  destruct (Ascii.eqb c1 "-").
  - destruct (split_eq _) as [[o e]|];
      apply in_map_iff in Hin as ([os0 a0] & <- & Hf); apply filter_In in Hf as [Hf _];
      by eapply option_string_actions_In.
  - apply in_flat_map in Hin as ([os0 a0] & Hf & Ht). apply option_string_actions_In in Hf.
    simpl in Ht. destruct (String.eqb os0 _); [|destruct (String.prefix _ os0)];
      simpl in Ht; try contradiction; destruct Ht as [<-|[]]; exact Hf.
Qed.

Lemma parse_optional_ok s t : parse_optional s = Ok (Some t) -> pat_ok (PO t).
Proof.
  unfold parse_optional. destruct s as [|c rest]; [discriminate|].
  destruct (negb _); [discriminate|].
  destruct (find_option _) as [a|] eqn:F; [intros [= <-]; by eapply find_option_In|].
  destruct (String.eqb rest ""); [discriminate|].
  destruct (split_eq _) as [[o e]|]; cbv beta iota zeta;
    [destruct (find_option o) as [a|] eqn:F'; cbv beta iota; [intros [= <-]; by eapply find_option_In|]|].
  all: destruct (get_option_tuples (String c rest)) as [|t1 [|t2 ts]] eqn:G;
    [destruct (negative_number (String c rest) || str_contains " " (String c rest)); intros Hr; inversion Hr; exact I | intros [= <-]; eapply get_option_tuples_ok; rewrite G; by left | discriminate].
Qed.

Lemma classify_ok args ps : classify args = Ok ps -> Forall pat_ok ps.
Proof.
  revert ps. induction args as [|s args IH]; intros ps H; simpl in H; [by injection H as <-|].
  destruct (String.eqb s "--").
  { injection H as <-. constructor; [done|]. clear.
    induction args; simpl; [constructor | constructor; [exact I | assumption]]. }
  destruct (parse_optional s) as [t|] eqn:Ht; [|discriminate]. simpl in H.
  destruct (classify args) as [ps'|]; [|discriminate]. injection H as <-.
  constructor; [|by apply IH]. destruct t as [t|]; [|done]. by eapply parse_optional_ok.
Qed.


(** ** Each step keeps the namespace typed *)

Lemma get_value_fits a ty ch d s v :
  get_value a ty s = Ok v -> check_value a ch v = Ok tt -> fits (Store ty ch) d v = true.
Proof.
  unfold get_value. destruct ty.
  - intros [= <-]. destruct ch as [cs|]; [|done]. unfold check_value. simpl.
    destruct (existsb _ _); [done | intros Hc; discriminate Hc].
  - destruct (int_of_string s); [intros [= <-]; by destruct ch | discriminate].
  - destruct (of_string s); [intros [= <-]; by destruct ch | discriminate].
Qed.

Lemma take_optional_typed a args ns ns' :
  In a parser_optionals -> ns_typed ns -> take_optional a args ns = Ok ns' -> ns_typed ns'.
Proof.
  intros Ha Hns. destruct Ha as [<-|Ha]; [intros Ht; discriminate Ht|].
  unfold take_optional. destruct (act_kind a) as [|ty ch|] eqn:K; [| |intros Ht; discriminate Ht].
  - intros [= <-]. apply ns_typed_set; [done | by rewrite K | done].
  - destruct (remove_dashdash args) as [|s [|s' l]];
      [intros [= <-]; apply ns_typed_set; [done | rewrite K; by destruct ty, ch | done] | |
       intros [= <-]; apply ns_typed_set; [done | rewrite K; by destruct ty, ch | done]].
    destruct (get_value a ty s) as [v|] eqn:Hv; [|discriminate]. simpl.
    destruct (check_value a ch v) as [[]|] eqn:Hc; [|discriminate]. simpl. intros [= <-].
    apply ns_typed_set; [done | rewrite K; by eapply get_value_fits | done].
Qed.

Lemma take_all_typed tuples ns ns' :
  Forall (fun t => In (fst t) parser_optionals) tuples -> ns_typed ns ->
  take_all tuples ns = Ok ns' -> ns_typed ns'.
Proof.
  revert ns. induction tuples as [|[a args] tuples IH]; intros ns Hall Hns H; simpl in H.
  - by injection H as <-.
  - inversion Hall; subst. apply res_bind_eq_Ok in H as (n1 & E & H).
    eapply IH; [done | eapply take_optional_typed; eauto | exact H].
Qed.

Lemma explicit_tuples_ok a os e rest r :
  In a parser_optionals -> explicit_tuples a os e rest = Ok r ->
  Forall (fun t => In (fst t) parser_optionals) (fst r).
Proof.
  revert a os r. induction e as [|c e' IH]; intros a os r Ha H; cbn [explicit_tuples] in H.
  all: destruct (nargs_zero a); [|injection H as <-; constructor; [exact Ha | constructor]].
  all: destruct (single_dash os && _); [|discriminate H].
  - discriminate H.
  - destruct (find_option _) as [a'|] eqn:F; [|discriminate H]. apply find_option_In in F.
    apply res_bind_eq_Ok in H as (r0 & H0 & [= <-]). cbn [fst]. constructor; [exact Ha|].
    destruct (String.eqb e' "").
    + apply res_bind_eq_Ok in H0 as (args & _ & [= <-]). constructor; [exact F | constructor].
    + by eapply IH.
Qed.

Lemma finish_typed ps pos ns ex : ns_typed ns -> ns_typed (fst (finish ps pos ns ex)).
Proof. unfold finish. destruct pos; simpl; [apply take_prompt_typed | done]. Qed.

(** What [loop] goes on with after an option string. *)
Lemma skip_next {A} (P : A -> Prop) (b : bool) (rest : list A) :
  Forall P rest ->
  let l := if b then match rest with [] => rest | _ :: r => r end else rest in
  (List.length l <= List.length rest)%nat /\ Forall P l.
Proof. intros H. destruct b, rest; simpl; try inversion H; auto. Qed.

Lemma finish_Ok_typed ps pos ns ex ns' ex' :
  ns_typed ns -> Ok (finish ps pos ns ex) = Ok (ns', ex') -> ns_typed ns'.
Proof. intros Hns [= Hf]. change ns' with (fst (ns', ex')). rewrite <- Hf. by apply finish_typed. Qed.

Lemma loop_typed n ps pos ns ex ns' ex' :
  (List.length ps <= n)%nat -> Forall (fun x => pat_ok (snd x)) ps -> ns_typed ns ->
  loop ps pos ns ex = Ok (ns', ex') -> ns_typed ns'.
Proof.
  revert ps pos ns ex. induction n as [|n IH]; intros ps pos ns ex Hlen Hok Hns H.
  all: destruct ps as [|[s p] rest]; cbn [loop] in H;
    [cbn [existsb negb] in H; by eapply finish_Ok_typed | simpl in Hlen; try lia].
  destruct (negb _); [by eapply finish_Ok_typed|].
  inversion Hok as [|? ? Hp Hrest]; subst.
  destruct p as [[a os ex0|]| |].
  - apply res_bind_eq_Ok in H as (r & Hr & H). apply res_bind_eq_Ok in H as (n1 & Ht & H).
    destruct (skip_next _ (snd r) rest Hrest) as [Hl Hf].
    eapply IH; [| exact Hf | eapply take_all_typed; [| exact Hns | exact Ht] | exact H]; [lia|].
    destruct ex0 as [e|]; [eapply explicit_tuples_ok; [exact Hp | exact Hr]|].
    apply res_bind_eq_Ok in Hr as (args & _ & [= <-]). constructor; [exact Hp | constructor].
  - eapply IH; [| exact Hrest | exact Hns | exact H]. lia.
  - destruct pos; (eapply IH; [| exact Hrest | | exact H]); [lia | by apply take_prompt_typed | lia | done].
  - by eapply finish_Ok_typed.
Qed.

Lemma Forall_combine_snd {A B} (P : B -> Prop) (l1 : list A) (l2 : list B) :
  Forall P l2 -> Forall (fun x => P (snd x)) (combine l1 l2).
Proof.
  revert l2. induction l1; intros [|b l2] H; simpl; try constructor; inversion H; auto.
Qed.


(** ** The exceptions of [parse_args] *)

(** [parser.error] ([SystemExit(2)] after its message) or the help
    action's [parser.exit()]. *)
Definition argparse_exn (e : exn) : Prop :=
  match e with ParserError _ => True | SystemExit n => n = 0%Z | _ => False end.

Definition raises_argparse {A} (r : res A) : Prop := forall e, r = Raise e -> argparse_exn e.

Lemma raises_Ok {A} (a : A) : raises_argparse (Ok a).
Proof. by intros e. Qed.

Lemma raises_arg_error {A} a msg : raises_argparse (@arg_error A a msg).
Proof. unfold arg_error. by intros e [= <-]. Qed.

Lemma raises_bind {A B} (c : res A) (k : A -> res B) :
  raises_argparse c -> (forall a, raises_argparse (k a)) -> raises_argparse (res_bind c k).
Proof. intros Hc Hk e. destruct c as [a|e']; simpl; [exact (Hk a e) | intros [= <-]; by apply Hc]. Qed.

Create HintDb argparse discriminated.
#[export] Hint Resolve raises_Ok raises_arg_error raises_bind : argparse.

(** Split the conditionals of a definition and close each branch. *)
Ltac raises_cases :=
  repeat (first [ progress eauto with argparse
                | match goal with |- raises_argparse (match ?x with _ => _ end) => destruct x end
                | match goal with |- raises_argparse (if ?b then _ else _) => destruct b end ]).

Lemma raises_get_value a ty s : raises_argparse (get_value a ty s).
Proof. unfold get_value. destruct ty; raises_cases. Qed.

Lemma raises_check_value a ch v : raises_argparse (check_value a ch v).
Proof. unfold check_value. raises_cases. Qed.

Lemma raises_take_optional a args ns : raises_argparse (take_optional a args ns).
Proof. unfold take_optional. destruct (act_kind a); [eauto with argparse | | by intros e [= <-]].
  destruct (remove_dashdash args) as [|s [|]]; eauto using raises_get_value, raises_check_value with argparse.
Qed.

Lemma raises_take_all tuples ns : raises_argparse (take_all tuples ns).
Proof. revert ns. induction tuples as [|[a args] tuples IH]; intros ns; simpl; eauto using raises_take_optional with argparse. Qed.

Lemma raises_match_following a rest : raises_argparse (match_following a rest).
Proof. unfold match_following. destruct (nargs_zero a); [eauto with argparse|]. by raises_cases. Qed.

Lemma raises_explicit_tuples a os e rest : raises_argparse (explicit_tuples a os e rest).
Proof.
  revert a os. induction e as [|c e' IH]; intros a os; cbn [explicit_tuples];
    destruct (nargs_zero a); eauto with argparse; destruct (_ && _); eauto with argparse.
  destruct (find_option _); eauto with argparse.
  apply raises_bind; [|eauto with argparse]. destruct (String.eqb e' ""); eauto using raises_match_following with argparse.
Qed.

Lemma raises_loop n ps pos ns ex :
  (List.length ps <= n)%nat -> raises_argparse (loop ps pos ns ex).
Proof.
  revert ps pos ns ex. induction n as [|n IH]; intros [|[s p] rest] pos ns ex Hlen; cbn [loop];
    try (cbn [existsb negb]; eauto with argparse); simpl in Hlen; try lia.
  destruct (negb _); [eauto with argparse|].
  destruct p as [[a os ex0|]| |].
  - apply raises_bind; [destruct ex0; eauto using raises_explicit_tuples, raises_match_following with argparse | intros r].
    apply raises_bind; [apply raises_take_all | intros n1]. apply IH.
    destruct (snd r), rest; simpl in *; lia.
  - apply IH; lia.
  - destruct pos; apply IH; lia.
  - eauto with argparse.
Qed.

Lemma raises_parse_optional s : raises_argparse (parse_optional s).
Proof.
  unfold parse_optional. destruct s as [|c rest]; [eauto with argparse|].
  destruct (negb _); [eauto with argparse|]. destruct (find_option _); [eauto with argparse|].
  destruct (String.eqb rest ""); [eauto with argparse|].
  destruct (split_eq _) as [[o e0]|]; [destruct (find_option o)|];
    cbv beta iota zeta delta [option_map]; try apply raises_Ok.
  all: destruct (get_option_tuples (String c rest)) as [|t1 [|t2 ts]];
    [destruct (negative_number (String c rest) || str_contains " " (String c rest))
    | | by intros e1 [= <-]]; eauto with argparse.
Qed.

Lemma raises_classify args : raises_argparse (classify args).
Proof.
  induction args as [|s args IH]; simpl; [eauto with argparse|].
  destruct (String.eqb s "--"); eauto using raises_parse_optional with argparse.
Qed.

(** [parse_args] raises nothing but [parser.error] and the exit of the
    help action, so [cmdline_of] has no case for another exception. *)
Lemma raises_parse_args argv : raises_argparse (parse_args argv).
Proof.
  unfold parse_args, parse_known_args.
  apply raises_bind; [|intros [ns ex]; destruct ex; [apply raises_Ok | by intros e [= <-]]].
  apply raises_bind; [apply raises_classify | intros ps]. by apply (raises_loop (List.length (combine argv ps))).
Qed.

(** ** Properties *)

(** C16. Type: whatever the command line, a namespace [parse_args]
    returns holds under each destination of the parser a value of the
    type its [add_argument] call declares: a bool for the
    [store_true] flags, an int for [--width], [--height], [--steps] and
    [--seed], a float for [--cfg-scale], a str for the others, [None]
    where the option has no default and was not given, one of the
    choices for [--format]; [prompt] holds [None] or a str. The one
    value outside these types is the empty list an option gets from an
    argument [--] ([--model=--]). *)
Theorem parse_args_typed argv ns : parse_args argv = Ok ns -> ns_typed ns.
Proof.
  unfold parse_args, parse_known_args. intros H.
  apply res_bind_eq_Ok in H as ([ns0 ex] & H & Hx). apply res_bind_eq_Ok in H as (ps & Hc & Hl).
  destruct ex; [injection Hx as <- | discriminate].
  eapply (loop_typed (List.length (combine argv ps))); [done | | apply initial_typed | exact Hl].
  apply Forall_combine_snd. by apply (classify_ok argv).
Qed.

Definition example_argv : list string := ["--w"; "512"; "--cfg-scale=7.5"; "a cat"; "--format"; "png"].

Definition example_ns : namespace := match parse_args example_argv with Ok ns => ns | Raise _ => [] end.

Lemma parse_args_typed_witness : parse_args example_argv = Ok example_ns /\ ns_typed example_ns.
Proof.
  assert (parse_args example_argv = Ok example_ns) as H by (vm_compute; reflexivity).
  split; [exact H | exact (parse_args_typed _ _ H)].
Defined.

Definition example_args : Args :=
  mkArgs false false (Some "a cat") "venice-sd35" None (Some 512%Z) None None None
    (Some (of_decimal false 75 (-1))) None None "png" None false.

Example format_dashdash : cmdline_of ["a cat"; "--format=--"] = None.
Proof. vm_compute. reflexivity. Qed.


(** ** [int(str(n))] is [n] *)

Lemma digits_more_all s : str_forall py_isdigit s = true -> digits_more s = (str_digits s, "").
Proof. induction s as [|c s IH]; simpl; [done|]. intros H. apply andb_prop in H as [-> H]. by rewrite IH. Qed.

Lemma digit_not_space c : py_isdigit c = true -> py_isspace c = false.
Proof.
  unfold py_isdigit, py_isspace. intros H. apply andb_prop in H as [H1 H2].
  apply Nat.leb_le in H1, H2.
  rewrite (proj2 (Nat.leb_gt (code c) 13)), (proj2 (Nat.leb_gt (code c) 32)) by lia.
  rewrite (proj2 (Nat.eqb_neq (code c) 133)), (proj2 (Nat.eqb_neq (code c) 160)) by lia.
  by rewrite !andb_false_r.
Qed.

Lemma str_forall_rev_app f s1 s2 :
  str_forall f (String.rev_app s1 s2) = str_forall f s1 && str_forall f s2.
Proof.
  revert s2. induction s1 as [|c s1 IH]; intros s2; simpl; [done|].
  rewrite IH. simpl. by destruct (f c), (str_forall f s1), (str_forall f s2).
Qed.

Lemma rev_app_rev_app s1 s2 s3 : String.rev_app (String.rev_app s1 s2) s3 = String.rev_app s2 (s1 ++ s3).
Proof. revert s2. induction s1 as [|c s1 IH]; intros s2; simpl; [done|]. by rewrite IH. Qed.



Lemma lstrip_id s : str_forall (fun c => negb (py_isspace c)) s = true -> lstrip s = s.
Proof. destruct s as [|c s]; simpl; [done|]. by destruct (py_isspace c). Qed.

(** [s.strip()] leaves a string without whitespace as it is. *)
Lemma strip_id s : str_forall (fun c => negb (py_isspace c)) s = true -> strip s = s.
Proof.
  intros H. unfold strip. rewrite (lstrip_id s H). unfold String.rev.
  rewrite lstrip_id by (by rewrite str_forall_rev_app, H).
  by rewrite rev_app_rev_app, string_app_nil_r.
Qed.

Lemma digits_no_space s : str_forall py_isdigit s = true -> str_forall (fun c => negb (py_isspace c)) s = true.
Proof.
  induction s as [|c s IH]; simpl; [done|]. intros H. apply andb_prop in H as [Hc H].
  by rewrite digit_not_space, IH.
Qed.

Lemma take_sign_digit c s : py_isdigit c = true -> take_sign (String c s) = (false, String c s).
Proof. destruct c as [[] [] [] [] [] [] [] []]; intros H; try discriminate H; reflexivity. Qed.

(** The digits of a positive number read back. *)
Lemma digitpart_pretty p :
  digitpart (pretty (Zpos p)) = Some (str_digits (pretty (Zpos p)), "") /\
  digits_value (str_digits (pretty (Zpos p))) = Zpos p.
Proof.
  destruct (pretty_nonneg_digits (Zpos p) ltac:(lia)) as [Hd Hne].
  split.
  - destruct (pretty (Zpos p)) as [|c s] eqn:E; [done|]. simpl in Hd |- *.
    apply andb_prop in Hd as [-> Hd]. by rewrite digits_more_all.
  - unfold digits_value. change (pretty (Zpos p)) with (pretty_N_go (Npos p) "").
    by rewrite pretty_N_go_value.
Qed.

(** [int(str(n))] is [n] when [str(n)] has at most 4300 digits. *)
Lemma int_of_string_pretty n :
  (String.length (pretty (Z.abs n)) <= INT_MAX_STR_DIGITS)%nat -> int_of_string (pretty n) = Some n.
Proof.
  intros Hlen. destruct n as [|p|p]; [reflexivity| |].
  all: destruct (pretty_nonneg_digits (Zpos p) ltac:(lia)) as [Hd Hne];
    destruct (digitpart_pretty p) as [Hp Hv]; change (Z.abs _) with (Zpos p) in Hlen.
  - unfold int_of_string. rewrite strip_id by (by apply digits_no_space).
    destruct (pretty (Zpos p)) as [|c s] eqn:E; [done|].
    simpl in Hd. apply andb_prop in Hd as [Hc _]. rewrite take_sign_digit by done.
    rewrite Hp. rewrite <- str_digits_length in Hlen. cbv iota beta.
    rewrite (proj2 (Nat.ltb_ge _ _) Hlen). by rewrite Hv.
  - unfold int_of_string. change (pretty (Zneg p)) with (String "-" (pretty (Zpos p))).
    rewrite strip_id by (simpl; by rewrite digits_no_space).
    change (take_sign (String "-" ?x)) with (true, x). cbv beta iota zeta.
    rewrite Hp. rewrite <- str_digits_length in Hlen. cbv iota beta.
    rewrite (proj2 (Nat.ltb_ge _ _) Hlen). by rewrite Hv.
Qed.


(** ** [Args] written back as a command line *)

(** A setting of an optional: its action and argument ([""] for a
    flag), written [--opt=value] or [--flag]. *)
Definition setting : Type := action * string.

Definition option_string (a : action) : string := List.hd "" (act_strings a).

Definition setting_str (st : setting) : string :=
  if nargs_zero (fst st) then option_string (fst st) else option_string (fst st) ++ "=" ++ snd st.

Definition setting_tuple (st : setting) : opt_tuple :=
  Known (fst st) (option_string (fst st)) (if nargs_zero (fst st) then None else Some (snd st)).

Definition setting_args (st : setting) : list string := if nargs_zero (fst st) then [] else [snd st].

(** The value [take_optional] stores for a setting that converts. *)
Definition setting_value (st : setting) : value :=
  match act_kind (fst st) with
  | StoreTrue => VBool true
  | Store ty _ => match get_value (fst st) ty (snd st) with Ok v => v | Raise _ => VEmpty end
  | HelpAction => VNone
  end.

Definition flag_setting (a : action) (b : bool) : list setting := if b then [(a, "")] else [].
Definition opt_setting (a : action) (o : option string) : list setting :=
  match o with Some v => [(a, v)] | None => [] end.

Definition settings (x : Args) : list setting :=
  flag_setting list_models_action (list_models x) ++ flag_setting verbose_action (verbose x)
  ++ [(model_action, model x)] ++ opt_setting negative_prompt_action (negative_prompt x)
  ++ opt_setting width_action (option_map pretty (width x))
  ++ opt_setting height_action (option_map pretty (height x))
  ++ opt_setting aspect_ratio_action (aspect_ratio x)
  ++ opt_setting steps_action (option_map pretty (steps x))
  ++ opt_setting cfg_scale_action (option_map float_repr (cfg_scale x))
  ++ opt_setting seed_action (option_map pretty (seed x))
  ++ opt_setting style_preset_action (style_preset x) ++ [(format_action, format x)]
  ++ opt_setting output_action (output x) ++ flag_setting safe_mode_action (safe_mode x).

Definition prompt_args (o : option string) : list string :=
  match o with Some p => ["--"; p] | None => [] end.

Definition render (x : Args) : list string := (map setting_str (settings x) ++ prompt_args (prompt x))%list.

(** What [render] needs to be read back: no string is [--] (no option
    takes that argument), no int has more than 4300 digits, the float's
    [repr] reads back, the format is one of the choices. *)
Definition str_ok (o : option string) : Prop := o <> Some "--".
Definition int_ok (o : option Z) : Prop :=
  forall n, o = Some n -> (String.length (pretty (Z.abs n)) <= INT_MAX_STR_DIGITS)%nat.
Definition float_ok (o : option float) : Prop := forall f, o = Some f -> of_string (float_repr f) = Some f.

Record renderable (x : Args) : Prop := {
  r_format : In (format x) FORMATS;
  r_model : model x <> "--";
  r_strs : str_ok (negative_prompt x) /\ str_ok (aspect_ratio x) /\ str_ok (style_preset x) /\ str_ok (output x);
  r_ints : int_ok (width x) /\ int_ok (height x) /\ int_ok (steps x) /\ int_ok (seed x);
  r_float : float_ok (cfg_scale x)
}.

(** ** Reading settings back *)

Definition table_setting (st : setting) : Prop := In (fst st) (List.tl parser_optionals).

Lemma setting_parse st :
  table_setting st -> String.eqb (setting_str st) "--" = false /\ parse_optional (setting_str st) = Ok (Some (setting_tuple st)).
Proof. destruct st as [a v]. unfold table_setting. simpl. intros H. in_table H; split; reflexivity. Qed.


Lemma classify_settings sts tail :
  Forall table_setting sts ->
  classify (map setting_str sts ++ tail)%list =
    (ps <- classify tail ;; Ok (map (fun st => PO (setting_tuple st)) sts ++ ps)%list).
Proof.
  induction sts as [|st sts IH]; intros Hall; cbn [map app].
  - by destruct (classify tail).
  - inversion Hall as [|? ? Hst Hsts]; subst. destruct (setting_parse st Hst) as [Hd Hp].
    cbn [classify]. rewrite Hd, Hp, res_bind_Ok, IH, res_bind_assoc by done.
    by destruct (classify tail).
Qed.

Lemma combine_settings sts tail ps :
  combine (map setting_str sts ++ tail)%list (map (fun st => PO (setting_tuple st)) sts ++ ps)%list =
    (map (fun st => (setting_str st, PO (setting_tuple st))) sts ++ combine tail ps)%list.
Proof. induction sts; simpl; congruence. Qed.

Lemma loop_no_option ps pos ns ex :
  existsb is_option ps = false -> loop ps pos ns ex = Ok (finish ps pos ns ex).
Proof. intros H. destruct ps; cbn [loop]; [reflexivity|]. by rewrite H. Qed.

Lemma explicit_store a os e rest :
  nargs_zero a = false -> explicit_tuples a os e rest = Ok ([(a, [e])], false).
Proof. intros Z. destruct e; cbn [explicit_tuples]; by rewrite Z. Qed.

Lemma loop_settings sts rest pos ns ex :
  existsb is_option rest = false ->
  loop (map (fun st => (setting_str st, PO (setting_tuple st))) sts ++ rest)%list pos ns ex =
    (ns' <- take_all (map (fun st => (fst st, setting_args st)) sts) ns ;; Ok (finish rest pos ns' ex)).
Proof.
  intros Hr. revert ns. induction sts as [|[a v] sts IH]; intros ns; cbn [map app].
  - by rewrite loop_no_option.
  - cbn [loop existsb is_option snd negb orb]. unfold setting_tuple, setting_args. cbn [fst snd].
    destruct (nargs_zero a) eqn:Z.
    + unfold match_following. rewrite Z, !res_bind_Ok. cbn [fst snd took take_all].
      rewrite !res_bind_assoc. destruct (take_optional a [] ns); [|reflexivity].
      rewrite !res_bind_Ok. apply IH.
    + rewrite explicit_store, !res_bind_Ok by done. cbn [fst snd took take_all].
      rewrite !res_bind_assoc. destruct (take_optional a [v] ns); [|reflexivity].
      rewrite !res_bind_Ok. apply IH.
Qed.


Definition store_step (ns : namespace) (st : setting) : namespace :=
  ns_set ns (act_dest (fst st)) (setting_value st).

(** [take_optional] stores the setting as [setting_value]. *)
Definition takes (st : setting) : Prop :=
  forall ns, take_optional (fst st) (setting_args st) ns = Ok (store_step ns st).

Lemma take_all_settings sts ns :
  Forall takes sts ->
  take_all (map (fun st => (fst st, setting_args st)) sts) ns = Ok (fold_left store_step sts ns).
Proof.
  revert ns. induction sts as [|st sts IH]; intros ns Hall; [done|].
  inversion Hall as [|? ? Ht Hts]; subst. cbn [map take_all fold_left]. rewrite Ht, res_bind_Ok. by apply IH.
Qed.

Lemma Forall_flag (P : setting -> Prop) a b : P (a, "") -> Forall P (flag_setting a b).
Proof. intros H. destruct b; repeat constructor; done. Qed.

Lemma Forall_opt (P : setting -> Prop) a o : (forall v, o = Some v -> P (a, v)) -> Forall P (opt_setting a o).
Proof. intros H. destruct o; repeat constructor; auto. Qed.

Lemma takes_flag a : act_kind a = StoreTrue -> takes (a, "").
Proof. intros K ns. unfold setting_args, store_step, setting_value, take_optional, nargs_zero. cbn [fst snd]. by rewrite K. Qed.

Lemma takes_store a ty ch v w :
  act_kind a = Store ty ch -> v <> "--" -> get_value a ty v = Ok w -> check_value a ch w = Ok tt -> takes (a, v).
Proof.
  intros K Hv Hg Hc ns. unfold setting_args, store_step, setting_value, take_optional, nargs_zero. cbn [fst snd].
  rewrite K. cbn [remove_dashdash]. rewrite (proj2 (String.eqb_neq v "--") Hv), Hg, res_bind_Ok, Hc.
  reflexivity.
Qed.

Lemma takes_str a v : act_kind a = Store ToStr None -> v <> "--" -> takes (a, v).
Proof. intros K Hv. by apply (takes_store _ ToStr None _ (VStr v)). Qed.

Lemma str_ok_Some o v : str_ok o -> o = Some v -> v <> "--".
Proof. intros H -> ->. by apply H. Qed.

Lemma pretty_not_dashdash (n : Z) : pretty n <> "--".
Proof.
  destruct n as [|p|p]; [discriminate| |]; destruct (pretty_nonneg_digits (Zpos p) ltac:(lia)) as [Hd _].
  - intros E. rewrite E in Hd. discriminate.
  - change (pretty (Zneg p)) with (String "-" (pretty (Zpos p))). intros [= E]. rewrite E in Hd. discriminate.
Qed.

Lemma settings_table x : Forall table_setting (settings x).
Proof.
  unfold settings. repeat apply Forall_app_2.
  all: first [apply Forall_flag | apply Forall_opt; intros ? _ | repeat constructor]; unfold table_setting; simpl; tauto.
Qed.

Lemma settings_takes x : renderable x -> Forall takes (settings x).
Proof.
  intros [Hf Hm [Hs1 [Hs2 [Hs3 Hs4]]] [Hi1 [Hi2 [Hi3 Hi4]]] Hfl]. unfold settings.
  repeat apply Forall_app_2.
  all: first [apply Forall_flag; by apply takes_flag | apply Forall_opt | constructor; [|constructor]].
  - by apply takes_str.
  - intros v Hv. apply takes_str; [done | by eapply str_ok_Some; [apply Hs1|]].
  - intros v Hv. destruct (width x) as [n|]; [|discriminate]. injection Hv as <-.
    apply (takes_store _ ToInt None _ (VInt n)); [done | apply pretty_not_dashdash | | done].
    unfold get_value. by rewrite int_of_string_pretty by (by apply Hi1).
  - intros v Hv. destruct (height x) as [n|]; [|discriminate]. injection Hv as <-.
    apply (takes_store _ ToInt None _ (VInt n)); [done | apply pretty_not_dashdash | | done].
    unfold get_value. by rewrite int_of_string_pretty by (by apply Hi2).
  - intros v Hv. apply takes_str; [done | by eapply str_ok_Some; [apply Hs2|]].
  - intros v Hv. destruct (steps x) as [n|]; [|discriminate]. injection Hv as <-.
    apply (takes_store _ ToInt None _ (VInt n)); [done | apply pretty_not_dashdash | | done].
    unfold get_value. by rewrite int_of_string_pretty by (by apply Hi3).
  - intros v Hv. destruct (cfg_scale x) as [f|]; [|discriminate]. injection Hv as <-.
    specialize (Hfl f eq_refl).
    apply (takes_store _ ToFloat None _ (VFloat f)); [done | by intros E; rewrite E in Hfl | | done].
    unfold get_value. by rewrite Hfl.
  - intros v Hv. destruct (seed x) as [n|]; [|discriminate]. injection Hv as <-.
    apply (takes_store _ ToInt None _ (VInt n)); [done | apply pretty_not_dashdash | | done].
    unfold get_value. by rewrite int_of_string_pretty by (by apply Hi4).
  - intros v Hv. apply takes_str; [done | by eapply str_ok_Some; [apply Hs3|]].
  - apply (takes_store _ ToStr (Some FORMATS) _ (VStr (format x))); [done | | done |].
    + intros E. rewrite E in Hf. simpl in Hf. intuition discriminate.
    + unfold check_value.
      by rewrite (proj2 (existsb_exists _ _) (ex_intro _ (format x) (conj Hf (String.eqb_refl _)))).
  - intros v Hv. apply takes_str; [done | by eapply str_ok_Some; [apply Hs4|]].
Qed.


Lemma ns_get_fold_ne ns sts k :
  Forall (fun st => String.eqb k (act_dest (fst st)) = false) sts ->
  ns_get (fold_left store_step sts ns) k = ns_get ns k.
Proof.
  revert ns. induction sts as [|st sts IH]; intros ns H; [done|]. inversion H; subst.
  simpl. rewrite IH by done. unfold store_step. rewrite ns_get_set. by case_match.
Qed.

Lemma ns_get_fold_flag ns a b k :
  String.eqb k (act_dest a) = true ->
  ns_get (fold_left store_step (flag_setting a b) ns) k = if b then Some (setting_value (a, "")) else ns_get ns k.
Proof. intros E. destruct b; simpl; [unfold store_step; rewrite ns_get_set; simpl; by rewrite E | done]. Qed.

Lemma ns_get_fold_opt ns a o k :
  String.eqb k (act_dest a) = true ->
  ns_get (fold_left store_step (opt_setting a o) ns) k =
    match o with Some v => Some (setting_value (a, v)) | None => ns_get ns k end.
Proof. intros E. destruct o; simpl; [unfold store_step; rewrite ns_get_set; simpl; by rewrite E | done]. Qed.

Lemma ns_get_fold_one ns st k :
  String.eqb k (act_dest (fst st)) = true -> ns_get (fold_left store_step [st] ns) k = Some (setting_value st).
Proof. intros E. simpl. unfold store_step. rewrite ns_get_set. by rewrite E. Qed.

Lemma ns_get_set_ne ns k v k' : String.eqb k' k = false -> ns_get (ns_set ns k v) k' = ns_get ns k'.
Proof. intros E. by rewrite ns_get_set, E. Qed.

Lemma ns_get_set_eq ns k v k' : String.eqb k' k = true -> ns_get (ns_set ns k v) k' = Some v.
Proof. intros E. by rewrite ns_get_set, E. Qed.

Lemma Forall_flag_ne k a b : String.eqb k (act_dest a) = false -> Forall (fun st => String.eqb k (act_dest (fst st)) = false) (flag_setting a b).
Proof. intros E. destruct b; repeat constructor; done. Qed.

Lemma Forall_opt_ne k a o : String.eqb k (act_dest a) = false -> Forall (fun st => String.eqb k (act_dest (fst st)) = false) (opt_setting a o).
Proof. intros E. destruct o; repeat constructor; done. Qed.

(** Read one key of a namespace built by settings. *)
Ltac get_key :=
  repeat first
    [ rewrite ns_get_set_ne by reflexivity | rewrite ns_get_set_eq by reflexivity
    | rewrite ns_get_fold_ne by (first [apply Forall_flag_ne | apply Forall_opt_ne | repeat constructor]; reflexivity)
    | rewrite ns_get_fold_flag by reflexivity | rewrite ns_get_fold_opt by reflexivity
    | rewrite ns_get_fold_one by reflexivity ].

Lemma args_of_ext g1 g2 : (forall k, g1 k = g2 k) -> args_of g1 = args_of g2.
Proof. intros H. unfold args_of. by rewrite !H. Qed.

Definition prompt_value (o : option string) : value := match o with Some p => VStr p | None => VNone end.

Lemma setting_value_str a ch v : act_kind a = Store ToStr ch -> setting_value (a, v) = VStr v.
Proof. intros K. unfold setting_value. cbn [fst snd]. by rewrite K. Qed.

Lemma setting_value_int a ch (n : Z) :
  act_kind a = Store ToInt ch -> int_ok (Some n) -> setting_value (a, pretty n) = VInt n.
Proof.
  intros K Hn. unfold setting_value. cbn [fst snd]. rewrite K. unfold get_value.
  by rewrite int_of_string_pretty by (by apply Hn).
Qed.

Lemma setting_value_float a ch f :
  act_kind a = Store ToFloat ch -> float_ok (Some f) -> setting_value (a, float_repr f) = VFloat f.
Proof. intros K Hf. unfold setting_value. cbn [fst snd]. rewrite K. unfold get_value. by rewrite (Hf f). Qed.

Lemma to_args_render x :
  renderable x ->
  to_args (ns_set (fold_left store_step (settings x) initial_namespace) "prompt" (prompt_value (prompt x))) = Some x.
Proof.
  intros [Hf Hm [Hs1 [Hs2 [Hs3 Hs4]]] [Hi1 [Hi2 [Hi3 Hi4]]] Hfl].
  unfold to_args, args_of. cbv beta. unfold settings. rewrite !fold_left_app.
  get_key. rewrite (setting_value_str model_action None), (setting_value_str format_action (Some FORMATS)) by reflexivity.
  cbn [default]. f_equal.
  destruct x as [lm vb pr md np wd ht ar st cf sd sp fm ou sm].
  cbn [list_models verbose prompt model negative_prompt width height aspect_ratio steps cfg_scale seed
       style_preset format output safe_mode] in *.
  f_equal; [destruct lm | destruct vb | destruct pr | destruct np | destruct wd as [n|]
           | destruct ht as [n|] | destruct ar | destruct st as [n|] | destruct cf as [f|] | destruct sd as [n|]
           | destruct sp | destruct ou | destruct sm]; try reflexivity.
  all: cbn [option_map]; first [erewrite setting_value_int | erewrite setting_value_float];
    [reflexivity | reflexivity | assumption].
Qed.


Definition prompt_pats (o : option string) : list pat :=
  match o with Some _ => [PDash; PA] | None => [] end.

Lemma prompt_classify o : classify (prompt_args o) = Ok (prompt_pats o).
Proof. by destruct o. Qed.

Lemma prompt_finish o ns :
  finish (combine (prompt_args o) (prompt_pats o)) true ns [] = (ns_set ns "prompt" (prompt_value o), []).
Proof. by destruct o. Qed.

(** C17. Round trip: [render x] writes [x] as a command line, each option
    as [--opt=value] and each flag that is set, then [--] and the
    prompt; [parse_args] reads it back as [x]. The conditions are what
    argparse and the conversions need: no string is [--] (no option can
    take that argument), no int has more than 4300 digits ([int()]'s
    limit), the float's [repr] reads back under [float()], the format
    is one of the choices. *)
Theorem cmdline_of_render x : renderable x -> cmdline_of (render x) = Some (Parsed x).
Proof.
  intros R. unfold cmdline_of, parse_args, parse_known_args, render.
  rewrite classify_settings by apply settings_table.
  rewrite prompt_classify, !res_bind_Ok, combine_settings.
  rewrite loop_settings by (by destruct (prompt x)).
  rewrite take_all_settings by (by apply settings_takes).
  rewrite !res_bind_Ok, prompt_finish. cbn [fst snd]. by rewrite to_args_render.
Qed.

Lemma example_renderable : renderable example_args.
Proof.
  constructor; [simpl; tauto | discriminate | repeat split; discriminate | |].
  - repeat split; intros n Hn; try discriminate Hn; injection Hn as <-; apply Nat.leb_le; reflexivity.
  - intros f [= <-]. vm_compute. reflexivity.
Qed.

Lemma cmdline_of_render_witness :
  renderable example_args /\ cmdline_of (render example_args) = Some (Parsed example_args).
Proof. split; [exact example_renderable | exact (cmdline_of_render _ example_renderable)]. Defined.

Example render_example :
  render example_args = ["--model=venice-sd35"; "--width=512"; "--cfg-scale=7.5"; "--format=png"; "--"; "a cat"].
Proof. vm_compute. reflexivity. Qed.


(** ** Abbreviations *)

(** [p] is a double-dash abbreviation, without [=], of the option string
    [os] and of no other one. *)
Definition abbrev_of (p os : string) : bool :=
  String.prefix "--" p && negb (str_contains "=" p)
  && match List.filter (fun q => String.prefix p (fst q)) option_string_actions with
     | [(o, _)] => String.eqb o os
     | _ => false
     end.

Lemma prefix_refl s : String.prefix s s = true.
Proof. induction s as [|c s IH]; simpl; [done|]. by destruct (ascii_dec c c). Qed.

Lemma split_at_None c s : str_contains c s = false -> split_at c s = None.
Proof.
  induction s as [|d s IH]; simpl; [done|]. destruct (ascii_dec c d) as [->|Hcd]; [done|].
  intros H. rewrite IH by done. destruct (Ascii.eqb d c) eqn:E; [|done].
  apply Ascii.eqb_eq in E. congruence.
Qed.

Lemma find_option_Some s a : find_option s = Some a -> In (s, a) option_string_actions.
Proof.
  unfold find_option. destruct (List.find _ _) as [[o a']|] eqn:F; [|discriminate]. intros [= <-].
  apply find_some in F as [Hin E]. simpl in E. by apply String.eqb_eq in E as ->.
Qed.

Lemma option_strings_parse :
  Forall (fun q => parse_optional (fst q) = Ok (Some (Known (snd q) (fst q) None))) option_string_actions.
Proof. unfold option_string_actions. simpl. repeat constructor. Qed.

Lemma abbrev_parse_optional p os :
  abbrev_of p os = true -> parse_optional p = parse_optional os.
Proof.
  unfold abbrev_of. intros H. apply andb_prop in H as [H Hf]. apply andb_prop in H as [Hd He].
  apply negb_true_iff in He. apply split_at_None in He.
  destruct (List.filter _ _) as [|[o a] [|]] eqn:F; try discriminate. apply String.eqb_eq in Hf as <-.
  assert (In (o, a) option_string_actions /\ String.prefix p o = true) as [Hin Hpo]
    by (apply (filter_In (fun q => String.prefix p (fst q))); rewrite F; by left).
  assert (parse_optional o = Ok (Some (Known a o None))) as Ho
    by (pose proof option_strings_parse as Hall; rewrite Forall_forall in Hall; exact (Hall (o, a) (proj2 (list_elem_of_In _ _) Hin))).
  rewrite Ho. destruct (find_option p) as [a'|] eqn:Fp.
  - apply find_option_Some in Fp.
    assert (In (p, a') (List.filter (fun q => String.prefix p (fst q)) option_string_actions)) as Hp
      by (apply filter_In; simpl; rewrite prefix_refl; done).
    rewrite F in Hp. destruct Hp as [[= -> ->]|[]]. exact Ho.
  - destruct p as [|c0 [|c1 r]]; cbn -[ascii_dec] in Hd; [discriminate | by destruct (ascii_dec _ _) |].
    destruct (ascii_dec "-" c0) as [<-|]; [|discriminate Hd].
    destruct (ascii_dec "-" c1) as [<-|]; [|discriminate Hd].
    unfold parse_optional. cbv beta iota. rewrite Fp. cbn [negb Ascii.eqb String.eqb].
    unfold split_eq in *. rewrite He. unfold get_option_tuples, split_eq. cbn [Ascii.eqb]. rewrite He, F. reflexivity.
Qed.


Lemma classify_app_option l1 s l2 :
  ~ In "--" l1 -> String.eqb s "--" = false ->
  classify (l1 ++ s :: l2)%list =
    (ps1 <- classify l1 ;; t <- parse_optional s ;; ps2 <- classify l2 ;; Ok (ps1 ++ pat_of t :: ps2)%list).
Proof.
  intros Hl Hs. induction l1 as [|x l1 IH]; cbn [app classify].
  - rewrite Hs. by destruct (parse_optional s), (classify l2).
  - destruct (String.eqb x "--") eqn:Ex; [apply String.eqb_eq in Ex; subst; by destruct Hl; left|].
    rewrite IH by (intros H; apply Hl; by right).
    by destruct (parse_optional x), (classify l1), (parse_optional s), (classify l2).
Qed.

Lemma classify_length args ps : classify args = Ok ps -> List.length ps = List.length args.
Proof.
  revert ps. induction args as [|s args IH]; intros ps H; simpl in H; [by injection H as <-|].
  destruct (String.eqb s "--"); [injection H as <-; simpl; by rewrite length_map|].
  apply res_bind_eq_Ok in H as (t & _ & H). apply res_bind_eq_Ok in H as (ps' & H & [= <-]).
  simpl. by rewrite (IH ps').
Qed.

(** No option string after a [--]: [classify] never puts one there. *)
Fixpoint dash_ok (ps : list (string * pat)) : Prop :=
  match ps with
  | [] => True
  | (_, PDash) :: rest => existsb is_option rest = false
  | _ :: rest => dash_ok rest
  end.

Lemma dash_ok_none ps : existsb is_option ps = false -> dash_ok ps.
Proof.
  induction ps as [|[s p] ps IH]; simpl; [done|]. intros H. apply orb_false_iff in H as [Hp H].
  destruct p; simpl in Hp; try discriminate; auto.
Qed.

Lemma classify_dash_ok args ps : classify args = Ok ps -> dash_ok (combine args ps).
Proof.
  revert ps. induction args as [|s args IH]; intros ps H; simpl in H; [by injection H as <-|].
  destruct (String.eqb s "--").
  - injection H as <-. simpl. clear. induction args; simpl; auto.
  - apply res_bind_eq_Ok in H as ([t|] & _ & H); apply res_bind_eq_Ok in H as (ps' & H & [= <-]);
      simpl; [destruct t|]; auto.
Qed.

(** Two argument lists that differ only in the strings of option strings
    the parser knows. *)
Definition same_args (ps1 ps2 : list (string * pat)) : Prop :=
  Forall2 (fun x y => snd x = snd y /\ (fst x = fst y \/ exists a os e, snd x = PO (Known a os e))) ps1 ps2.

Lemma same_args_options ps1 ps2 : same_args ps1 ps2 -> existsb is_option ps1 = existsb is_option ps2.
Proof. induction 1 as [|[s p] [s' p'] ? ? [Hp _] _ IH]; simpl in *; [done|]. subst; by rewrite IH. Qed.

Lemma same_args_eq ps1 ps2 : same_args ps1 ps2 -> existsb is_option ps1 = false -> ps1 = ps2.
Proof.
  induction 1 as [|[s p] [s' p'] ? ? [Hp Hs] _ IH]; simpl in *; [done|]. intros H.
  apply orb_false_iff in H as [Ho H]. subst p'. destruct Hs as [->|(a & os & e & Hk)].
  - by rewrite IH.
  - simpl in Hk. subst p. discriminate Ho.
Qed.

Lemma match_following_same a r1 r2 : same_args r1 r2 -> match_following a r1 = match_following a r2.
Proof.
  intros H. unfold match_following. destruct (nargs_zero a); [done|].
  destruct H as [|[s p] [s' p'] ? ? [Hp [Hs|(? & ? & ? & Hk)]]]; simpl in *; subst; try done.
Qed.

Lemma explicit_tuples_same a os e r1 r2 :
  same_args r1 r2 -> explicit_tuples a os e r1 = explicit_tuples a os e r2.
Proof.
  intros H. revert a os. induction e as [|c e IH]; intros a os; cbn [explicit_tuples]; [done|].
  destruct (nargs_zero a), (single_dash os && negb (String.eqb (String c e) "")); try done. destruct (find_option _); [|done].
  destruct (String.eqb e ""); [by rewrite (match_following_same _ _ _ H) | by rewrite IH].
Qed.

Lemma skip_same (b : bool) r1 r2 :
  same_args r1 r2 ->
  same_args (if b then match r1 with [] => r1 | _ :: r => r end else r1)
            (if b then match r2 with [] => r2 | _ :: r => r end else r2).
Proof. intros H. destruct b; [destruct H; [constructor | done] | done]. Qed.

Lemma dash_ok_skip (b : bool) r : dash_ok r -> dash_ok (if b then match r with [] => r | _ :: r' => r' end else r).
Proof.
  intros H. destruct b, r as [|[s p] r]; simpl in *; auto.
  destruct p; auto. by apply dash_ok_none.
Qed.

Lemma loop_same n ps1 ps2 pos ns ex :
  (List.length ps1 <= n)%nat -> same_args ps1 ps2 -> dash_ok ps1 -> loop ps1 pos ns ex = loop ps2 pos ns ex.
Proof.
  revert ps1 ps2 pos ns ex. induction n as [|n IH]; intros ps1 ps2 pos ns ex Hlen Hs Hd.
  all: destruct Hs as [|[s p] [s' p'] r1 r2 [Hp Hss] Hs]; [done|]; simpl in Hlen; try lia; simpl in Hp; subst p'.
  assert (same_args ((s, p) :: r1) ((s', p) :: r2)) as Hall by (constructor; [split; [done | exact Hss] | exact Hs]).
  cbn [loop]. rewrite (same_args_options _ _ Hall).
  destruct (negb _) eqn:No.
  { f_equal. apply negb_true_iff in No. rewrite <- (same_args_options _ _ Hall) in No.
    by rewrite (same_args_eq _ _ Hall No). }
  destruct p as [[a os [e|]|]| |]; simpl in Hd.
  - rewrite (explicit_tuples_same _ _ _ _ _ Hs). destruct (explicit_tuples _ _ _ _) as [r|]; [|done]. simpl.
    destruct (take_all _ _); [|done]. simpl. apply IH; [destruct (snd r), r1; simpl in *; lia | by apply skip_same | by apply dash_ok_skip].
  - rewrite (match_following_same _ _ _ Hs). destruct (match_following _ _) as [args|]; [|done]. simpl.
    destruct (take_optional a args ns); [|done]. simpl. apply IH; [destruct (took args), r1; simpl in *; lia | by apply skip_same | by apply dash_ok_skip].
  - simpl in Hss. destruct Hss as [<-|(? & ? & ? & ?)]; [|discriminate]. apply IH; auto; lia.
  - simpl in Hss. destruct Hss as [<-|(? & ? & ? & ?)]; [|discriminate]. destruct pos; apply IH; auto; lia.
  - exfalso. simpl in No. rewrite <- (same_args_options _ _ Hs), Hd in No. discriminate No.
Qed.


Lemma combine_mid {A B} (l1 : list A) (x : A) l2 (ps1 : list B) q ps2 :
  List.length l1 = List.length ps1 ->
  combine (l1 ++ x :: l2) (ps1 ++ q :: ps2) = (combine l1 ps1 ++ (x, q) :: combine l2 ps2)%list.
Proof.
  revert ps1. induction l1 as [|y l1 IH]; intros [|z ps1] H; simpl in *; try discriminate; [done|].
  f_equal. apply IH. lia.
Qed.

Lemma same_args_refl ps : same_args ps ps.
Proof. induction ps; constructor; auto. Qed.

Lemma abbrev_In p os : abbrev_of p os = true -> exists a, In (os, a) option_string_actions.
Proof.
  unfold abbrev_of. destruct (List.filter _ _) as [|[o a] [|]] eqn:F; rewrite ?andb_false_r; try discriminate.
  intros H. apply andb_prop in H as [_ H]. apply String.eqb_eq in H as <-. exists a.
  apply (filter_In (fun q => String.prefix p (fst q))). rewrite F. by left.
Qed.

Lemma option_strings_not_dashdash : Forall (fun q => String.eqb (fst q) "--" = false) option_string_actions.
Proof. unfold option_string_actions. simpl. repeat constructor. Qed.

(** C19. Abbreviations: a double-dash prefix of exactly one option
    string, written without [=] before any [--], is read as that option
    string: [--w 512] sets the width like [--width 512], [--neg x] the
    negative prompt. The command line the spec describes is a subset of
    what the parser accepts. *)
Theorem parse_args_abbrev l1 p os l2 :
  ~ In "--" l1 -> abbrev_of p os = true -> parse_args (l1 ++ p :: l2) = parse_args (l1 ++ os :: l2).
Proof.
  intros Hl Ha. pose proof (abbrev_parse_optional p os Ha) as Hpo.
  destruct (abbrev_In p os Ha) as [a Hin].
  assert (String.eqb os "--" = false) as Hos.
  { pose proof option_strings_not_dashdash as H. rewrite Forall_forall in H.
    exact (H (os, a) (proj2 (list_elem_of_In _ _) Hin)). }
  assert (String.eqb p "--" = false) as Hp.
  { destruct (String.eqb p "--") eqn:E; [|done]. apply String.eqb_eq in E as ->. vm_compute in Ha. discriminate Ha. }
  assert (parse_optional os = Ok (Some (Known a os None))) as Po.
  { pose proof option_strings_parse as H. rewrite Forall_forall in H.
    exact (H (os, a) (proj2 (list_elem_of_In _ _) Hin)). }
  unfold parse_args, parse_known_args. rewrite !classify_app_option by done. rewrite Hpo, Po.
  destruct (classify l1) as [ps1|] eqn:C1; [|done]. destruct (classify l2) as [ps2|] eqn:C2; [|done].
  cbn [res_bind pat_of].
  assert (classify (l1 ++ p :: l2) = Ok (ps1 ++ PO (Known a os None) :: ps2)%list) as Cp
    by (rewrite classify_app_option, C1, Hpo, Po, C2 by done; reflexivity).
  pose proof (classify_length _ _ C1) as L1.
  erewrite (loop_same _ (combine (l1 ++ p :: l2) _) (combine (l1 ++ os :: l2) _)); [done | done | |].
  - rewrite !combine_mid by done. apply Forall2_app; [apply same_args_refl|].
    constructor; [split; [done | right; eauto] | apply same_args_refl].
  - by apply classify_dash_ok in Cp.
Qed.

Lemma parse_args_abbrev_witness :
  ~ In "--" ["a cat"] /\ abbrev_of "--w" "--width" = true /\
  parse_args ["a cat"; "--w"; "512"] = parse_args ["a cat"; "--width"; "512"].
Proof.
  assert (~ In "--" ["a cat"]) as H1 by (simpl; intuition discriminate).
  assert (abbrev_of "--w" "--width" = true) as H2 by reflexivity.
  split; [exact H1 | split; [exact H2 | exact (parse_args_abbrev ["a cat"] "--w" "--width" ["512"] H1 H2)]].
Defined.


(** The option strings a double-dash string without [=] abbreviates. *)
Definition option_matches (p : string) : list string :=
  map fst (List.filter (fun q => String.prefix p (fst q)) option_string_actions).

Definition ambiguous_msg (p : string) : string :=
  "ambiguous option: " ++ p ++ " could match " ++ sep_concat ", " (option_matches p).

Lemma parse_optional_ambiguous p :
  String.prefix "--" p = true -> str_contains "=" p = false -> find_option p = None ->
  (2 <= List.length (option_matches p))%nat ->
  parse_optional p = Raise (ParserError (ambiguous_msg p)).
Proof.
  intros Hd He Fp Hl. apply split_at_None in He. unfold ambiguous_msg, option_matches in *.
  destruct p as [|c0 [|c1 r]]; cbn -[ascii_dec] in Hd; [discriminate | by destruct (ascii_dec _ _) |].
  destruct (ascii_dec "-" c0) as [<-|]; [|discriminate Hd]. destruct (ascii_dec "-" c1) as [<-|]; [|discriminate Hd].
  unfold parse_optional, get_option_tuples, split_eq in *. rewrite Fp, He.
  replace (Ascii.eqb "-" "-") with true by reflexivity.
  replace (String.eqb (String "-" r) "") with false by reflexivity. cbv beta iota zeta.
  destruct (List.filter _ _) as [|x [|y l]]; simpl in Hl; try lia.
  cbn [map]. by rewrite map_map.
Qed.

(** C20. An ambiguous abbreviation ([--s] could be [--steps], [--seed],
    [--style-preset] or [--safe-mode]) ends the parse with [parser.error]
    and the list of the option strings it could match, before any action
    is taken: the arguments before it are only classified, so not even a
    [-h] before it gets its help. *)
Theorem parse_args_ambiguous l1 ps1 p l2 :
  ~ In "--" l1 -> classify l1 = Ok ps1 -> p <> "--" ->
  String.prefix "--" p = true -> str_contains "=" p = false -> find_option p = None ->
  (2 <= List.length (option_matches p))%nat ->
  parse_args (l1 ++ p :: l2) = Raise (ParserError (ambiguous_msg p)).
Proof.
  intros Hl C1 Hp' Hd He Fp Hn.
  assert (String.eqb p "--" = false) as Hp by (by apply String.eqb_neq).
  unfold parse_args, parse_known_args. rewrite classify_app_option, C1, parse_optional_ambiguous by done.
  reflexivity.
Qed.

Lemma parse_args_ambiguous_witness :
  parse_args ["-h"; "--s"; "3"] = Raise (ParserError "ambiguous option: --s could match --steps, --seed, --style-preset, --safe-mode").
Proof.
  assert (ambiguous_msg "--s" = "ambiguous option: --s could match --steps, --seed, --style-preset, --safe-mode")
    as <- by reflexivity.
  apply (parse_args_ambiguous ["-h"] [PO (Known help_action "-h" None)] "--s" ["3"]); try reflexivity.
  - simpl. intuition discriminate.
  - discriminate.
  - vm_compute. lia.
Defined.

End Argparse.
