(* ===== verification/SaveImage.v ===== *)
(** * Saving the image under a fresh name

    [VeniceImageGenerator.save_image] (src/venice_image_gen.py, lines
    112-138). The file name is the [--output] path when it is truthy,
    otherwise ["{image_id}.{format_ext}"]; while [Path(filename).exists()],
    the name becomes ["{stem}_{counter}{suffix}"], where [stem] and
    [suffix] are those of the original name and [counter] counts from 1.

    - [PathLib] models what the loop uses of [pathlib.PurePosixPath]
      (CPython 3.12): the parsing of a path into its root and parts
      (empty and ["."] parts dropped), [str(path)], [name], and [stem] and
      [suffix], split at the last dot when it is neither the first nor the
      last character of the name.
    - [Collision] models the file system as the finite set of the
      [str(Path(...))] forms that exist, and the [while] loop as
      [find_free] with fuel.
    The decoding and the write of lines 130-138 are in [Client.save_image],
    which runs this loop against the disk of [World]. *)

From S2P Require Import Prelude.
From Stdlib Require Import ZArith String Ascii Lia.

Open Scope string_scope.
Open Scope py_scope.

Module PathLib.

(** The root [posixpath.splitroot] finds: two leading slashes are kept,
    one or three and more become one. *)
Definition root_of (s : string) : string :=
  if String.prefix "///" s then "/"
  else if String.prefix "//" s then "//"
  else if String.prefix "/" s then "/"
  else "".

Definition keep_part (p : string) : bool := negb (String.eqb p "" || String.eqb p ".").

(** The parts after the root: [Path("a//./b/")] has parts [a] and [b]. *)
Definition parts (s : string) : list string := List.filter keep_part (py_split "/" s).

(** [str(Path(s))], the form [Path.exists] passes to [os.stat]. *)
Definition path_str (s : string) : string :=
  let r := root_of s in
  let body := String.concat "/" (parts s) in
  if String.eqb r "" && String.eqb body "" then "." else r ++ body.

(** [Path(s).name]: the last part, or [""]. *)
Definition name (s : string) : string := default "" (last (parts s)).

Fixpoint rfind_go (c : ascii) (s : string) (i : nat) (acc : option nat) : option nat :=
  match s with
  | EmptyString => acc
  | String d s' => rfind_go c s' (S i) (if ascii_dec c d then Some i else acc)
  end.

(** [s.rfind(c)], [None] for [-1]. *)
Definition rfind (c : ascii) (s : string) : option nat := rfind_go c s 0 None.

(** The index of the dot that starts the suffix: [0 < i < len(name) - 1]. *)
Definition suffix_dot (n : string) : option nat :=
  match rfind "." n with
  | Some i => if Nat.ltb 0 i && Nat.ltb i (String.length n - 1) then Some i else None
  | None => None
  end.

(** [Path(s).suffix] *)
Definition suffix (s : string) : string :=
  let n := name s in
  match suffix_dot n with
  | Some i => substring i (String.length n - i) n
  | None => ""
  end.

(** [Path(s).stem] *)
Definition stem (s : string) : string :=
  let n := name s in
  match suffix_dot n with
  | Some i => substring 0 i n
  | None => n
  end.

(** ** Lemmas *)

Lemma substring_no_char c n m s :
  str_contains c s = false -> str_contains c (substring n m s) = false.
Proof.
  revert n m. induction s as [|d s IH]; intros n m H; [by destruct n, m|].
  simpl in H. destruct (ascii_dec c d) as [|Hne]; [discriminate|].
  destruct n as [|n], m as [|m]; simpl; auto.
  destruct (ascii_dec c d); [contradiction | auto].
Qed.

Lemma name_no_slash s : str_contains "/" (name s) = false.
Proof.
  unfold name. destruct (last (parts s)) as [n|] eqn:E; [|done]. simpl.
  apply last_Some_elem_of, list_elem_of_In in E. unfold parts in E.
  apply filter_In in E as [E _]. by apply py_split_pieces in E.
Qed.

Lemma name_no_char c s : str_contains c s = false -> str_contains c (name s) = false.
Proof.
  intros Hs. unfold name. destruct (last (parts s)) as [n|] eqn:E; [|done]. simpl.
  apply last_Some_elem_of, list_elem_of_In in E. unfold parts in E.
  apply filter_In in E as [E _]. by apply (py_split_pieces_char "/" c s).
Qed.

Lemma stem_no_char c s : str_contains c s = false -> str_contains c (stem s) = false.
Proof.
  intros Hs. unfold stem. pose proof (name_no_char c s Hs).
  destruct (suffix_dot (name s)); auto using substring_no_char.
Qed.

Lemma suffix_no_char c s : str_contains c s = false -> str_contains c (suffix s) = false.
Proof.
  intros Hs. unfold suffix. pose proof (name_no_char c s Hs).
  destruct (suffix_dot (name s)); auto using substring_no_char.
Qed.

Lemma stem_no_slash s : str_contains "/" (stem s) = false.
Proof.
  unfold stem. pose proof (name_no_slash s).
  destruct (suffix_dot (name s)); auto using substring_no_char.
Qed.

Lemma suffix_no_slash s : str_contains "/" (suffix s) = false.
Proof.
  unfold suffix. pose proof (name_no_slash s).
  destruct (suffix_dot (name s)); auto using substring_no_char.
Qed.

Lemma root_of_plain c s : c <> "/"%char -> root_of (String c s) = "".
Proof.
  intros Hc. unfold root_of. cbn -[ascii_dec].
  destruct (ascii_dec "/" c); [congruence | reflexivity].
Qed.

(** A name without a slash that is neither [""] nor ["."] is its own
    [str(Path(...))]. *)
Lemma path_str_plain s :
  str_contains "/" s = false -> s <> "" -> s <> "." -> path_str s = s.
Proof.
  intros Hs Hne Hdot. unfold path_str, parts.
  rewrite (py_split_no_sep _ _ Hs). simpl.
  unfold keep_part. destruct (String.eqb_spec s ""); [done|].
  destruct (String.eqb_spec s "."); [done|]. simpl.
  destruct s as [|c s']; [done|].
  rewrite root_of_plain; [reflexivity|].
  intros ->. cbn -[ascii_dec] in Hs. destruct (ascii_dec "/" "/"); [discriminate | done].
Qed.

End PathLib.

Module Collision.
Import PathLib.

(** The existing paths, as [str(Path(...))] forms. *)
Abbreviation fs := (gset string).

Definition exists_path (F : fs) (s : string) : bool := bool_decide (path_str s ∈ F).

(** [f"{name_part}_{counter}{ext_part}"] of line 127. *)
Definition candidate (original : string) (counter : Z) : string :=
  stem original ++ "_" ++ py_str_int counter ++ suffix original.

(** The [while] loop of lines 124-128, with fuel. *)
Fixpoint find_free (fuel : nat) (F : fs) (original filename : string) (counter : Z)
  : option string :=
  match fuel with
  | O => None
  | S fuel' =>
      if exists_path F filename
      then find_free fuel' F original (candidate original counter) (counter + 1)
      else Some filename
  end.

(** Lines 116-119: the [--output] path when truthy, else the default. *)
Definition initial_filename (output_path : option string) (image_id format_ext : string) : string :=
  match output_path with
  | Some p => if String.eqb p "" then image_id ++ "." ++ format_ext else p
  | None => image_id ++ "." ++ format_ext
  end.

(** Lines 116-128, with fuel for [size F + 2] iterations. *)
Definition unique_filename (F : fs) (output_path : option string) (image_id format_ext : string)
  : option string :=
  let filename := initial_filename output_path image_id format_ext in
  find_free (size F + 2) F filename filename 1.

(** ** Lemmas *)

Lemma candidate_no_slash original k : str_contains "/" (candidate original k) = false.
Proof.
  unfold candidate. rewrite !str_contains_app, stem_no_slash, suffix_no_slash.
  rewrite (pretty_Z_no_char "/"); done.
Qed.

(** A character that is not a digit, [-] or [_] is in a candidate only
    if it is in the original name. *)
Lemma candidate_no_char c original k :
  py_isdigit c = false -> c <> "-"%char -> c <> "_"%char -> str_contains c original = false ->
  str_contains c (candidate original k) = false.
Proof.
  intros Hd Hm Hu Ho. unfold candidate. rewrite !str_contains_app, stem_no_char, suffix_no_char by done.
  rewrite (pretty_Z_no_char c) by done. simpl. by destruct (ascii_dec c "_").
Qed.

Lemma candidate_long original k : (2 <= String.length (candidate original k))%nat.
Proof.
  unfold candidate, py_str_int. rewrite !string_app_length.
  pose proof (pretty_Z_nonempty k). destruct (pretty k); [done|]. simpl. lia.
Qed.

Lemma path_str_candidate original k : path_str (candidate original k) = candidate original k.
Proof.
  pose proof (candidate_long original k).
  apply path_str_plain; [apply candidate_no_slash | |]; intros Hc; rewrite Hc in *; simpl in *; lia.
Qed.

Lemma candidate_inj original j k : candidate original j = candidate original k -> j = k.
Proof.
  unfold candidate. intros H.
  apply string_app_inv_head, string_app_inv_head, string_app_inv_tail in H.
  by apply (inj pretty) in H.
Qed.

Lemma find_free_None_visits m (F : fs) original f c :
  find_free (S m) F original f c = None ->
  path_str f ∈ F /\
  forall i, (i < m)%nat -> path_str (candidate original (c + Z.of_nat i)) ∈ F.
Proof.
  revert f c. induction m as [|m IH]; intros f c H; simpl in H;
    unfold exists_path in H; case_bool_decide as Hf; try discriminate; split; auto.
  - intros i Hi. lia.
  - apply IH in H as [Hc Hrest]. intros [|i] Hi.
    + by rewrite Z.add_0_r.
    + replace (c + Z.of_nat (S i))%Z with (c + 1 + Z.of_nat i)%Z by lia. apply Hrest. lia.
Qed.

(** [n] consecutive candidates are [n] distinct existing paths. *)
Lemma candidates_size (F : fs) original c n :
  (forall i, (i < n)%nat -> path_str (candidate original (c + Z.of_nat i)) ∈ F) ->
  (n <= size F)%nat.
Proof.
  intros Hin.
  set (L := (fun i => candidate original (c + Z.of_nat i)) <$> seq 0 n).
  assert (NoDup L) as Hnd.
  { apply NoDup_fmap_2_strong; [|apply NoDup_seq].
    intros i j _ _ Hij%candidate_inj. lia. }
  assert (list_to_set L ⊆ F) as Hsub.
  { intros x Hx. apply elem_of_list_to_set, list_elem_of_fmap in Hx as (i & -> & Hi).
    apply elem_of_seq in Hi. rewrite <- path_str_candidate. apply Hin. lia. }
  apply subseteq_size in Hsub. rewrite size_list_to_set in Hsub by done.
  unfold L in Hsub. rewrite length_fmap, length_seq in Hsub. done.
Qed.

Lemma find_free_Some fuel (F : fs) original f c r :
  find_free fuel F original f c = Some r ->
  (path_str r ∉ F) /\
  (r = f \/ (path_str f ∈ F /\ exists k, (c <= k)%Z /\ r = candidate original k /\
               forall j, (c <= j < k)%Z -> path_str (candidate original j) ∈ F)).
Proof.
  revert f c. induction fuel as [|fuel IH]; intros f c H; simpl in H; [discriminate|].
  unfold exists_path in H. case_bool_decide as Hf.
  - apply IH in H as [Hr [-> | [Hc (k & Hk & -> & Hj)]]]; split; auto; right; split; auto.
    + exists c. split; [lia|]. split; [done|]. intros j Hj. lia.
    + exists k. split; [lia|]. split; [done|]. intros j Hjk.
      destruct (Z.eq_dec j c) as [->|]; [done|]. apply Hj. lia.
  - injection H as <-. auto.
Qed.

(** [size F + 2] iterations are enough: [size F + 1] consecutive
    candidates cannot all exist. *)
Lemma find_free_enough (F : fs) original f c :
  exists r, find_free (size F + 2) F original f c = Some r.
Proof.
  destruct (find_free _ _ _ _ _) as [r|] eqn:E; [eauto|exfalso].
  replace (size F + 2)%nat with (S (size F + 1)) in E by lia.
  apply find_free_None_visits in E as [_ Hc].
  apply candidates_size in Hc. lia.
Qed.

(** ** Properties *)

(** C5. The collision loop of [save_image] terminates on every finite
    file system: [size F + 2] iterations always find a free name, because
    the candidates ["{stem}_1{suffix}"], ["{stem}_2{suffix}"], ... are
    pairwise distinct. *)
Theorem unique_filename_total (F : fs) output_path image_id format_ext :
  exists r, unique_filename F output_path image_id format_ext = Some r.
Proof. unfold unique_filename. apply find_free_enough. Qed.

(** C6. The name [save_image] picks does not exist; it is the requested
    name when that one is free, and otherwise the first candidate
    ["{stem}_{k}{suffix}"], [k >= 1], that is free: all the earlier ones
    exist. *)
Theorem unique_filename_fresh (F : fs) output_path image_id format_ext r :
  unique_filename F output_path image_id format_ext = Some r ->
  let f := initial_filename output_path image_id format_ext in
  (path_str r ∉ F) /\
  (r = f \/ (path_str f ∈ F /\ exists k, (1 <= k)%Z /\ r = candidate f k /\
               forall j, (1 <= j < k)%Z -> path_str (candidate f j) ∈ F)).
Proof. apply find_free_Some. Qed.

Lemma unique_filename_fresh_witness :
  unique_filename {["out/cat.png"; "cat_1.png"]} (Some "out/cat.png") "id" "jpeg" = Some "cat_2.png"
  /\ path_str "cat_2.png" ∉ ({["out/cat.png"; "cat_1.png"]} : fs).
Proof.
  assert (unique_filename {["out/cat.png"; "cat_1.png"]} (Some "out/cat.png") "id" "jpeg"
          = Some "cat_2.png") as H by reflexivity.
  split; [exact H|]. exact (proj1 (unique_filename_fresh _ _ _ _ _ H)).
Defined.

(** C36. When the requested path exists, the name chosen instead has no
    directory part: [--output out/cat.png] colliding is saved as
    [cat_1.png] in the working directory, not in [out/]. *)
Theorem collision_leaves_directory (F : fs) output_path image_id format_ext r :
  unique_filename F output_path image_id format_ext = Some r ->
  path_str (initial_filename output_path image_id format_ext) ∈ F ->
  str_contains "/" r = false.
Proof.
  intros H Hf. apply find_free_Some in H as [Hr [-> | [_ (k & _ & -> & _)]]].
  - contradiction.
  - apply candidate_no_slash.
Qed.

Lemma collision_leaves_directory_witness :
  unique_filename {["out/cat.png"]} (Some "out/cat.png") "id" "jpeg" = Some "cat_1.png"
  /\ str_contains "/" "cat_1.png" = false.
Proof.
  assert (unique_filename {["out/cat.png"]} (Some "out/cat.png") "id" "jpeg" = Some "cat_1.png")
    as H by reflexivity.
  split; [exact H|]. apply (collision_leaves_directory _ _ _ _ _ H). set_solver.
Defined.

End Collision.
