(* ===== verification/World.v ===== *)
(** * The program's environment and its effects

    [main] (src/venice_image_gen.py, lines 171-291) reads the
    environment variable [VENICE_API_KEY], sends HTTP requests through
    [requests], tests paths with [Path.exists], writes one file with
    [open(filename, 'wb')], prints to standard output and standard
    error, and ends with [sys.exit] or an uncaught exception. This file
    holds the state these effects act on, [world], and the state and
    exception monad [prog] the components are written in:
    - the file system [disk]: the regular files with their bytes, the
      directories, and the directories in which creating a file is
      refused; [exists_on] is [Path.exists] and [open_write] is
      [open(p, 'wb').write(data)] with the errors of the POSIX [open]
      call as CPython reports them ([FileNotFoundError],
      [NotADirectoryError], [IsADirectoryError], [PermissionError], and
      [ValueError] for a name with a NUL character);
    - the HTTP service: before anything is sent, [requests.post]
      encodes its [json=] payload with [json.dumps(payload,
      allow_nan=False)] ([prepare], [JsonText.encode]) and raises
      [InvalidJSONError] when that fails; the transport, the redirects
      and the server are the function [service] of the world from the
      request to its outcome, a [response] (its status, reason, URL and
      text; [response.json()] is computed from the text by the client)
      or a [requests.RequestException] with the attributes the program
      reads; the requests sent are logged in [sent];
    - the output: the lines printed, in order, each with its stream, and
      the exception that ends the process uncaught.
    Symbolic links and [..] are not resolved: a path is its
    [str(Path(p))] form. *)

From S2P Require Import Prelude.
From S2P Require Import PyFloat.
From S2P Require Import Payload.
From S2P Require Import Json.
From S2P Require Import JsonText.
From S2P Require Import SaveImage.
From Stdlib Require Import ZArith String Ascii Lia.

Open Scope string_scope.
Open Scope py_scope.

Module World.
Import PyJson PathLib JsonText.

(** ** The file system *)

Record disk : Type := mkDisk {
  files : gmap string (list Z);
  dirs : gset string;
  ro_dirs : gset string
}.

(** The paths that exist, in their [str(Path(p))] form. *)
Definition existing (d : disk) : gset string := dom (files d) ∪ dirs d.

Definition nul : ascii := ascii_of_nat 0.

(** [Path(p).exists()]. A name with a NUL character, which [os.stat]
    rejects and [exists] answers [False] for, is never the name of an
    existing path. *)
Definition exists_on (d : disk) (p : string) : bool :=
  bool_decide (path_str p ∈ existing d).

(** The directories that lead to [p], from the first part on. *)
Definition ancestors (p : string) : list string :=
  let r := root_of p in
  let ps := parts p in
  map (fun i => path_str (r ++ String.concat "/" (firstn i ps))) (seq 1 (List.length ps - 1)).

(** [Path(p).parent] in [str] form. *)
Definition parent (p : string) : string :=
  match last (ancestors p) with
  | Some a => a
  | None => if String.eqb (root_of p) "" then "." else root_of p
  end.

(** The error of the path lookup: the first ancestor that is not a
    directory is a file ([ENOTDIR]) or missing ([ENOENT]). *)
Fixpoint lookup_error (d : disk) (as_ : list string) (fname : string) : option exn :=
  match as_ with
  | [] => None
  | a :: as' =>
      if bool_decide (a ∈ dirs d) then lookup_error d as' fname
      else if bool_decide (a ∈ dom (files d)) then Some (OSError 20 "Not a directory" fname)
      else Some (OSError 2 "No such file or directory" fname)
  end.

(** The name ends with the character [c]. *)
Fixpoint ends_with (c : ascii) (s : string) : bool :=
  match s with
  | EmptyString => false
  | String d EmptyString => Ascii.eqb c d
  | String _ s' => ends_with c s'
  end.

(** The name ends with ["/."]. *)
Fixpoint ends_slash_dot (s : string) : bool :=
  match s with
  | String a (String b EmptyString) => Ascii.eqb a "/" && Ascii.eqb b "."
  | String _ s' => ends_slash_dot s'
  | EmptyString => false
  end.

(** [with open(fname, 'wb') as f: f.write(data)]: Linux [open] with
    [O_WRONLY|O_CREAT|O_TRUNC]. The empty name is [ENOENT]; the
    directories on the path are looked up first; a last part ["."]
    is looked up as a directory too; then a last part that is a
    directory, ["."] or followed by a slash is [EISDIR] (with [O_CREAT]
    a trailing slash is refused even when no such path exists); a new
    file in a directory that refuses creation is [EACCES]. *)
Definition open_write (d : disk) (fname : string) (data : list Z) : res disk :=
  let p := path_str fname in
  let dot := String.eqb fname "." || ends_slash_dot fname in
  if str_contains nul fname then Raise (ValueError "embedded null byte")
  else if String.eqb fname "" then Raise (OSError 2 "No such file or directory" fname)
  else match lookup_error d (if dot then (ancestors fname ++ [p])%list else ancestors fname) fname with
  | Some e => Raise e
  | None =>
      if dot || ends_with "/" fname || bool_decide (p ∈ dirs d) then Raise (OSError 21 "Is a directory" fname)
      else if bool_decide (p ∉ dom (files d)) && bool_decide (parent fname ∈ ro_dirs d)
      then Raise (OSError 13 "Permission denied" fname)
      else Ok (mkDisk (<[p := data]> (files d)) (dirs d) (ro_dirs d))
  end.

(** ** HTTP *)

Definition headers := list (string * string).

(** What the program passes to [requests]. *)
Inductive http_request : Type :=
| Get (url : string) (hdrs : headers) (params : list (string * string))
| Post (url : string) (body : Dict.dict) (hdrs : headers).

(** A [requests.Response], with what the program reads of it. Its
    text is one the model decodes ([JsonText.in_model]: no [\uXXXX]
    escape beyond the model's characters). *)
Record response : Type := mkResponse {
  status_code : Z;
  reason : string;
  url : string;
  text : string;
  text_in_model : in_model text = true
}.

(** A [requests.RequestException]: its class name, [str(e)] and its
    [response] attribute ([None] for transport errors, the last redirect
    for [TooManyRedirects], the response for [HTTPError]). *)
Inductive req_exn : Type :=
| RequestException (kind : string) (msg : string) (resp : option response).

Inductive http_outcome : Type :=
| Returned (r : response)
| Failed (e : req_exn).

(** ** The world *)

Inductive stream : Type := Stdout | Stderr.

Inductive event : Type :=
| Line (st : stream) (s : string)
  (** argparse's usage message on standard error, and its help text on
      standard output: both generated from the parser's arguments *)
| Usage
| HelpText
  (** the interpreter's report of an exception that ends the program *)
| Traceback (e : exn).

Record world : Type := mkWorld {
  api_key : option string;
  disk_of : disk;
  service : http_request -> http_outcome;
  sent : list http_request;
  events : list event
}.

Definition with_disk (w : world) (d : disk) : world :=
  mkWorld (api_key w) d (service w) (sent w) (events w).
Definition with_event (w : world) (e : event) : world :=
  mkWorld (api_key w) (disk_of w) (service w) (sent w) (events w ++ [e]).
Definition with_sent (w : world) (rq : http_request) : world :=
  mkWorld (api_key w) (disk_of w) (service w) (sent w ++ [rq]) (events w).

(** ** The monad *)

Definition prog (A : Type) : Type := world -> res A * world.

Definition ret {A} (a : A) : prog A := fun w => (Ok a, w).

Definition bind {A B} (c : prog A) (k : A -> prog B) : prog B :=
  fun w => match c w with
           | (Ok a, w') => k a w'
           | (Raise e, w') => (Raise e, w')
           end.

Declare Scope prog_scope.
Delimit Scope prog_scope with prog.
Notation "x <~ c ;; k" := (bind c (fun x => k))
  (at level 100, c at next level, right associativity) : prog_scope.
Notation "c ;;; k" := (bind c (fun _ : unit => k))
  (at level 100, right associativity) : prog_scope.
Open Scope prog_scope.

Definition lift {A} (r : res A) : prog A := fun w => (r, w).
Definition throw {A} (e : exn) : prog A := lift (Raise e).

Definition emit (ev : event) : prog unit := fun w => (Ok tt, with_event w ev).

(** [print(s)] and [print(s, file=sys.stderr)]. *)
Definition print (s : string) : prog unit := emit (Line Stdout s).
Definition eprint (s : string) : prog unit := emit (Line Stderr s).

(** [sys.exit(n)] *)
Definition sys_exit {A} (n : Z) : prog A := throw (SystemExit n).

(** [os.getenv("VENICE_API_KEY")] *)
Definition getenv_key : prog (option string) := fun w => (Ok (api_key w), w).

Definition path_exists (p : string) : prog bool := fun w => (Ok (exists_on (disk_of w) p), w).

Definition write_file (fname : string) (data : list Z) : prog unit :=
  fun w => match open_write (disk_of w) fname data with
           | Ok d => (Ok tt, with_disk w d)
           | Raise e => (Raise e, w)
           end.

(** [PreparedRequest.prepare_body]: the [json=] payload of a POST is
    encoded with [json.dumps(payload, allow_nan=False)]; its
    [ValueError] becomes an [InvalidJSONError], a [RequestException]
    without a response, raised before anything is sent. *)
Definition prepare (rq : http_request) : option req_exn :=
  match rq with
  | Get _ _ _ => None
  | Post _ body _ =>
      match encode (dict_json body) with
      | Ok _ => None
      | Raise e => Some (RequestException "InvalidJSONError" (exn_str e) None)
      end
  end.

(** The body [requests] sends for a POST: the JSON text of the payload. *)
Definition wire_body (rq : http_request) : option string :=
  match rq with
  | Get _ _ _ => None
  | Post _ body _ => match encode (dict_json body) with Ok t => Some t | Raise _ => None end
  end.

(** One call of [requests.get] or [requests.post]. *)
Definition http (rq : http_request) : prog http_outcome :=
  fun w => match prepare rq with
           | Some e => (Ok (Failed e), w)
           | None => (Ok (service w rq), with_sent w rq)
           end.

(** [try: c  except Exception as e: h(e)]: [SystemExit] is not an
    [Exception] and passes through. *)
Definition is_exception (e : exn) : bool :=
  match e with SystemExit _ => false | _ => true end.

Definition try_except {A} (c : prog A) (h : exn -> prog A) : prog A :=
  fun w => match c w with
           | (Raise e, w') => if is_exception e then h e w' else (Raise e, w')
           | r => r
           end.

Lemma bind_Ok_inv {A B} (c : prog A) (k : A -> prog B) w b w' :
  bind c k w = (Ok b, w') -> exists a w1, c w = (Ok a, w1) /\ k a w1 = (Ok b, w').
Proof. unfold bind. destruct (c w) as [[a|e] w1]; [eauto|discriminate]. Qed.

Lemma bind_Ok {A B} (c : prog A) (k : A -> prog B) w a w1 :
  c w = (Ok a, w1) -> bind c k w = k a w1.
Proof. unfold bind. by intros ->. Qed.

Lemma bind_Raise {A B} (c : prog A) (k : A -> prog B) w e w1 :
  c w = (Raise e, w1) -> bind c k w = (Raise e, w1).
Proof. unfold bind. by intros ->. Qed.

Lemma bind_assoc {A B C} (c : prog A) (k1 : A -> prog B) (k2 : B -> prog C) w :
  bind (bind c k1) k2 w = bind c (fun a => bind (k1 a) k2) w.
Proof. unfold bind. by destruct (c w) as [[a|e] w1]. Qed.

Lemma lift_Ok_inv {A} (r : res A) w a w' : lift r w = (Ok a, w') -> r = Ok a /\ w' = w.
Proof. unfold lift. intros H. by simplify_eq. Qed.

Lemma bind_lift_Ok {A B} (r : res A) (k : A -> prog B) w a : r = Ok a -> bind (lift r) k w = k a w.
Proof. by intros ->. Qed.

(** Takes one [bind] apart in a hypothesis [bind c k w = (Ok b, w')]. *)
Ltac bind_inv H :=
  let a := fresh "a" in let w1 := fresh "w" in let Hc := fresh "Hc" in
  apply bind_Ok_inv in H as (a & w1 & Hc & H).

(** ** Writing a plain name *)

Lemma ancestors_plain f : str_contains "/" f = false -> f <> "" -> f <> "." -> ancestors f = [].
Proof.
  intros Hs Hne Hd. unfold ancestors, parts. rewrite (py_split_no_sep _ _ Hs). simpl.
  unfold keep_part. destruct (String.eqb_spec f ""); [done|]. by destruct (String.eqb_spec f ".").
Qed.

Lemma parent_plain f : str_contains "/" f = false -> f <> "" -> f <> "." -> parent f = ".".
Proof.
  intros Hs Hne Hd. unfold parent. rewrite ancestors_plain by done. simpl.
  destruct f as [|c f']; [done|]. rewrite root_of_plain; [done|].
  intros ->. cbn -[ascii_dec] in Hs. by destruct (ascii_dec "/" "/").
Qed.

Lemma ends_with_contains c s : ends_with c s = true -> str_contains c s = true.
Proof.
  induction s as [|d s IH]; [done|]. cbn -[ascii_dec]. destruct (ascii_dec c d) as [->|Hne]; [done|].
  destruct s as [|e s']; [intros H; by apply Ascii.eqb_eq in H | apply IH].
Qed.

Lemma ends_slash_dot_contains s : ends_slash_dot s = true -> str_contains "/" s = true.
Proof.
  induction s as [|d s IH]; [done|]. cbn -[ascii_dec]. destruct (ascii_dec "/" d) as [->|Hne]; [done|].
  destruct s as [|e s']; [done|].
  destruct s' as [|e' s'']; [intros H; apply andb_prop in H as [H _]; by apply Ascii.eqb_eq in H | apply IH].
Qed.

(** [open(f, 'wb')] on a name without a directory part, in a working
    directory where files may be created, writes the file. *)
Lemma open_write_plain d f data :
  str_contains "/" f = false -> str_contains nul f = false -> f <> "" -> f <> "." ->
  f ∉ dirs d -> "." ∉ ro_dirs d ->
  open_write d f data = Ok (mkDisk (<[f := data]> (files d)) (dirs d) (ro_dirs d)).
Proof.
  intros Hs Hn Hne Hd Hdir Hro. unfold open_write. rewrite Hn, ancestors_plain, parent_plain by done.
  rewrite path_str_plain by done.
  destruct (String.eqb_spec f "") as [|_]; [done|]. destruct (String.eqb_spec f ".") as [|_]; [done|].
  destruct (ends_slash_dot f) eqn:E1; [apply ends_slash_dot_contains in E1; congruence|].
  destruct (ends_with "/" f) eqn:E2; [apply ends_with_contains in E2; congruence|]. simpl.
  rewrite bool_decide_eq_false_2 by done. by rewrite (bool_decide_eq_false_2 ("." ∈ ro_dirs d)), andb_false_r.
Qed.

(** The errors of [open(n, 'wb')] on Linux in a directory holding a file
    [f] and a directory [d], for names with a trailing slash or ["/."]:
    [IsADirectoryError] (21), [FileNotFoundError] (2),
    [NotADirectoryError] (20), as CPython 3.11 raises them. *)
Example open_write_trailing :
  map (fun n => match open_write (mkDisk {["f" := []]} {["."; "d"]} ∅) n [1%Z] with
                | Raise (OSError k _ _) => k | _ => 0%Z end)
      ["new.png/"; "f/"; "d/"; "new.png/."; "f/."; "d/."; "new.png//"; "sub/x/"; "f/x/"; ""]
  = [21; 21; 21; 2; 20; 21; 21; 2; 20; 2]%Z.
Proof. vm_compute. reflexivity. Qed.

(** ** Footprints

    Which parts of the world a computation may change: [frame proj c]
    says that [c] leaves the component [proj] unchanged, and
    [at_most_one proj S c] that it changes it by at most one [S] step.
    The lemmas below compose them through [bind], so that the footprint
    of a whole handler is found by [footprint] from those of its
    effects. *)

Definition frame {T A} (proj : world -> T) (c : prog A) : Prop :=
  forall w, proj (snd (c w)) = proj w.

Definition at_most_one {T A} (proj : world -> T) (S : T -> T -> Prop) (c : prog A) : Prop :=
  forall w, proj (snd (c w)) = proj w \/ S (proj w) (proj (snd (c w))).

(** One more request sent. *)
Definition one_request (l l' : list http_request) : Prop := exists rq, l' = (l ++ [rq])%list.

(** One new file, at a path that did not exist, and nothing else changed. *)
Definition fresh_write (d d' : disk) : Prop :=
  exists p data, (p ∉ existing d) /\ d' = mkDisk (<[p := data]> (files d)) (dirs d) (ro_dirs d).

Section Footprint.
Context {T : Type} (proj : world -> T).
Hypothesis proj_event : forall w ev, proj (with_event w ev) = proj w.

Lemma frame_ret {A} (a : A) : frame proj (ret a).
Proof. by intros w. Qed.

Lemma frame_lift {A} (r : res A) : frame proj (lift r).
Proof. by intros w. Qed.

Lemma frame_throw {A} e : frame proj (@throw A e).
Proof. by intros w. Qed.

Lemma frame_sys_exit {A} n : frame proj (@sys_exit A n).
Proof. by intros w. Qed.

Lemma frame_emit ev : frame proj (emit ev).
Proof. intros w. apply proj_event. Qed.

Lemma frame_print s : frame proj (print s).
Proof. apply frame_emit. Qed.

Lemma frame_eprint s : frame proj (eprint s).
Proof. apply frame_emit. Qed.

Lemma frame_getenv : frame proj getenv_key.
Proof. by intros w. Qed.

Lemma frame_path_exists p : frame proj (path_exists p).
Proof. by intros w. Qed.

Lemma frame_bind {A B} (c : prog A) (k : A -> prog B) :
  frame proj c -> (forall a, frame proj (k a)) -> frame proj (bind c k).
Proof.
  intros Hc Hk w. specialize (Hc w). unfold bind.
  destruct (c w) as [[a|e] w'] eqn:E; simpl in *; [rewrite Hk|]; done.
Qed.

Lemma frame_try {A} (c : prog A) h :
  frame proj c -> (forall e, frame proj (h e)) -> frame proj (try_except c h).
Proof.
  intros Hc Hh w. specialize (Hc w). unfold try_except.
  destruct (c w) as [[a|e] w'] eqn:E; simpl in *; [done|].
  destruct (is_exception e); simpl; [rewrite Hh|]; done.
Qed.

Context (S : T -> T -> Prop).

Lemma one_of_frame {A} (c : prog A) : frame proj c -> at_most_one proj S c.
Proof. intros Hc w. left. apply Hc. Qed.

Lemma one_bind_l {A B} (c : prog A) (k : A -> prog B) :
  at_most_one proj S c -> (forall a, frame proj (k a)) -> at_most_one proj S (bind c k).
Proof.
  intros Hc Hk w. specialize (Hc w). unfold bind.
  destruct (c w) as [[a|e] w'] eqn:E; simpl in *; [rewrite Hk|]; done.
Qed.

Lemma one_bind_r {A B} (c : prog A) (k : A -> prog B) :
  frame proj c -> (forall a, at_most_one proj S (k a)) -> at_most_one proj S (bind c k).
Proof.
  intros Hc Hk w. specialize (Hc w). unfold bind.
  destruct (c w) as [[a|e] w'] eqn:E; simpl in *; [|by left].
  rewrite <- Hc. apply Hk.
Qed.

Lemma one_try {A} (c : prog A) h :
  at_most_one proj S c -> (forall e, frame proj (h e)) -> at_most_one proj S (try_except c h).
Proof.
  intros Hc Hh w. specialize (Hc w). unfold try_except.
  destruct (c w) as [[a|e] w'] eqn:E; simpl in *; [done|].
  destruct (is_exception e); simpl; [rewrite Hh|]; done.
Qed.

End Footprint.

Lemma http_frame_disk rq : frame disk_of (http rq).
Proof. intros w. unfold http. by destruct (prepare rq). Qed.

Lemma http_one_request rq : at_most_one sent one_request (http rq).
Proof. intros w. unfold http. destruct (prepare rq); [by left|]. right. by exists rq. Qed.

Lemma write_file_frame_sent f data : frame sent (write_file f data).
Proof.
  intros w. unfold write_file. by destruct (open_write (disk_of w) f data).
Qed.

Create HintDb footprint discriminated.
#[export] Hint Resolve frame_ret frame_lift frame_throw frame_sys_exit frame_emit frame_print
  frame_eprint frame_getenv frame_path_exists frame_bind frame_try
  one_of_frame one_bind_l one_bind_r one_try
  http_frame_disk http_one_request write_file_frame_sent : footprint.
#[export] Hint Extern 1 (forall _ _, _ = _) => intros; reflexivity : footprint.

(** The footprint of a composite computation: through [bind], [try],
    the branches of [if] and [match], down to the hints. *)
Ltac footprint :=
  repeat match goal with
  | |- forall _, _ => intros
  | |- frame _ (bind _ _) => apply frame_bind
  | |- frame _ (try_except _ _) => apply frame_try
  | |- at_most_one _ _ (bind _ _) =>
      first [ apply one_bind_r; [solve [footprint] |] | apply one_bind_l ]
  | |- at_most_one _ _ (try_except _ _) => apply one_try
  | |- _ => solve [eauto with footprint]
  | |- _ => case_match
  end.

(** A successful [open(f, 'wb')] writes a path that is not a directory. *)
Lemma open_write_Ok d f data d' :
  open_write d f data = Ok d' ->
  (path_str f ∉ dirs d) /\ d' = mkDisk (<[path_str f := data]> (files d)) (dirs d) (ro_dirs d).
Proof.
  unfold open_write. intros Hw. repeat case_match; simplify_eq; split; auto.
  match goal with H : _ || bool_decide (path_str f ∈ dirs d) = false |- _ =>
    apply orb_false_iff in H as [_ H]; by apply bool_decide_eq_false in H end.
Qed.

End World.
