(* ===== verification/Client.v ===== *)
(** * The API client: [VeniceImageGenerator]

    The class of lines 19-138 of src/venice_image_gen.py, its three
    methods written in the [prog] monad of [World]:
    - [list_models] (lines 48-71): one GET of [{BASE_URL}/models] with
      [type=image]; the decoded body is printed with [json.dumps] when
      [verbose], else as one line per model;
    - [generate_image] (lines 73-110): one POST of the payload of
      [Request.build_payload] to [{BASE_URL}/image/generate]; a
      [RequestException] is reported, with the error body of
      [e.response] when that response is truthy, and ends the process
      with [sys.exit(1)];
    - [save_image] (lines 112-138): the collision loop of
      [Collision.find_free] against the disk, then [base64.b64decode]
      and the write, any [Exception] of which is reported and ends the
      process with [sys.exit(1)].
    What [requests] does between the call and the [response] is the
    world's [service]; what it does with the response is written out:
    [Response.raise_for_status], [Response.__bool__], which is
    [Response.ok], false exactly when [raise_for_status] raises, and
    [Response.json()], which is [json.loads] of the text
    ([JsonText.loads]), its [JSONDecodeError] turned into requests'
    [JSONDecodeError] and any other exception let through. Before
    sending, the POST body is [json.dumps] of the payload
    ([World.prepare]); [generate_request_wire] shows that the text sent
    decodes to exactly the payload. *)

From S2P Require Import Prelude.
From S2P Require Import PyFloat.
From S2P Require Import Payload.
From S2P Require Import Base64.
From S2P Require Import PyRepr.
From S2P Require Import Json.
From S2P Require Import JsonText.
From S2P Require Import SaveImage.
From S2P Require Import World.
From Stdlib Require Import ZArith String Ascii Lia.

Open Scope string_scope.
Open Scope py_scope.
Open Scope prog_scope.

Module Client.
Import Dict Request PathLib Collision Base64 World PyJson JsonText.

Definition BASE_URL : string := "https://api.venice.ai/api/v1".

(** [self.headers] of [__init__] (lines 43-46). *)
Definition client_headers (api_key : string) : headers :=
  [("Authorization", "Bearer " ++ api_key); ("Content-Type", "application/json")].

(** [requests.Response.raise_for_status]: an [HTTPError] carrying the
    response for a status in 400-599. *)
Definition raise_for_status (r : response) : option req_exn :=
  let s := status_code r in
  if Z.leb 400 s && Z.ltb s 500 then
    Some (RequestException "HTTPError"
            (pretty s ++ " Client Error: " ++ reason r ++ " for url: " ++ url r) (Some r))
  else if Z.leb 500 s && Z.ltb s 600 then
    Some (RequestException "HTTPError"
            (pretty s ++ " Server Error: " ++ reason r ++ " for url: " ++ url r) (Some r))
  else None.

(** [bool(response)], that is [response.ok]. *)
Definition resp_ok (r : response) : bool :=
  match raise_for_status r with None => true | Some _ => false end.

(** [response.json()]: [json.loads] of the text; its
    [JSONDecodeError] becomes requests' [JSONDecodeError], a
    [RequestException] without a response; any other exception of
    [json.loads] (an int beyond 4300 digits) passes through. *)
Definition response_json (r : response) : res (json + req_exn) :=
  match loads (text r) with
  | Ok v => Ok (inl v)
  | Raise (JSONDecodeError m) => Ok (inr (RequestException "JSONDecodeError" m None))
  | Raise e => Raise e
  end.

Definition req_str (e : req_exn) : string :=
  match e with RequestException _ m _ => m end.

(** The [RequestException]-raising part of both [try] blocks: the call,
    [response.raise_for_status()] and [response.json()]. *)
Definition request_json (rq : http_request) : prog (json + req_exn) :=
  o <~ http rq ;;
  match o with
  | Failed e => ret (inr e)
  | Returned r =>
      match raise_for_status r with
      | Some e => ret (inr e)
      | None => lift (response_json r)
      end
  end.

(** ** [list_models] *)

(** The line of one model (lines 64-67). *)
Definition model_line (m : json) : res string :=
  model_id <- get m "id" (JStr "unknown") ;;
  spec <- get m "model_spec" (JDict []) ;;
  traits <- get spec "traits" (JList []) ;;
  traits_str <- (if truthy traits then (s <- join ", " traits ;; Ok (" (" ++ s ++ ")")) else Ok "") ;;
  Ok ("  - " ++ py_str model_id ++ traits_str).

Fixpoint print_models (ms : list json) : prog unit :=
  match ms with
  | [] => ret tt
  | m :: ms' => line <~ lift (model_line m) ;; print line ;;; print_models ms'
  end.

Definition models_request (api_key : string) : http_request :=
  Get (BASE_URL ++ "/models") (client_headers api_key) [("type", "image")].

Definition list_models (api_key : string) (verbose : bool) : prog unit :=
  r <~ request_json (models_request api_key) ;;
  match r with
  | inr e => eprint ("Error fetching models: " ++ req_str e) ;;; sys_exit 1
  | inl data =>
      if verbose then print (dumps data)
      else
        print "Available models:" ;;;
        ms <~ lift (get data "data" (JList [])) ;;
        items <~ lift (iter ms) ;;
        print_models items
  end.

(** ** [generate_image] *)

Definition generate_request (api_key prompt model : string) (kwargs : dict) : http_request :=
  Post (BASE_URL ++ "/image/generate") (build_payload prompt model kwargs) (client_headers api_key).

(** Lines 105-109: [e.response.json()], or its text when that raises. *)
Definition report_response (r : response) : prog unit :=
  match loads (text r) with
  | Ok d => eprint ("API Error: " ++ py_str d)
  | Raise _ => eprint ("Response: " ++ text r)
  end.

(** Lines 102-110. *)
Definition generate_failed {A} (e : req_exn) : prog A :=
  eprint ("Error generating image: " ++ req_str e) ;;;
  (match e with
   | RequestException _ _ (Some r) => if resp_ok r then report_response r else ret tt
   | RequestException _ _ None => ret tt
   end) ;;;
  sys_exit 1.

Definition generate_image (api_key prompt model : string) (kwargs : dict) : prog json :=
  r <~ request_json (generate_request api_key prompt model kwargs) ;;
  match r with
  | inl result => ret result
  | inr e => generate_failed e
  end.

(** ** [save_image] *)

(** [base64.b64decode(v)] of a decoded JSON value: a str, or the
    [TypeError] of a value that is neither str nor bytes-like. *)
Definition b64decode_json (v : json) : res (list Z) :=
  match v with
  | JStr s => b64decode s
  | _ => Raise (TypeError ("argument should be a bytes-like object or ASCII string, not '"
                            ++ type_name v ++ "'"))
  end.

(** The [while Path(filename).exists()] loop of lines 124-128. *)
Fixpoint find_free_io (fuel : nat) (original filename : string) (counter : Z) : prog (option string) :=
  match fuel with
  | O => ret None
  | S fuel' =>
      e <~ path_exists filename ;;
      if e then find_free_io fuel' original (candidate original counter) (counter + 1)
      else ret (Some filename)
  end.

(** The fuel of the loop: more iterations than there are paths. *)
Definition loop_fuel : prog nat := fun w => (Ok (size (existing (disk_of w)) + 2)%nat, w).

(** Lines 130-138. *)
Definition decode_and_write (base64_data : json) (filename : string) : prog string :=
  try_except
    (data <~ lift (b64decode_json base64_data) ;;
     write_file filename data ;;;
     ret filename)
    (fun e => eprint ("Error saving image: " ++ exn_str e) ;;; sys_exit 1).

Definition save_image (base64_data : json) (output_path : option string) (image_id : json)
    (format_ext : string) : prog string :=
  let filename := initial_filename output_path (py_str image_id) format_ext in
  fuel <~ loop_fuel ;;
  found <~ find_free_io fuel filename filename 1 ;;
  match found with
  | Some f => decode_and_write base64_data f
  | None => sys_exit 1   (* never taken: [Collision.unique_filename_total] *)
  end.

(** ** Lemmas *)

Lemma raise_for_status_Some r :
  (exists e, raise_for_status r = Some e) <-> (400 <= status_code r < 600)%Z.
Proof.
  unfold raise_for_status. cbv zeta.
  destruct (Z.leb_spec 400 (status_code r)) as [H1|H1], (Z.leb_spec 500 (status_code r)) as [H4|H4], (Z.ltb_spec (status_code r) 500) as [H2|H2],
    (Z.ltb_spec (status_code r) 600) as [H3|H3]; simpl; split; intros Hs;
    try (destruct Hs; discriminate); try (eexists; reflexivity); lia.
Qed.

(** The [HTTPError] carries the response it was raised for. *)
Lemma raise_for_status_response r e :
  raise_for_status r = Some e -> exists k m, e = RequestException k m (Some r).
Proof. unfold raise_for_status. intros Hr. repeat case_match; simplify_eq; eauto. Qed.

Lemma resp_ok_false r : resp_ok r = false <-> (400 <= status_code r < 600)%Z.
Proof.
  rewrite <- raise_for_status_Some. unfold resp_ok.
  destruct (raise_for_status r); split; intros Hs; try done; [eauto | by destruct Hs].
Qed.

Lemma request_json_eq rq w :
  prepare rq = None ->
  request_json rq w =
    (match service w rq with
     | Failed e => Ok (inr e)
     | Returned r => match raise_for_status r with Some e => Ok (inr e) | None => response_json r end
     end, with_sent w rq).
Proof.
  intros Hp. unfold request_json, bind, http. rewrite Hp.
  destruct (service w rq) as [r|e]; [|done]. by destruct (raise_for_status r).
Qed.

(** A payload [json.dumps] refuses is reported before anything is sent. *)
Lemma request_json_unprepared rq w e :
  prepare rq = Some e -> request_json rq w = (Ok (inr e), w).
Proof. intros Hp. unfold request_json, bind, http. by rewrite Hp. Qed.

(** The loop reads the disk and nothing else: it computes
    [Collision.find_free] on the set of existing paths. *)
Lemma find_free_io_eq fuel original f c w :
  find_free_io fuel original f c w = (Ok (find_free fuel (existing (disk_of w)) original f c), w).
Proof.
  revert f c. induction fuel as [|fuel IH]; intros f c; [done|].
  cbn [find_free_io find_free]. unfold bind, path_exists, exists_on, exists_path.
  by destruct (bool_decide _).
Qed.

Lemma save_image_eq b o id fmt w :
  exists f, unique_filename (existing (disk_of w)) o (py_str id) fmt = Some f /\
            save_image b o id fmt w = decode_and_write b f w.
Proof.
  unfold unique_filename.
  destruct (find_free_enough (existing (disk_of w)) (initial_filename o (py_str id) fmt)
              (initial_filename o (py_str id) fmt) 1) as [f Hf].
  exists f. split; [exact Hf|].
  unfold save_image, bind, loop_fuel. rewrite find_free_io_eq, Hf. done.
Qed.

Lemma b64decode_json_exception b e : b64decode_json b = Raise e -> is_exception e = true.
Proof.
  destruct b; simpl; try (intros H; by simplify_eq).
  unfold b64decode, a2b_base64. intros Hb. repeat case_match; by simplify_eq.
Qed.

Lemma lookup_error_exception d as_ f e : lookup_error d as_ f = Some e -> is_exception e = true.
Proof. induction as_; simpl; [done|]. repeat case_match; intros; simplify_eq; auto. Qed.

Lemma open_write_exception d f data e : open_write d f data = Raise e -> is_exception e = true.
Proof. unfold open_write. intros H. repeat case_match; simplify_eq; eauto using lookup_error_exception. Qed.

(** [decode_and_write] on each branch: the decoding fails, the write
    fails, or the file is written. *)
Lemma decode_and_write_eq b f w :
  decode_and_write b f w =
    match b64decode_json b with
    | Raise e => (Raise (SystemExit 1), with_event w (Line Stderr ("Error saving image: " ++ exn_str e)))
    | Ok data =>
        match open_write (disk_of w) f data with
        | Raise e => (Raise (SystemExit 1), with_event w (Line Stderr ("Error saving image: " ++ exn_str e)))
        | Ok d => (Ok f, with_disk w d)
        end
    end.
Proof.
  unfold decode_and_write, try_except, bind, lift, write_file.
  destruct (b64decode_json b) as [data|e] eqn:Hb; simpl.
  - destruct (open_write (disk_of w) f data) as [d|e] eqn:Hw; simpl; [done|].
    by rewrite (open_write_exception _ _ _ _ Hw).
  - by rewrite (b64decode_json_exception _ _ Hb).
Qed.

(** What a successful [save_image] did. *)
Lemma save_image_Ok b o id fmt w f w' :
  save_image b o id fmt w = (Ok f, w') ->
  unique_filename (existing (disk_of w)) o (py_str id) fmt = Some f /\
  (path_str f ∉ existing (disk_of w)) /\
  exists data, b64decode_json b = Ok data /\
    w' = with_disk w (mkDisk (<[path_str f := data]> (files (disk_of w)))
                             (dirs (disk_of w)) (ro_dirs (disk_of w))).
Proof.
  destruct (save_image_eq b o id fmt w) as (f0 & Hf & ->). rewrite decode_and_write_eq.
  pose proof (find_free_Some _ _ _ _ _ _ Hf) as [Hfree _].
  destruct (b64decode_json b) as [data|e]; [|discriminate].
  destruct (open_write (disk_of w) f0 data) as [d|e] eqn:Hw; [|discriminate].
  intros H. injection H as <- <-. apply open_write_Ok in Hw as [_ ->]. eauto 10.
Qed.

(** [save_image] writes whenever the data decodes, the name it starts
    from has no directory part and no NUL, and files may be created in
    the working directory. *)
Lemma save_image_succeeds b id fmt w data :
  b64decode_json b = Ok data -> fmt <> "" ->
  str_contains "/" (py_str id ++ "." ++ fmt) = false -> str_contains nul (py_str id ++ "." ++ fmt) = false ->
  "." ∉ ro_dirs (disk_of w) ->
  exists f, (path_str f ∉ existing (disk_of w)) /\
    save_image b None id fmt w =
      (Ok f, with_disk w (mkDisk (<[path_str f := data]> (files (disk_of w))) (dirs (disk_of w)) (ro_dirs (disk_of w)))).
Proof.
  intros Hb Hfmt Hs Hn Hro.
  destruct (save_image_eq b None id fmt w) as (f & Hf & ->). rewrite decode_and_write_eq, Hb.
  pose proof (find_free_Some _ _ _ _ _ _ Hf) as [Hfree Hwhich].
  assert (str_contains "/" f = false /\ str_contains nul f = false /\ (2 <= String.length f)%nat) as (Hs' & Hn' & Hl).
  { destruct Hwhich as [-> | [_ (k & _ & -> & _)]].
    - split; [done|]. split; [done|]. simpl. rewrite !string_app_length.
      destruct fmt; [done|]. simpl. lia.
    - split; [apply candidate_no_slash|]. split; [|apply candidate_long].
      apply candidate_no_char; [reflexivity | unfold nul; cbv; discriminate | unfold nul; cbv; discriminate | exact Hn]. }
  assert (f <> "" /\ f <> ".") as [Hne Hdot] by (split; intros ->; simpl in Hl; lia).
  exists f. split; [done|]. rewrite (path_str_plain f) in * by done.
  rewrite open_write_plain by (done || set_solver). done.
Qed.

(** [generate_image] on a successful response. *)
Lemma generate_image_ok k p m kw w r v :
  prepare (generate_request k p m kw) = None ->
  service w (generate_request k p m kw) = Returned r -> raise_for_status r = None -> loads (text r) = Ok v ->
  generate_image k p m kw w = (Ok v, with_sent w (generate_request k p m kw)).
Proof.
  intros Hp Hs Hr Hb. unfold generate_image, bind. rewrite request_json_eq, Hs, Hr by done.
  unfold response_json. by rewrite Hb.
Qed.

(** [generate_failed] always ends the process. *)
Lemma generate_failed_raises {A} e w : exists w', @generate_failed A e w = (Raise (SystemExit 1), w').
Proof.
  unfold generate_failed, bind. simpl.
  destruct e as [k m [r|]]; [destruct (resp_ok r); [unfold report_response; destruct (loads (text r))|]|]; eauto.
Qed.

(** When [generate_image] returns, it has sent its request and done
    nothing else. *)
Lemma generate_image_Ok_inv k p m kw w v w' :
  generate_image k p m kw w = (Ok v, w') -> w' = with_sent w (generate_request k p m kw).
Proof.
  unfold generate_image, bind.
  destruct (prepare (generate_request k p m kw)) as [e|] eqn:Hp.
  { rewrite (request_json_unprepared _ _ e Hp). simpl.
    destruct (generate_failed_raises (A:=json) e w) as [w1 ->]. discriminate. }
  rewrite request_json_eq by done.
  destruct (service w _) as [r|e];
    [destruct (raise_for_status r) as [e|]; [|unfold response_json; destruct (loads (text r)) as [v'|[]]]|].
  all: simpl; try (unfold ret; intros H; by simplify_eq); try discriminate.
  all: match goal with
       | |- generate_failed ?e ?w0 = _ -> _ =>
           destruct (generate_failed_raises (A:=json) e w0) as [w1 ->]; discriminate
       end.
Qed.

(** A payload [json.dumps] refuses (a NaN or infinite float, an int
    beyond 4300 digits): [requests] raises [InvalidJSONError] before
    sending, and the handler reports it and exits. *)
Lemma generate_image_unencodable k p m kw w e :
  encode (dict_json (build_payload p m kw)) = Raise e ->
  generate_image k p m kw w =
    (Raise (SystemExit 1), with_event w (Line Stderr ("Error generating image: " ++ exn_str e))).
Proof.
  intros He. assert (prepare (generate_request k p m kw) = Some (RequestException "InvalidJSONError" (exn_str e) None)) as Hp
    by (unfold prepare, generate_request; by rewrite He).
  unfold generate_image, bind. by rewrite (request_json_unprepared _ _ _ Hp).
Qed.

(** A success response whose text [json.loads] refuses: requests'
    [JSONDecodeError], without a response, is reported with the
    decoder's message. *)
Lemma generate_image_undecodable k p m kw w r msg :
  prepare (generate_request k p m kw) = None ->
  service w (generate_request k p m kw) = Returned r -> raise_for_status r = None ->
  loads (text r) = Raise (JSONDecodeError msg) ->
  generate_image k p m kw w =
    (Raise (SystemExit 1),
     with_event (with_sent w (generate_request k p m kw)) (Line Stderr ("Error generating image: " ++ msg))).
Proof.
  intros Hp Hs Hr Hb. unfold generate_image, bind. rewrite request_json_eq, Hs, Hr by done.
  unfold response_json. by rewrite Hb.
Qed.

(** Any other exception of [json.loads] escapes [generate_image]. *)
Lemma generate_image_escapes k p m kw w r e :
  prepare (generate_request k p m kw) = None ->
  service w (generate_request k p m kw) = Returned r -> raise_for_status r = None ->
  loads (text r) = Raise e -> (forall msg, e <> JSONDecodeError msg) ->
  generate_image k p m kw w = (Raise e, with_sent w (generate_request k p m kw)).
Proof.
  intros Hp Hs Hr Hb He. unfold generate_image, bind. rewrite request_json_eq, Hs, Hr by done.
  unfold response_json. rewrite Hb. by destruct e; try (by edestruct He).
Qed.

(** A request followed by computations that send nothing adds exactly
    that request. *)
Lemma sent_after_request {B} rq (k : json + req_exn -> prog B) w :
  prepare rq = None -> (forall a, frame sent (k a)) -> sent (snd (bind (request_json rq) k w)) = (sent w ++ [rq])%list.
Proof.
  intros Hp Hk. unfold bind. rewrite request_json_eq by done.
  destruct (match service w rq with
            | Failed e => Ok (inr e)
            | Returned r => match raise_for_status r with Some e => Ok (inr e) | None => response_json r end
            end); simpl; [by rewrite Hk|done].
Qed.

(** ** [list_models] output *)

(** A model entry of the listing, with its id and traits. *)
Definition model_entry (i : string) (ts : list string) : json :=
  JDict [("id", JStr i); ("model_spec", JDict [("traits", JList (map JStr ts))])].

(** The line the listing shows for it. *)
Definition model_text (i : string) (ts : list string) : string :=
  "  - " ++ i ++ match ts with [] => "" | _ => " (" ++ sep_concat ", " ts ++ ")" end.

Lemma join_items_strs i ts : join_items i (map JStr ts) = Ok ts.
Proof.
  revert i. induction ts as [|t ts IH]; intros i; [done|]. simpl. by rewrite IH.
Qed.

Lemma model_line_entry i ts : model_line (model_entry i ts) = Ok (model_text i ts).
Proof.
  unfold model_line, model_entry, model_text. simpl.
  destruct ts as [|t ts]; [done|]. unfold join. simpl. by rewrite join_items_strs.
Qed.

Lemma print_models_eq ms ss w :
  Forall2 (fun m s => model_line m = Ok s) ms ss ->
  print_models ms w =
    (Ok tt, mkWorld (api_key w) (disk_of w) (service w) (sent w) (events w ++ map (Line Stdout) ss)).
Proof.
  intros H. revert w. induction H as [|m s ms ss Hm _ IH]; intros w.
  - simpl. rewrite app_nil_r. by destruct w.
  - simpl. unfold bind, lift. rewrite Hm. simpl. rewrite IH. simpl. by rewrite <- app_assoc.
Qed.

(** ** Test worlds *)

Definition empty_disk : disk := mkDisk ∅ {["."]} ∅.

(** A world whose service answers every request with [outcome]. *)
Definition world_with (d : disk) (outcome : http_outcome) : world :=
  mkWorld (Some "key") d (fun _ => outcome) [] [].

(** ** Properties *)

(** C10. [generate_image] never shows the error body of an HTTP error:
    for a status in 400-599, [raise_for_status] raises an [HTTPError]
    whose [response] is that response, and a response with such a status
    is falsy ([Response.__bool__] is [Response.ok]), so the
    [if e.response:] branch of line 104 is skipped. The only line on
    standard error is ["Error generating image: <status> Client Error:
    ..."], then [sys.exit(1)]. *)
Theorem generate_http_error_hides_body k p m kw w r :
  prepare (generate_request k p m kw) = None ->
  service w (generate_request k p m kw) = Returned r ->
  (400 <= status_code r < 600)%Z ->
  exists e, raise_for_status r = Some e /\
    generate_image k p m kw w =
      (Raise (SystemExit 1),
       with_event (with_sent w (generate_request k p m kw))
         (Line Stderr ("Error generating image: " ++ req_str e))).
Proof.
  intros Hp Hs Hst. apply raise_for_status_Some in Hst as [e He].
  exists e. split; [done|].
  destruct (raise_for_status_response _ _ He) as (kd & msg & ->).
  assert (resp_ok r = false) as Hok by (unfold resp_ok; by rewrite He).
  unfold generate_image, generate_failed, bind. rewrite request_json_eq, Hs, He by done.
  simpl. by rewrite Hok.
Qed.

(** The text a server sends for a JSON value. *)
Definition json_text (v : json) : string := match encode v with Ok t => t | Raise _ => "" end.

Definition unauthorized : response :=
  mkResponse 401 "Unauthorized" (BASE_URL ++ "/image/generate")
    (json_text (JDict [("error", JStr "Authentication failed")])) eq_refl.

Lemma generate_http_error_hides_body_witness :
  exists e, raise_for_status unauthorized = Some e /\
    generate_image "key" "a cat" "venice-sd35" [] (world_with empty_disk (Returned unauthorized)) =
      (Raise (SystemExit 1),
       with_event (with_sent (world_with empty_disk (Returned unauthorized))
                     (generate_request "key" "a cat" "venice-sd35" []))
         (Line Stderr ("Error generating image: " ++ req_str e))).
Proof.
  apply (generate_http_error_hides_body "key" "a cat" "venice-sd35" [] _ unauthorized);
    [vm_compute; reflexivity | reflexivity | simpl; lia].
Defined.

(** The body is shown only for a [RequestException] that carries a
    truthy response: [requests] raises [TooManyRedirects] with the last
    redirect, a 3xx response. *)
Lemma generate_redirect_shows_body w r :
  (status_code r < 400)%Z -> loads (text r) = Ok (JStr "moved") ->
  @generate_failed json (RequestException "TooManyRedirects" "Exceeded 30 redirects." (Some r)) w =
    (Raise (SystemExit 1),
     with_event (with_event w (Line Stderr "Error generating image: Exceeded 30 redirects."))
       (Line Stderr "API Error: moved")).
Proof.
  intros Hs Hb. unfold generate_failed, bind, report_response. simpl.
  assert (resp_ok r = true) as ->.
  { unfold resp_ok, raise_for_status.
    destruct (Z.leb_spec 400 (status_code r)), (Z.leb_spec 500 (status_code r)); simpl; lia || done. }
  simpl. by rewrite Hb.
Qed.

(** C12. Refinement of the transport: the body [requests] sends for the
    POST of [generate_image] is the text of [json.dumps(payload,
    allow_nan=False)], and [json.loads] reads it back as exactly the
    payload [generate_image] builds, keys in their order and values
    with their types, whenever [json.dumps] accepts the payload and its
    floats' [repr] reads back. *)
Theorem generate_request_wire k p m kw t :
  forallb (fun kv => pyval_ok (snd kv)) (build_payload p m kw) = true ->
  wire_body (generate_request k p m kw) = Some t ->
  loads t = Ok (dict_json (build_payload p m kw)).
Proof.
  intros Hf. unfold wire_body, generate_request.
  destruct (encode _) as [u|e] eqn:He; [intros [= <-]|discriminate].
  unfold loads. rewrite (decode_encode (dict_json (build_payload p m kw)) u); [done| |done].
  apply (dict_json_wf _ u); [apply RequestFacts.payload_keys_wf | done | done].
Qed.

Definition cfg_kwargs : dict := [("cfg_scale", PFloat (F64.of_decimal false 75 (-1))); ("width", PInt 1024)].

Lemma generate_request_wire_witness :
  (forallb (fun kv => pyval_ok (snd kv)) (build_payload "a cat" "venice-sd35" cfg_kwargs) = true) /\
  (wire_body (generate_request "key" "a cat" "venice-sd35" cfg_kwargs) =
    Some (default "" (wire_body (generate_request "key" "a cat" "venice-sd35" cfg_kwargs)))) /\
  (loads (default "" (wire_body (generate_request "key" "a cat" "venice-sd35" cfg_kwargs))) =
    Ok (dict_json (build_payload "a cat" "venice-sd35" cfg_kwargs))).
Proof.
  assert (forallb (fun kv => pyval_ok (snd kv)) (build_payload "a cat" "venice-sd35" cfg_kwargs) = true) as Hf
    by (vm_compute; reflexivity).
  assert (wire_body (generate_request "key" "a cat" "venice-sd35" cfg_kwargs) =
    Some (default "" (wire_body (generate_request "key" "a cat" "venice-sd35" cfg_kwargs)))) as Hw
    by (vm_compute; reflexivity).
  split; [exact Hf|]. split; [exact Hw|]. exact (generate_request_wire _ _ _ _ _ Hf Hw).
Defined.

(** C7. [save_image] writes the name [Collision.unique_filename]
    computes from the paths that exist, which is not one of them: it
    never overwrites a file. On success the disk gains exactly that one
    file, holding the decoded bytes, and nothing else changes. *)
Theorem save_image_writes_unique b o id fmt w f w' :
  save_image b o id fmt w = (Ok f, w') ->
  unique_filename (existing (disk_of w)) o (py_str id) fmt = Some f /\
  (path_str f ∉ existing (disk_of w)) /\
  exists data, b64decode_json b = Ok data /\
    w' = with_disk w (mkDisk (<[path_str f := data]> (files (disk_of w)))
                             (dirs (disk_of w)) (ro_dirs (disk_of w))).
Proof. apply save_image_Ok. Qed.

Definition cat_disk : disk := mkDisk {["cat.png" := [1%Z]]} {["."]} ∅.

Lemma save_image_writes_unique_witness :
  save_image (JStr "AQI=") (Some "cat.png") (JStr "x") "png" (world_with cat_disk (Returned unauthorized))
    = (Ok "cat_1.png", snd (save_image (JStr "AQI=") (Some "cat.png") (JStr "x") "png"
                                       (world_with cat_disk (Returned unauthorized)))) /\
  unique_filename (existing cat_disk) (Some "cat.png") "x" "png" = Some "cat_1.png".
Proof.
  assert (save_image (JStr "AQI=") (Some "cat.png") (JStr "x") "png" (world_with cat_disk (Returned unauthorized))
    = (Ok "cat_1.png", snd (save_image (JStr "AQI=") (Some "cat.png") (JStr "x") "png"
                                       (world_with cat_disk (Returned unauthorized))))) as H
    by (vm_compute; reflexivity).
  split; [exact H|]. exact (proj1 (save_image_writes_unique _ _ _ _ _ _ _ H)).
Defined.

(** C28. When the image data does not decode ([binascii.Error], or a
    JSON value that is not a string), [save_image] reports
    ["Error saving image: <e>"] and exits with status 1, and the disk is
    left as it was: the decoding comes before [open]. *)
Theorem save_image_decode_error b o id fmt w e :
  b64decode_json b = Raise e ->
  save_image b o id fmt w =
    (Raise (SystemExit 1), with_event w (Line Stderr ("Error saving image: " ++ exn_str e))).
Proof.
  intros Hb. destruct (save_image_eq b o id fmt w) as (f & _ & ->).
  by rewrite decode_and_write_eq, Hb.
Qed.

Lemma save_image_decode_error_witness :
  save_image (JStr "abcde") None (JStr "x") "png" (world_with cat_disk (Returned unauthorized)) =
    (Raise (SystemExit 1),
     with_event (world_with cat_disk (Returned unauthorized))
       (Line Stderr ("Error saving image: " ++ "Invalid base64-encoded string: number of data characters (5) cannot be 1 more than a multiple of 4"))).
Proof.
  apply (save_image_decode_error _ _ _ _ _ (ValueError "Invalid base64-encoded string: number of data characters (5) cannot be 1 more than a multiple of 4")).
  vm_compute. reflexivity.
Defined.

(** C29. [list_models] without [--verbose], on a listing whose models
    have an id and a list of traits: the header line, then one line per
    model in order, ["  - <id>"] followed by [" (<t1>, <t2>, ...)"] when
    it has traits. One GET is sent and the disk is untouched. *)
Theorem list_models_lines k w r ms :
  service w (models_request k) = Returned r ->
  raise_for_status r = None ->
  loads (text r) = Ok (JDict [("data", JList (map (fun m => model_entry (fst m) (snd m)) ms))]) ->
  list_models k false w =
    (Ok tt, mkWorld (api_key w) (disk_of w) (service w) (sent w ++ [models_request k])
              (events w ++ Line Stdout "Available models:"
                         :: map (fun m => Line Stdout (model_text (fst m) (snd m))) ms)).
Proof.
  intros Hs Hr Hb. unfold list_models, bind. rewrite request_json_eq, Hs, Hr by reflexivity.
  unfold response_json. rewrite Hb. simpl.
  rewrite (print_models_eq _ (map (fun m => model_text (fst m) (snd m)) ms)).
  - simpl. rewrite map_map, <- app_assoc. done.
  - apply Forall2_fmap, Forall_Forall2_diag, Forall_forall. intros [i ts] _. apply model_line_entry.
Qed.

Definition listing : response :=
  mkResponse 200 "OK" (BASE_URL ++ "/models?type=image")
    (json_text (JDict [("data", JList [model_entry "flux-dev" ["highest_quality"]; model_entry "venice-sd35" []])]))
    eq_refl.

Lemma list_models_lines_witness :
  list_models "key" false (world_with empty_disk (Returned listing)) =
    (Ok tt, mkWorld (Some "key") empty_disk (fun _ => Returned listing) [models_request "key"]
              [Line Stdout "Available models:"; Line Stdout "  - flux-dev (highest_quality)";
               Line Stdout "  - venice-sd35"]).
Proof.
  apply (list_models_lines "key" (world_with empty_disk (Returned listing)) listing [("flux-dev", ["highest_quality"]); ("venice-sd35", [])]);
    reflexivity.
Defined.

(** ** Footprints *)

Lemma request_json_frame_disk rq : frame disk_of (request_json rq).
Proof. unfold request_json. footprint. Qed.

Lemma request_json_one rq : at_most_one sent one_request (request_json rq).
Proof. unfold request_json. footprint. Qed.

Lemma print_models_frame {T} (proj : world -> T) ms :
  (forall w ev, proj (with_event w ev) = proj w) -> frame proj (print_models ms).
Proof. intros Hp. induction ms; simpl; footprint. Qed.

Lemma decode_and_write_frame_sent b f : frame sent (decode_and_write b f).
Proof. unfold decode_and_write. footprint. Qed.

#[export] Hint Resolve request_json_frame_disk request_json_one print_models_frame
  decode_and_write_frame_sent : footprint.

Lemma list_models_frame_disk k v : frame disk_of (list_models k v).
Proof. unfold list_models. footprint. Qed.

Lemma list_models_one k v : at_most_one sent one_request (list_models k v).
Proof. unfold list_models. footprint. Qed.

Lemma generate_image_frame_disk k p m kw : frame disk_of (generate_image k p m kw).
Proof. unfold generate_image, generate_failed, report_response. footprint. Qed.

Lemma generate_image_one k p m kw : at_most_one sent one_request (generate_image k p m kw).
Proof. unfold generate_image, generate_failed, report_response. footprint. Qed.

Lemma save_image_frame_sent b o id fmt : frame sent (save_image b o id fmt).
Proof. intros w. destruct (save_image_eq b o id fmt w) as (f & _ & ->). apply decode_and_write_frame_sent. Qed.

(** The disk changes by at most one new file. *)
Lemma save_image_fresh b o id fmt : at_most_one disk_of fresh_write (save_image b o id fmt).
Proof.
  intros w. destruct (save_image_eq b o id fmt w) as (f & Hf & ->).
  apply find_free_Some in Hf as [Hfree _].
  rewrite decode_and_write_eq.
  destruct (b64decode_json b) as [data|e]; [|by left].
  destruct (open_write (disk_of w) f data) as [d|e] eqn:Hw; [|by left].
  right. apply open_write_Ok in Hw as [_ ->]. by exists (path_str f), data.
Qed.

#[export] Hint Resolve list_models_frame_disk list_models_one generate_image_frame_disk
  generate_image_one save_image_frame_sent save_image_fresh : footprint.

End Client.
