(* ===== verification/Cli.v ===== *)
(** * The command-line driver: [main]

    [main] of lines 171-291 of src/venice_image_gen.py in the [prog]
    monad of [World], and [run], the process around it: the exit status
    is [0] when [main] returns, [n] for [sys.exit(n)], and [1] for an
    exception no handler catches, which the interpreter reports.

    The outcome of [parser.parse_args()] is an input of [main]: a
    [GenParams.Args] namespace, a command line argparse rejects (it
    prints the usage and the message and exits with status 2) or
    [-h]/[--help] (it prints the help and exits with 0); [Argparse]
    computes it from [sys.argv[1:]] and [run_argv] runs the process on
    the arguments. [parser.error(msg)] is [parser_error]. The name of
    the program in argparse's messages is [prog_name], the base name of
    [sys.argv[0]].

    The theorems follow one run through each of its exits: the key and
    argument checks, the request (sent once, with the payload, or
    refused by [json.dumps] before sending), the response (an HTTP
    error, a body that is not JSON, an int [json.loads] refuses with a
    plain [ValueError] that ends in a traceback, no images) and the save
    and report. *)

From S2P Require Import Prelude.
From S2P Require Import PyFloat.
From S2P Require Import AspectRatio.
From S2P Require Import Payload.
From S2P Require Import PyRepr.
From S2P Require Import Json.
From S2P Require Import JsonText.
From S2P Require Import SaveImage.
From S2P Require Import World.
From S2P Require Import Client.
From S2P Require Import Argparse.
From Stdlib Require Import ZArith String Ascii Lia.

Open Scope string_scope.
Open Scope py_scope.
Open Scope prog_scope.

Module Cli.
Import Dict GenParams PathLib World PyJson JsonText Client.
Import Argparse(cmdline(..), cmdline_of).

(** [parser.error(msg)]: the usage and ["prog: error: msg"] on standard
    error, then [SystemExit(2)]. *)
Definition parser_error {A} (prog_name msg : string) : prog A :=
  emit Usage ;;;
  eprint (prog_name ++ ": error: " ++ msg) ;;;
  sys_exit 2.

(** Line 222. *)
Definition parse_args (prog_name : string) (cmd : cmdline) : prog Args :=
  match cmd with
  | Parsed args => ret args
  | Rejected msg => parser_error prog_name msg
  | HelpAsked => emit HelpText ;;; sys_exit 0
  end.

Definition MISSING_KEY : string := "Error: VENICE_API_KEY environment variable is required".
Definition MISSING_PROMPT : string :=
  "Prompt is required for image generation. Use --list-models to see available models.".

(** Lines 236-246: [GenParams.resolve_dimensions], whose [ParserError]
    is a call of [parser.error]. *)
Definition dimensions (prog_name : string) (args : Args) : prog (option Z * option Z) :=
  match resolve_dimensions args with
  | Ok d => ret d
  | Raise (ParserError msg) => parser_error prog_name msg
  | Raise e => throw e
  end.

(** Lines 288-291. *)
Definition show_timing (result : json) : prog unit :=
  timing <~ lift (get result "timing" (JDict [])) ;;
  if truthy timing then
    total <~ lift (get timing "total" (JInt 0)) ;;
    total_time <~ lift (div_1000 total) ;;
    print ("Generation completed in " ++ Repr.fixed 2 total_time ++ " seconds")
  else ret tt.

(** Lines 273-291, after the call of [generate_image]. *)
Definition save_result (args : Args) (result : json) : prog unit :=
  images <~ lift (get result "images" (JList [])) ;;
  if negb (truthy images) then eprint "No images returned from API" ;;; sys_exit 1
  else
    image_id <~ lift (get result "id" (JStr "generated_image")) ;;
    base64_data <~ lift (index0 images) ;;
    filename <~ save_image base64_data (output args) image_id (format args) ;;
    print ("Image saved as: " ++ filename) ;;;
    show_timing result.

(** Lines 232-291: image generation. *)
Definition generate (prog_name api_key : string) (args : Args) : prog unit :=
  (if negb (truthy_str (prompt args)) then parser_error prog_name MISSING_PROMPT else ret tt) ;;;
  wh <~ dimensions prog_name args ;;
  let kwargs := gen_params (fst wh) (snd wh) args in
  print ("Generating image with model '" ++ model args ++ "'...") ;;;
  result <~ generate_image api_key (default "" (prompt args)) (model args) kwargs ;;
  save_result args result.

(** Lines 171-291. *)
Definition main (prog_name : string) (cmd : cmdline) : prog unit :=
  key <~ getenv_key ;;
  if negb (truthy_str key) then eprint MISSING_KEY ;;; sys_exit 1
  else
    let api_key := default "" key in
    args <~ parse_args prog_name cmd ;;
    if GenParams.list_models args then Client.list_models api_key (verbose args)
    else generate prog_name api_key args.

(** The process: its exit status and the final world. *)
Definition run (prog_name : string) (cmd : cmdline) (w : world) : Z * world :=
  match main prog_name cmd w with
  | (Ok _, w') => (0, w')
  | (Raise (SystemExit n), w') => (n, w')
  | (Raise e, w') => (1, with_event w' (Traceback e))
  end.

(** The process on the command line [argv] ([sys.argv[1:]]): argparse
    reads it (line 222) and [main] runs on the outcome (lines 293-294).
    [None] is a command line on which argparse itself raises an
    exception other than its own errors, which the model excludes. *)
Definition run_argv (prog_name : string) (argv : list string) (w : world) : option (Z * world) :=
  option_map (fun cmd => run prog_name cmd w) (cmdline_of argv).

(** ** Lemmas *)

Lemma main_eq name cmd w :
  main name cmd w =
    if negb (truthy_str (api_key w))
    then (Raise (SystemExit 1), with_event w (Line Stderr MISSING_KEY))
    else bind (parse_args name cmd)
           (fun args => if GenParams.list_models args
                        then Client.list_models (default "" (api_key w)) (verbose args)
                        else generate name (default "" (api_key w)) args) w.
Proof. unfold main, bind at 1. simpl. by destruct (negb _). Qed.

(** With a key and parsed arguments, [main] lists the models or generates. *)
Lemma main_parsed name args w :
  truthy_str (api_key w) = true ->
  main name (Parsed args) w =
    if GenParams.list_models args
    then Client.list_models (default "" (api_key w)) (verbose args) w
    else generate name (default "" (api_key w)) args w.
Proof. intros Hk. rewrite main_eq, Hk. cbn -[Client.list_models generate]. by destruct (GenParams.list_models args). Qed.

(** The exit status and the final world of [run], from those of [main]. *)
Lemma run_snd {T} (proj : world -> T) name cmd w :
  (forall w ev, proj (with_event w ev) = proj w) ->
  proj (snd (run name cmd w)) = proj (snd (main name cmd w)).
Proof. intros Hp. unfold run. by repeat case_match; simplify_eq; simpl. Qed.

Lemma main_one name cmd : at_most_one sent one_request (main name cmd).
Proof. unfold main, generate, save_result, show_timing, dimensions, parse_args, parser_error. footprint. Qed.

Lemma main_fresh name cmd : at_most_one disk_of fresh_write (main name cmd).
Proof. unfold main, generate, save_result, show_timing, dimensions, parse_args, parser_error. footprint. Qed.

(** The progress line of line 270. *)
Definition gen_line (args : Args) : string := "Generating image with model '" ++ model args ++ "'...".

(** The request of line 271. *)
Definition post_request (key : string) (args : Args) (wd ht : option Z) : http_request :=
  generate_request key (default "" (prompt args)) (model args) (gen_params wd ht args).

Lemma generate_eq name key args w wd ht :
  truthy_str (prompt args) = true -> resolve_dimensions args = Ok (wd, ht) ->
  generate name key args w =
    bind (generate_image key (default "" (prompt args)) (model args) (gen_params wd ht args))
      (save_result args) (with_event w (Line Stdout (gen_line args))).
Proof. intros Hp Hd. unfold generate, dimensions. rewrite Hp, Hd. reflexivity. Qed.

Lemma save_result_frame_sent args result : frame sent (save_result args result).
Proof. unfold save_result, show_timing. footprint. Qed.

Lemma generate_failed_frame_sent {A} e : frame sent (@generate_failed A e).
Proof. unfold generate_failed, report_response. footprint. Qed.

#[export] Hint Resolve save_result_frame_sent generate_failed_frame_sent : footprint.

(** [show_timing] only prints. *)
Lemma show_timing_events result w :
  disk_of (snd (show_timing result w)) = disk_of w /\
  exists l, events (snd (show_timing result w)) = (events w ++ l)%list.
Proof.
  unfold show_timing, bind, lift. repeat case_match; simplify_eq; simpl; split; eauto using app_nil_r.
Qed.

Lemma dimensions_Ok_inv name args w d w' : dimensions name args w = (Ok d, w') -> w' = w.
Proof.
  unfold dimensions, parser_error, bind, emit, eprint, sys_exit, throw, lift, ret.
  intros H. repeat case_match; simplify_eq; done.
Qed.

(** The text [format(n / 100, '.2f')] for an integer [N] of hundredths. *)
Definition hundredths (N : Z) : string := pretty (N / 100) ++ "." ++ Repr.pad_left 2 (pretty (N mod 100)).

(** The time line for a total of [n] ms is [n/1000] to the hundredth,
    either way on a tie. *)
Definition timing_ok (n : Z) : bool :=
  match int_div_1000 n with
  | Ok t => let s := Repr.fixed 2 t in
            String.eqb s (hundredths ((n + 5) / 10))
            || (Z.eqb (n mod 10) 5 && String.eqb s (hundredths (n / 10)))
  | Raise _ => false
  end.

Lemma timing_ok_100000 : all_range timing_ok 100000 0 = true.
Proof. vm_compute. reflexivity. Qed.

Lemma timing_ok_range n : (0 <= n < 100000)%Z -> timing_ok n = true.
Proof.
  intros Hr. assert (Z.of_nat 100000 = 100000)%Z as Hk by reflexivity.
  exact (all_range_spec _ _ _ n timing_ok_100000 ltac:(lia)).
Qed.

(** [show_timing] returns normally on a falsy [timing] and on an int
    total under 100 s, and leaves the disk as it was. *)
Lemma show_timing_Ok result w t :
  get result "timing" (JDict []) = Ok t ->
  truthy t = false \/ (exists n, get t "total" (JInt 0) = Ok (JInt n) /\ (0 <= n < 100000)%Z) ->
  exists w', show_timing result w = (Ok tt, w') /\ disk_of w' = disk_of w.
Proof.
  intros Ht Htm. unfold show_timing, bind at 1, lift at 1. rewrite Ht. simpl.
  destruct (truthy t) eqn:Htt; [|eauto].
  destruct Htm as [Hf | (n & Hn & Hr)]; [congruence|].
  pose proof (timing_ok_range n Hr) as Hok. unfold timing_ok in Hok.
  unfold bind, lift. rewrite Hn. simpl.
  destruct (int_div_1000 n); [|discriminate]. simpl. eauto.
Qed.

(** ** Properties *)

(** C24. Without [VENICE_API_KEY] (unset or empty), the process prints
    the error and exits with status 1 before the command line is looked
    at: not even [--help] or a malformed command line gets a reply, no
    request is sent and the disk is untouched. *)
Theorem run_missing_key name cmd w :
  truthy_str (api_key w) = false ->
  run name cmd w = (1, with_event w (Line Stderr MISSING_KEY)).
Proof. intros Hk. unfold run. rewrite main_eq, Hk. reflexivity. Qed.

Lemma run_missing_key_witness :
  run "venice_image_gen.py" HelpAsked (mkWorld None empty_disk (fun _ => Returned listing) [] []) =
    (1, with_event (mkWorld None empty_disk (fun _ => Returned listing) [] []) (Line Stderr MISSING_KEY)).
Proof. apply run_missing_key. reflexivity. Defined.

(** C26. A generation without a prompt is refused by [parser.error]
    before any request: the usage and ["<prog>: error: Prompt is
    required ..."] on standard error, and the exit status is 2 (the spec
    says 1). *)
Theorem run_missing_prompt name args w :
  truthy_str (api_key w) = true -> GenParams.list_models args = false ->
  truthy_str (prompt args) = false ->
  run name (Parsed args) w =
    (2, with_event (with_event w Usage) (Line Stderr (name ++ ": error: " ++ MISSING_PROMPT))).
Proof.
  intros Hk Hl Hp. unfold run. rewrite main_parsed, Hl by done.
  unfold generate, bind at 1. rewrite Hp. reflexivity.
Qed.

Definition bare_args (p ar : option string) (w h : option Z) : Args :=
  mkArgs false false p "venice-sd35" None w h ar None None None None "jpeg" None false.

Definition key_world : world := world_with empty_disk (Returned listing).

Lemma run_missing_prompt_witness :
  run "venice_image_gen.py" (Parsed (bare_args None None None None)) key_world =
    (2, with_event (with_event key_world Usage)
          (Line Stderr ("venice_image_gen.py: error: " ++ MISSING_PROMPT))).
Proof. apply run_missing_prompt; reflexivity. Defined.

(** C25. [--ar] together with a truthy [--width] or [--height] is
    refused by [parser.error] before any request is sent, with exit
    status 2 (the spec says 1). *)
Theorem run_ar_conflict name args w :
  truthy_str (api_key w) = true -> GenParams.list_models args = false ->
  truthy_str (prompt args) = true -> truthy_str (aspect_ratio args) = true ->
  truthy_int (width args) || truthy_int (height args) = true ->
  run name (Parsed args) w =
    (2, with_event (with_event w Usage)
          (Line Stderr (name ++ ": error: Cannot specify both --ar and --width/--height"))).
Proof.
  intros Hk Hl Hp Ha Hwh. unfold run. rewrite main_parsed, Hl by done.
  unfold generate, dimensions, resolve_dimensions, bind. rewrite Hp, Ha, Hwh. reflexivity.
Qed.

Lemma run_ar_conflict_witness :
  run "venice_image_gen.py" (Parsed (bare_args (Some "a cat") (Some "square") (Some 512%Z) None)) key_world =
    (2, with_event (with_event key_world Usage)
          (Line Stderr ("venice_image_gen.py: error: Cannot specify both --ar and --width/--height"))).
Proof. apply run_ar_conflict; reflexivity. Defined.

(** C8. Every invocation sends at most one HTTP request, whatever the
    command line, the environment, the disk and the answers of the
    service. *)
Theorem run_at_most_one_request name cmd w :
  sent (snd (run name cmd w)) = sent w \/ one_request (sent w) (sent (snd (run name cmd w))).
Proof. rewrite run_snd by done. apply main_one. Qed.

(** C21. No invocation overwrites or removes anything: the disk after it
    is the disk before, or that disk with one more file at a path that
    did not exist. *)
Theorem run_disk_fresh name cmd w :
  disk_of (snd (run name cmd w)) = disk_of w \/ fresh_write (disk_of w) (disk_of (snd (run name cmd w))).
Proof. rewrite run_snd by done. apply main_fresh. Qed.

(** C9. On a generation that passes the checks and whose payload
    [json.dumps] accepts, the process sends exactly one request, the
    POST of line 271, whose body is the payload of
    [GenParams.request_payload] and whose headers carry the key as a
    bearer token: the command line reaches the service as the payload
    module computes it, whatever happens after. *)
Theorem run_sends_payload name args w wd ht :
  truthy_str (api_key w) = true -> GenParams.list_models args = false ->
  truthy_str (prompt args) = true -> resolve_dimensions args = Ok (wd, ht) ->
  prepare (post_request (default "" (api_key w)) args wd ht) = None ->
  sent (snd (run name (Parsed args) w)) =
    (sent w ++ [Post (BASE_URL ++ "/image/generate") (request_payload wd ht args)
                     (client_headers (default "" (api_key w)))])%list.
Proof.
  intros Hk Hl Hp Hd He. rewrite run_snd by done. rewrite main_parsed, Hl, (generate_eq _ _ _ _ wd ht) by done.
  unfold generate_image. rewrite bind_assoc, sent_after_request by (done || footprint). done.
Qed.

Lemma run_sends_payload_witness :
  sent (snd (run "venice_image_gen.py" (Parsed (bare_args (Some "a cat") (Some "4:3") None None)) key_world)) =
    [Post (BASE_URL ++ "/image/generate") (request_payload (Some 1024%Z) (Some 768%Z)
            (bare_args (Some "a cat") (Some "4:3") None None)) (client_headers "key")].
Proof. apply (run_sends_payload _ _ key_world (Some 1024%Z) (Some 768%Z)); vm_compute; reflexivity. Defined.

(** C27. A successful response with no images: the process reports "No
    images returned from API" on standard error and exits with status 1
    after its one request; the disk is untouched. *)
Theorem run_zero_images name args w wd ht r result imgs :
  truthy_str (api_key w) = true -> GenParams.list_models args = false ->
  truthy_str (prompt args) = true -> resolve_dimensions args = Ok (wd, ht) ->
  prepare (post_request (default "" (api_key w)) args wd ht) = None ->
  service w (post_request (default "" (api_key w)) args wd ht) = Returned r ->
  raise_for_status r = None -> loads (text r) = Ok result ->
  get result "images" (JList []) = Ok imgs -> truthy imgs = false ->
  run name (Parsed args) w =
    (1, with_event (with_sent (with_event w (Line Stdout (gen_line args)))
                              (post_request (default "" (api_key w)) args wd ht))
          (Line Stderr "No images returned from API")).
Proof.
  intros Hk Hl Hp Hd He Hs Hr Hb Hi Ht. unfold run.
  rewrite main_parsed, Hl, (generate_eq _ _ _ _ wd ht) by done.
  rewrite (bind_Ok _ _ _ _ _ (generate_image_ok _ _ _ _ (with_event w (Line Stdout (gen_line args))) r result He Hs Hr Hb)).
  unfold save_result, bind, lift. rewrite Hi. simpl. by rewrite Ht.
Qed.

Definition no_images : response :=
  mkResponse 200 "OK" (BASE_URL ++ "/image/generate") (json_text (JDict [("id", JStr "x"); ("images", JList [])]))
    eq_refl.

Lemma run_zero_images_witness :
  run "venice_image_gen.py" (Parsed (bare_args (Some "a cat") None None None))
      (world_with empty_disk (Returned no_images)) =
    (1, with_event (with_sent (with_event (world_with empty_disk (Returned no_images))
                                 (Line Stdout (gen_line (bare_args (Some "a cat") None None None))))
                              (post_request "key" (bare_args (Some "a cat") None None None) None None))
          (Line Stderr "No images returned from API")).
Proof.
  apply (run_zero_images _ _ (world_with empty_disk (Returned no_images)) None None no_images
           (JDict [("id", JStr "x"); ("images", JList [])]) (JList [])); reflexivity.
Defined.

(** C13. A payload [json.dumps] refuses, a NaN or infinite
    [--cfg-scale] (truthy, so forwarded by lines 93-95): [requests]
    raises [InvalidJSONError] while preparing the POST, so nothing is
    sent; the process prints ["Error generating image: "] and the
    encoder's message and exits with status 1. *)
Theorem run_unencodable_payload name args w wd ht e :
  truthy_str (api_key w) = true -> GenParams.list_models args = false ->
  truthy_str (prompt args) = true -> resolve_dimensions args = Ok (wd, ht) ->
  encode (dict_json (request_payload wd ht args)) = Raise e ->
  run name (Parsed args) w =
    (1, with_event (with_event w (Line Stdout (gen_line args)))
          (Line Stderr ("Error generating image: " ++ exn_str e))).
Proof.
  intros Hk Hl Hp Hd He. unfold run.
  rewrite main_parsed, Hl, (generate_eq _ _ _ _ wd ht) by done.
  by rewrite (bind_Raise _ _ _ _ _ (generate_image_unencodable _ _ _ _ _ e He)).
Qed.

Definition nan_args : Args :=
  mkArgs false false (Some "a cat") "venice-sd35" None None None None None (Some S754_nan) None None "jpeg" None false.

Lemma run_unencodable_payload_witness :
  run "venice_image_gen.py" (Parsed nan_args) key_world =
    (1, with_event (with_event key_world (Line Stdout (gen_line nan_args)))
          (Line Stderr ("Error generating image: " ++ exn_str (ValueError OUT_OF_RANGE)))).
Proof. apply (run_unencodable_payload _ _ _ None None); vm_compute; reflexivity. Defined.

(** C15. A success status whose body is not JSON, an HTML page for
    instance: [response.json()] raises requests' [JSONDecodeError], a
    [RequestException] without a response, so the process prints the
    decoder's message for the first character and exits with status 1
    after its one request. *)
Theorem run_non_json_body name args w wd ht r c rest :
  truthy_str (api_key w) = true -> GenParams.list_models args = false ->
  truthy_str (prompt args) = true -> resolve_dimensions args = Ok (wd, ht) ->
  prepare (post_request (default "" (api_key w)) args wd ht) = None ->
  service w (post_request (default "" (api_key w)) args wd ht) = Returned r ->
  raise_for_status r = None -> text r = String c rest -> is_ws c = false -> value_start c = false ->
  run name (Parsed args) w =
    (1, with_event (with_sent (with_event w (Line Stdout (gen_line args)))
                              (post_request (default "" (api_key w)) args wd ht))
          (Line Stderr "Error generating image: Expecting value: line 1 column 1 (char 0)")).
Proof.
  intros Hk Hl Hp Hd He Hs Hr Ht Hw Hv. unfold run.
  rewrite main_parsed, Hl, (generate_eq _ _ _ _ wd ht) by done.
  pose proof (loads_no_value c rest Hw Hv) as Hb. rewrite <- Ht in Hb.
  by rewrite (bind_Raise _ _ _ _ _ (generate_image_undecodable _ _ _ _ (with_event w (Line Stdout (gen_line args))) r _ He Hs Hr Hb)).
Qed.

Definition html_page : response :=
  mkResponse 200 "OK" (BASE_URL ++ "/image/generate") "<html><body>Bad Gateway</body></html>" eq_refl.

Lemma run_non_json_body_witness :
  run "venice_image_gen.py" (Parsed (bare_args (Some "a cat") None None None))
      (world_with empty_disk (Returned html_page)) =
    (1, with_event (with_sent (with_event (world_with empty_disk (Returned html_page))
                                 (Line Stdout (gen_line (bare_args (Some "a cat") None None None))))
                              (post_request "key" (bare_args (Some "a cat") None None None) None None))
          (Line Stderr "Error generating image: Expecting value: line 1 column 1 (char 0)")).
Proof. apply (run_non_json_body _ _ (world_with empty_disk (Returned html_page)) None None html_page "<" "html><body>Bad Gateway</body></html>"); reflexivity. Defined.

(** A run of [n] digits. *)
Fixpoint digit_run (n : nat) : string :=
  match n with O => "" | S n' => String "1" (digit_run n') end.

(** C14. A success response holding an int of more than 4300 digits:
    [json.loads] raises the [ValueError] of [int()], which is not a
    [JSONDecodeError]; requests lets it through [response.json()], the
    [except requests.RequestException] of line 102 does not catch it,
    and the process ends in a traceback with status 1, after its one
    request. *)
Theorem run_response_value_error name args w wd ht r msg :
  truthy_str (api_key w) = true -> GenParams.list_models args = false ->
  truthy_str (prompt args) = true -> resolve_dimensions args = Ok (wd, ht) ->
  prepare (post_request (default "" (api_key w)) args wd ht) = None ->
  service w (post_request (default "" (api_key w)) args wd ht) = Returned r ->
  raise_for_status r = None -> loads (text r) = Raise (ValueError msg) ->
  run name (Parsed args) w =
    (1, with_event (with_sent (with_event w (Line Stdout (gen_line args)))
                              (post_request (default "" (api_key w)) args wd ht))
          (Traceback (ValueError msg))).
Proof.
  intros Hk Hl Hp Hd He Hs Hr Hb. unfold run.
  rewrite main_parsed, Hl, (generate_eq _ _ _ _ wd ht) by done.
  by rewrite (bind_Raise _ _ _ _ _ (generate_image_escapes _ _ _ _ (with_event w (Line Stdout (gen_line args))) r _ He Hs Hr Hb ltac:(done))).
Qed.

Definition huge_int : response :=
  mkResponse 200 "OK" (BASE_URL ++ "/image/generate") (digit_run 4301) eq_refl.

Lemma run_response_value_error_witness :
  run "venice_image_gen.py" (Parsed (bare_args (Some "a cat") None None None))
      (world_with empty_disk (Returned huge_int)) =
    (1, with_event (with_sent (with_event (world_with empty_disk (Returned huge_int))
                                 (Line Stdout (gen_line (bare_args (Some "a cat") None None None))))
                              (post_request "key" (bare_args (Some "a cat") None None None) None None))
          (Traceback (ValueError (to_int_limit 4301)))).
Proof. apply (run_response_value_error _ _ (world_with empty_disk (Returned huge_int)) None None huge_int); vm_compute; reflexivity. Defined.

(** C22. When [main] returns normally from a generation (exit status
    0), exactly one file was written, at a path that did not exist, the
    rest of the disk is as it was, and its name was reported on standard
    output as ["Image saved as: <name>"]. *)
Theorem main_success_writes name args w w' :
  GenParams.list_models args = false -> main name (Parsed args) w = (Ok tt, w') ->
  exists f data, (path_str f ∉ existing (disk_of w)) /\
    disk_of w' = mkDisk (<[path_str f := data]> (files (disk_of w))) (dirs (disk_of w)) (ro_dirs (disk_of w)) /\
    Line Stdout ("Image saved as: " ++ f) ∈ events w'.
Proof.
  intros Hl H. destruct (truthy_str (api_key w)) eqn:Hk; [|rewrite main_eq, Hk in H; discriminate].
  rewrite main_parsed, Hl in H by done. unfold generate in H.
  bind_inv H. destruct (negb _); [unfold parser_error, bind in Hc; simpl in Hc; discriminate|].
  injection Hc as _ <-. bind_inv H. apply dimensions_Ok_inv in Hc as ->.
  bind_inv H. injection Hc as _ <-. bind_inv H. apply generate_image_Ok_inv in Hc as ->.
  unfold save_result in H. bind_inv H. apply lift_Ok_inv in Hc as [_ ->].
  destruct (negb (truthy _)); [unfold bind in H; simpl in H; discriminate|].
  bind_inv H. apply lift_Ok_inv in Hc as [_ ->]. bind_inv H. apply lift_Ok_inv in Hc as [_ ->].
  bind_inv H. apply save_image_Ok in Hc as (_ & Hfree & data & _ & ->).
  bind_inv H. injection Hc as _ <-.
  match type of H with show_timing ?r ?w0 = _ =>
    destruct (show_timing_events r w0) as [Hd [l He]] end.
  rewrite H in Hd, He. simpl in Hd, He, Hfree.
  match type of Hfree with path_str ?f ∉ _ => exists f, data end.
  split; [exact Hfree|]. split; [exact Hd|].
  rewrite He. apply elem_of_app. left. apply elem_of_app. right. by apply list_elem_of_singleton.
Qed.

Definition one_image : response :=
  mkResponse 200 "OK" (BASE_URL ++ "/image/generate")
    (json_text (JDict [("id", JStr "img"); ("images", JList [JStr "AQI="]);
                       ("timing", JDict [("total", JInt 1234)])])) eq_refl.

Lemma main_success_writes_witness :
  exists f data, (path_str f ∉ existing (disk_of (world_with cat_disk (Returned one_image)))) /\
    disk_of (snd (main "venice_image_gen.py" (Parsed (bare_args (Some "a cat") None None None))
                      (world_with cat_disk (Returned one_image)))) =
      mkDisk (<[path_str f := data]> (files cat_disk)) (dirs cat_disk) (ro_dirs cat_disk) /\
    Line Stdout ("Image saved as: " ++ f)
      ∈ events (snd (main "venice_image_gen.py" (Parsed (bare_args (Some "a cat") None None None))
                        (world_with cat_disk (Returned one_image)))).
Proof.
  assert (main "venice_image_gen.py" (Parsed (bare_args (Some "a cat") None None None))
            (world_with cat_disk (Returned one_image)) =
          (Ok tt, snd (main "venice_image_gen.py" (Parsed (bare_args (Some "a cat") None None None))
                         (world_with cat_disk (Returned one_image))))) as H
    by (vm_compute; reflexivity).
  exact (main_success_writes _ (bare_args (Some "a cat") None None None) _ _ eq_refl H).
Defined.

(** The whole output of that run. *)
Example main_success_output :
  events (snd (main "venice_image_gen.py" (Parsed (bare_args (Some "a cat") None None None))
                 (world_with cat_disk (Returned one_image)))) =
    [Line Stdout "Generating image with model 'venice-sd35'...";
     Line Stdout "Image saved as: img.jpeg";
     Line Stdout "Generation completed in 1.23 seconds"].
Proof. vm_compute. reflexivity. Qed.

(** C23. Partial success: the image file is written and reported, then
    a [timing] value that is truthy but not a dict makes [timing.get]
    raise [AttributeError], which nothing catches, so the process exits
    with status 1 although the file exists (the spec: "either one image
    file is written and reported, or none is", with status 0). *)
Theorem save_result_timing_crash args result w imgs id b f w1 t :
  get result "images" (JList []) = Ok imgs -> truthy imgs = true ->
  get result "id" (JStr "generated_image") = Ok id -> index0 imgs = Ok b ->
  save_image b (output args) id (format args) w = (Ok f, w1) ->
  get result "timing" (JDict []) = Ok t -> truthy t = true -> (forall kvs, t <> JDict kvs) ->
  save_result args result w =
    (Raise (AttributeError ("'" ++ type_name t ++ "' object has no attribute 'get'")),
     with_event w1 (Line Stdout ("Image saved as: " ++ f))) /\
  path_str f ∈ dom (files (disk_of w1)).
Proof.
  intros Hi Ht Hid Hb Hs Htm Htt Hnd. split.
  - unfold save_result, bind at 1, lift at 1. rewrite Hi. simpl. rewrite Ht. simpl.
    unfold bind at 1, lift at 1. rewrite Hid. unfold bind at 1, lift at 1. rewrite Hb.
    unfold bind at 1. rewrite Hs. unfold bind at 1, show_timing, bind, lift. simpl. rewrite Htm, Htt.
    destruct t; try reflexivity. by destruct (Hnd kvs).
  - apply save_image_Ok in Hs as (_ & _ & data & _ & ->). simpl. rewrite dom_insert_L. set_solver.
Qed.

Definition int_timing : response :=
  mkResponse 200 "OK" (BASE_URL ++ "/image/generate")
    (json_text (JDict [("images", JList [JStr "AQI="]); ("timing", JInt 1234)])) eq_refl.

Lemma save_result_timing_crash_witness :
  save_result (bare_args (Some "a cat") None None None)
      (JDict [("images", JList [JStr "AQI="]); ("timing", JInt 1234)]) key_world =
    (Raise (AttributeError "'int' object has no attribute 'get'"),
     with_event (snd (save_image (JStr "AQI=") None (JStr "generated_image") "jpeg" key_world))
       (Line Stdout ("Image saved as: " ++ "generated_image.jpeg"))) /\
  path_str "generated_image.jpeg"
    ∈ dom (files (disk_of (snd (save_image (JStr "AQI=") None (JStr "generated_image") "jpeg" key_world)))).
Proof.
  apply (save_result_timing_crash (bare_args (Some "a cat") None None None)
           (JDict [("images", JList [JStr "AQI="]); ("timing", JInt 1234)]) key_world
           (JList [JStr "AQI="]) (JStr "generated_image") (JStr "AQI=") "generated_image.jpeg"
           (snd (save_image (JStr "AQI=") None (JStr "generated_image") "jpeg" key_world)) (JInt 1234));
    try reflexivity; try (intros kvs; discriminate).
  all: vm_compute; reflexivity.
Defined.

(** C30. For an integer total under 100 s, the time line shows
    [total/1000] rounded to the hundredth: ["Generation completed in
    1.23 seconds"] for 1234 ms. The division is correctly rounded and
    the binary value is formatted exactly, so only an exact tie (a total
    ending in 5) can go either way: 1005 ms shows 1.00, 1015 ms 1.01. *)
Theorem show_timing_hundredths result w t n :
  get result "timing" (JDict []) = Ok t -> truthy t = true -> get t "total" (JInt 0) = Ok (JInt n) ->
  (0 <= n < 100000)%Z ->
  exists N, (N = (n + 5) / 10 \/ (n mod 10 = 5 /\ N = n / 10))%Z /\
    show_timing result w =
      (Ok tt, with_event w (Line Stdout ("Generation completed in " ++ hundredths N ++ " seconds"))).
Proof.
  intros Ht Htt Hn Hr.
  pose proof (timing_ok_range n Hr) as Hok. unfold timing_ok in Hok.
  unfold show_timing, bind, lift. rewrite Ht, Htt, Hn. simpl.
  destruct (int_div_1000 n) as [x|e]; [|discriminate]. simpl.
  apply orb_true_iff in Hok as [Hs|Hs].
  - exists ((n + 5) / 10)%Z. apply String.eqb_eq in Hs. rewrite <- Hs. auto.
  - apply andb_true_iff in Hs as [H5 Hs]. apply Z.eqb_eq in H5. apply String.eqb_eq in Hs.
    exists (n / 10)%Z. rewrite <- Hs. auto.
Qed.

Lemma show_timing_hundredths_witness :
  exists N, (N = (1234 + 5) / 10 \/ (1234 mod 10 = 5 /\ N = 1234 / 10))%Z /\
    show_timing (JDict [("timing", JDict [("total", JInt 1234)])]) key_world =
      (Ok tt, with_event key_world (Line Stdout ("Generation completed in " ++ hundredths N ++ " seconds"))).
Proof. apply (show_timing_hundredths _ _ (JDict [("total", JInt 1234)])); try reflexivity. lia. Defined.

(** A payload of strings and booleans is always encoded. *)
Lemma prepare_prompt_only key p : prepare (post_request key (bare_args (Some p) None None None) None None) = None.
Proof. reflexivity. Qed.

(** Everything after [--] is the prompt. *)
Lemma cmdline_of_prompt p : cmdline_of ["--"; p] = Some (Parsed (bare_args (Some p) None None None)).
Proof. reflexivity. Qed.

(** C18. A command line argparse rejects with the message [msg] ends the
    process with status 2 once the key is set: the usage, then
    ["<prog>: error: <msg>"] on standard error; nothing is sent and the
    disk is untouched. *)
Theorem run_argv_rejected name argv w msg :
  truthy_str (api_key w) = true -> Argparse.parse_args argv = Raise (ParserError msg) ->
  run_argv name argv w =
    Some (2, with_event (with_event w Usage) (Line Stderr (name ++ ": error: " ++ msg))).
Proof.
  intros Hk Hp. unfold run_argv, cmdline_of. rewrite Hp. simpl.
  unfold run. rewrite main_eq, Hk. reflexivity.
Qed.

Lemma run_argv_rejected_witness :
  run_argv "venice_image_gen.py" ["--width"; "abc"] key_world =
    Some (2, with_event (with_event key_world Usage)
               (Line Stderr ("venice_image_gen.py" ++ ": error: " ++ "argument --width: invalid int value: 'abc'"))).
Proof. apply run_argv_rejected; vm_compute; reflexivity. Defined.

(** C11. Liveness of the whole program: with the key set, the command
    line [-- <prompt>] for a non-empty prompt, and a service that answers
    the request with a result whose first image decodes, whose [id]
    names a plain file and whose [timing] is falsy or an int total under
    100 s, the process exits with status 0 and the decoded bytes are on
    the disk at a path that did not exist. *)
Theorem run_argv_generates name p w r result imgs b data id t :
  truthy_str (api_key w) = true -> p <> "" ->
  service w (post_request (default "" (api_key w)) (bare_args (Some p) None None None) None None) = Returned r ->
  raise_for_status r = None -> loads (text r) = Ok result ->
  get result "images" (JList []) = Ok imgs -> truthy imgs = true -> index0 imgs = Ok b ->
  b64decode_json b = Ok data ->
  get result "id" (JStr "generated_image") = Ok id ->
  str_contains "/" (py_str id) = false -> str_contains nul (py_str id) = false ->
  get result "timing" (JDict []) = Ok t ->
  truthy t = false \/ (exists n, get t "total" (JInt 0) = Ok (JInt n) /\ (0 <= n < 100000)%Z) ->
  "." ∉ ro_dirs (disk_of w) ->
  exists f w', run_argv name ["--"; p] w = Some (0, w') /\
    (path_str f ∉ existing (disk_of w)) /\ files (disk_of w') !! path_str f = Some data.
Proof.
  intros Hk Hp Hs Hr Hb Hi Hti Hb0 Hd Hid Hsl Hnul Ht Htm Hro.
  unfold run_argv. rewrite cmdline_of_prompt. simpl option_map.
  unfold run. rewrite main_parsed by done. simpl GenParams.list_models.
  rewrite (generate_eq _ _ _ _ None None) by (simpl; destruct (String.eqb_spec p ""); done).
  rewrite (bind_Ok _ _ _ _ _ (generate_image_ok _ _ _ _ (with_event w (Line Stdout (gen_line (bare_args (Some p) None None None)))) r result (prepare_prompt_only _ _) Hs Hr Hb)).
  unfold save_result. rewrite (bind_lift_Ok _ _ _ _ Hi), Hti. cbn [negb].
  rewrite (bind_lift_Ok _ _ _ _ Hid), (bind_lift_Ok _ _ _ _ Hb0).
  match goal with |- context [bind (save_image _ _ _ _) _ ?w2] =>
    edestruct (save_image_succeeds b id "jpeg" w2) as (f & Hfree & Hsave); [exact Hd|done| | |exact Hro|] end.
  { rewrite str_contains_app, Hsl. done. }
  { rewrite str_contains_app, Hnul. done. }
  rewrite (bind_Ok _ _ _ _ _ Hsave). unfold bind at 1. simpl.
  edestruct show_timing_Ok as (w' & Hw' & Hdw'); [exact Ht|exact Htm|].
  rewrite Hw'. exists f, w'. split; [done|]. split; [exact Hfree|].
  rewrite Hdw'. simpl. apply lookup_insert_eq.
Qed.

Lemma run_argv_generates_witness :
  exists f w', run_argv "venice_image_gen.py" ["--"; "a cat"] (world_with cat_disk (Returned one_image)) = Some (0, w') /\
    (path_str f ∉ existing (disk_of (world_with cat_disk (Returned one_image)))) /\ files (disk_of w') !! path_str f = Some [1%Z; 2%Z].
Proof.
  apply (run_argv_generates _ _ _ one_image
           (JDict [("id", JStr "img"); ("images", JList [JStr "AQI="]); ("timing", JDict [("total", JInt 1234)])])
           (JList [JStr "AQI="]) (JStr "AQI=") _ (JStr "img") (JDict [("total", JInt 1234)]));
    try (vm_compute; reflexivity); try discriminate.
  all: try (right; exists 1234%Z; split; [reflexivity|lia]).
  all: vm_compute; set_solver.
Defined.

End Cli.
